(** * Hi-C contact-matrix tile viewer ([HiCHeatmapView], src/app.jsx)

    A shallow embedding of the tile viewer's view state, its tile and
    annotation fetches, the zoom handler, the canvas redraw and the
    pointer hit-tester, followed by the properties of the specification
    that concern them.

    Numbers.  Integral quantities (zoom levels, tile indices, base-pair
    positions) are modelled by [Z].  The other JavaScript numbers are
    modelled twice.  The view state and the first embedding of the redraw
    and the hit-tester take them as exact rationals [Q] (every finite
    double is a rational; comparisons are exact, arithmetic is taken
    without rounding); where the source can produce a non-finite number
    (a division by zero, an index outside the resolution table) that
    embedding branches explicitly and says so.  Module [Double] embeds
    the redraw and the hit-tester again over binary64 numbers, with the
    rounding of every operation. *)

From Stdlib Require Import Floats.
From Stdlib Require Import List String Ascii ZArith QArith Qround Qabs.
From Stdlib Require Import Lia Lqa Bool DecimalString Permutation Sorted.
Import ListNotations.

Local Open Scope string_scope.
Local Open Scope Z_scope.

(* A decimal literal denotes the nearest double, as in JavaScript. *)
Set Warnings "-inexact-float".

(** ** Data model *)

(** [{ zoom, x, y }], the value held by [tileCoords]. *)
Record TileAddress := mkTile { zoom : Z; x : Z; y : Z }.

(** A d3 [ZoomTransform]: [k] is the scale, [(tx, ty)] the translation
    (fields [x] and [y] of the d3 object). *)
Record ViewTransform := mkTransform { tx : Q; ty : Q; k : Q }.

(** [{ start, end }] in base pairs. *)
Record TAD := mkTAD { tad_start : Z; tad_end : Z }.

(** [{ start, end, E1 }]. *)
Record Compartment := mkCompartment { c_start : Z; c_end : Z; E1 : Q }.

(** A matrix cell as it arrives in the JSON payload: [None] is [null]. *)
Definition cell := option Q.
Definition matrix := list (list cell).

(** The body of [POST tads]: the region string is [chr2:<start>-<end>];
    the bounds are [None] when the resolution lookup is [undefined]. *)
Record TadRequest := mkTadRequest { tr_region : option (Z * Z); tr_method : string }.

(** React state of [HiCHeatmapView] (the [useState] cells, under their
    source names) together with the requests that are in flight: a promise
    returned by [fetch] that has not settled yet is an entry of
    [tileFetches], [tadFetches] or [compartmentFetches].  [matrixData],
    [tads], [compartments] and [error] are [None] when the source holds
    [null] or [undefined]. *)
Record ViewState := mkViewState {
  error : option string;
  status : string;
  tads : option (list TAD);
  compartments : option (list Compartment);
  matrixData : option matrix;
  tileCoords : TileAddress;
  transform : ViewTransform;
  tadMethod : string;
  tileFetches : list TileAddress;
  tadFetches : list TadRequest;
  compartmentFetches : list (option (Z * Z))
}.

(** State setters ([setError], [setStatus], ...). *)
Definition setError (s : ViewState) (e : option string) : ViewState :=
  mkViewState e (status s) (tads s) (compartments s) (matrixData s)
    (tileCoords s) (transform s) (tadMethod s)
    (tileFetches s) (tadFetches s) (compartmentFetches s).

Definition setStatus (s : ViewState) (st : string) : ViewState :=
  mkViewState (error s) st (tads s) (compartments s) (matrixData s)
    (tileCoords s) (transform s) (tadMethod s)
    (tileFetches s) (tadFetches s) (compartmentFetches s).

Definition setTads (s : ViewState) (t : option (list TAD)) : ViewState :=
  mkViewState (error s) (status s) t (compartments s) (matrixData s)
    (tileCoords s) (transform s) (tadMethod s)
    (tileFetches s) (tadFetches s) (compartmentFetches s).

Definition setCompartments (s : ViewState) (c : option (list Compartment)) : ViewState :=
  mkViewState (error s) (status s) (tads s) c (matrixData s)
    (tileCoords s) (transform s) (tadMethod s)
    (tileFetches s) (tadFetches s) (compartmentFetches s).

Definition setMatrixData (s : ViewState) (m : option matrix) : ViewState :=
  mkViewState (error s) (status s) (tads s) (compartments s) m
    (tileCoords s) (transform s) (tadMethod s)
    (tileFetches s) (tadFetches s) (compartmentFetches s).

Definition setTileCoords (s : ViewState) (a : TileAddress) : ViewState :=
  mkViewState (error s) (status s) (tads s) (compartments s) (matrixData s)
    a (transform s) (tadMethod s)
    (tileFetches s) (tadFetches s) (compartmentFetches s).

Definition setTransform (s : ViewState) (t : ViewTransform) : ViewState :=
  mkViewState (error s) (status s) (tads s) (compartments s) (matrixData s)
    (tileCoords s) t (tadMethod s)
    (tileFetches s) (tadFetches s) (compartmentFetches s).

Definition setTadMethod (s : ViewState) (m : string) : ViewState :=
  mkViewState (error s) (status s) (tads s) (compartments s) (matrixData s)
    (tileCoords s) (transform s) m
    (tileFetches s) (tadFetches s) (compartmentFetches s).

Definition setTileFetches (s : ViewState) (l : list TileAddress) : ViewState :=
  mkViewState (error s) (status s) (tads s) (compartments s) (matrixData s)
    (tileCoords s) (transform s) (tadMethod s)
    l (tadFetches s) (compartmentFetches s).

Definition setTadFetches (s : ViewState) (l : list TadRequest) : ViewState :=
  mkViewState (error s) (status s) (tads s) (compartments s) (matrixData s)
    (tileCoords s) (transform s) (tadMethod s)
    (tileFetches s) l (compartmentFetches s).

Definition setCompartmentFetches (s : ViewState) (l : list (option (Z * Z))) : ViewState :=
  mkViewState (error s) (status s) (tads s) (compartments s) (matrixData s)
    (tileCoords s) (transform s) (tadMethod s)
    (tileFetches s) (tadFetches s) l.

(** ** Resolution ladder *)

Definition resolutions : list Z :=
  [10000; 20000; 40000; 80000; 160000; 320000; 640000; 1280000; 2560000; 5120000].

(** [resolutions[zoom]]: [None] is JavaScript's [undefined] for an index
    outside the table. *)
Definition resolution (z : Z) : option Z :=
  if z <? 0 then None else nth_error resolutions (Z.to_nat z).

(** [start] and [end] of the region of [handleFindTADs] and
    [handleFindCompartments]. *)
Definition regionOf (a : TileAddress) : option (Z * Z) :=
  match resolution (zoom a) with
  | Some r => Some (x a * 256 * r, (x a + 1) * 256 * r)
  | None => None
  end.

(** ** Tile fetcher *)

(** What a tile request can settle with, by the path the promise chain
    takes: [TileRejected] when [fetch] or [res.json()] rejects or the body
    is JSON [null] (reading [.data] throws), so that [.catch] runs;
    [TileNoData] when the body is JSON without a [data] member, so that
    [tileData.data] is [undefined]; [TileData m] otherwise. *)
Inductive tile_response :=
| TileRejected
| TileNoData
| TileData (m : matrix).

(** The effect with dependency [[tileCoords]]: it runs after the first
    render and after every commit that changed [tileCoords]. *)
Definition tileEffect (s : ViewState) : ViewState :=
  let s := setStatus s "fetching" in
  let s := setError s None in
  let s := setTads s None in
  let s := setCompartments s None in
  setTileFetches s (tileFetches s ++ [tileCoords s]).

(** [setTileCoords(a)] followed by the effect it triggers. *)
Definition changeTileCoords (s : ViewState) (a : TileAddress) : ViewState :=
  tileEffect (setTileCoords s a).

Fixpoint remove_nth {A : Type} (i : nat) (l : list A) : list A :=
  match l, i with
  | [], _ => []
  | _ :: t, O => t
  | h :: t, S j => h :: remove_nth j t
  end.

Definition tileErrorMessage : string := "Could not connect to the backend server.".

(** The continuation of the [i]-th tile request in flight, run when that
    request settles with [r].  The [.then] and [.catch] callbacks do not
    mention the address the request was issued for. *)
Definition tileSettled (s : ViewState) (i : nat) (r : tile_response) : ViewState :=
  match nth_error (tileFetches s) i with
  | None => s
  | Some _ =>
    let s := setTileFetches s (remove_nth i (tileFetches s)) in
    match r with
    | TileData m => setStatus (setMatrixData s (Some m)) "rendered"
    | TileNoData => setStatus (setMatrixData s None) "rendered"
    | TileRejected => setError s (Some tileErrorMessage)
    end
  end.

(** ** Annotation fetchers *)

(** What an annotation request can settle with: [AnnotRejected] when
    [fetch] or [res.json()] rejects or the body is JSON [null];
    [AnnotError] when the body has a truthy [error] member, which the
    [.then] callback rethrows; [AnnotData] otherwise. *)
Inductive annot_response (A : Type) :=
| AnnotRejected
| AnnotError (msg : string)
| AnnotData (d : list A).
Arguments AnnotRejected {A}.
Arguments AnnotError {A} msg.
Arguments AnnotData {A} d.

Definition tadErrorMessage : string := "Failed to fetch TADs.".
Definition compartmentErrorMessage : string := "Failed to fetch A/B compartments.".

Definition handleFindTADs (s : ViewState) : ViewState :=
  setTadFetches s (tadFetches s ++ [mkTadRequest (regionOf (tileCoords s)) (tadMethod s)]).

Definition tadsSettled (s : ViewState) (i : nat) (r : annot_response TAD) : ViewState :=
  match nth_error (tadFetches s) i with
  | None => s
  | Some _ =>
    let s := setTadFetches s (remove_nth i (tadFetches s)) in
    match r with
    | AnnotData d => setTads s (Some d)
    | AnnotError _ | AnnotRejected => setError s (Some tadErrorMessage)
    end
  end.

Definition handleFindCompartments (s : ViewState) : ViewState :=
  setCompartmentFetches s (compartmentFetches s ++ [regionOf (tileCoords s)]).

Definition compartmentsSettled (s : ViewState) (i : nat)
    (r : annot_response Compartment) : ViewState :=
  match nth_error (compartmentFetches s) i with
  | None => s
  | Some _ =>
    let s := setCompartmentFetches s (remove_nth i (compartmentFetches s)) in
    match r with
    | AnnotData d => setCompartments s (Some d)
    | AnnotError _ | AnnotRejected => setError s (Some compartmentErrorMessage)
    end
  end.

(** ** Zoom handler *)

(** [Math.floor(Math.log2(k))] for [k > 0], the range d3's
    [scaleExtent([1, 64])] keeps the scale in: for [k >= 1] it is the
    binary logarithm of the integer part of [k], below 1 the opposite of
    the rounded-up logarithm of [1/k].  The logarithm is taken exactly;
    [Math.log2] is an approximation in double precision, left to the
    engine, whose value can reach the next integer just below a power of
    two. *)
Definition floor_log2 (q : Q) : Z :=
  if Qle_bool 1 q then Z.log2 (Qfloor q)
  else - Z.log2_up (Qceiling (/ q)).

(** [Math.min(9, Math.max(0, Math.floor(Math.log2(event.transform.k))))]. *)
Definition newZoomLevel (q : Q) : Z :=
  Z.min 9 (Z.max 0 (floor_log2 q)).

(** The ['zoom'] listener of [d3.zoom()].  The level is compared with
    the [tileCoords.zoom] of the state: the listener is the one registered
    by the last run of its effect, which runs again whenever
    [tileCoords.zoom] changes. *)
Definition onZoom (s : ViewState) (t : ViewTransform) : ViewState :=
  let level := newZoomLevel (k t) in
  let s := if level =? zoom (tileCoords s) then s
           else changeTileCoords s (mkTile level 0 0) in
  setTransform s t.

(** ** The view as a transition system *)

Definition zoomIdentity : ViewTransform := mkTransform 0 0 1.

Definition initialState : ViewState :=
  mkViewState None "idle" None None None (mkTile 0 0 0) zoomIdentity
    "insulation" [] [] [].

Inductive event :=
| Mount
| ZoomTo (t : ViewTransform)
| TileSettles (i : nat) (r : tile_response)
| SelectTadMethod (m : string)
| ClickFindTADs
| TadsSettle (i : nat) (r : annot_response TAD)
| ClickFindCompartments
| CompartmentsSettle (i : nat) (r : annot_response Compartment).

Definition step (s : ViewState) (e : event) : ViewState :=
  match e with
  | Mount => tileEffect s
  | ZoomTo t => onZoom s t
  | TileSettles i r => tileSettled s i r
  | SelectTadMethod m => setTadMethod s m
  | ClickFindTADs => handleFindTADs s
  | TadsSettle i r => tadsSettled s i r
  | ClickFindCompartments => handleFindCompartments s
  | CompartmentsSettle i r => compartmentsSettled s i r
  end.

Definition run (s : ViewState) (es : list event) : ViewState :=
  fold_left step es s.

(** ** Library functions the viewer calls *)

(** [a < b] on numbers. *)
Definition Qltb (a b : Q) : bool := negb (Qle_bool b a).

Module JS.

(** The decimal digits of a natural number. *)
Definition digits (n : Z) : string :=
  NilZero.string_of_uint (N.to_uint (Z.to_N n)).

(** [v.toFixed(2)]: the integer [n] nearest to [|v| * 100], the larger
    one on a tie, written with two decimals, after [-] when [v < 0].
    (Beyond [1e21] JavaScript switches to exponent notation; the
    embedding keeps writing digits.) *)
Definition toFixed2 (v : Q) : string :=
  let n := Qfloor (Qabs v * 100 + (1 # 2)) in
  (if Qltb v 0 then "-" else "")
    ++ digits (n / 100) ++ "." ++ digits ((n mod 100) / 10) ++ digits (n mod 10).

(** [a || d] on numbers: [undefined] (here [None]) and [0] are falsy. *)
Definition or_default (a : option Q) (d : Q) : Q :=
  match a with
  | Some q => if Qeq_bool q 0 then d else q
  | None => d
  end.

(** [v > 0] on a matrix cell; [null > 0] is [false]. *)
Definition gt0 (v : cell) : bool :=
  match v with
  | Some q => Qltb 0 q
  | None => false
  end.

End JS.

Module D3.

(** *** d3-array: [quantile] *)

(** [numbers(values)]: the entries that are numbers. *)
Definition numbers (values : list cell) : list Q :=
  flat_map (fun v => match v with Some q => [q] | None => [] end) values.

(** Ascending insertion sort, standing for the order statistics that
    the source obtains by quickselect. *)
Fixpoint insert (v : Q) (l : list Q) : list Q :=
  match l with
  | [] => [v]
  | h :: t => if Qle_bool v h then v :: l else h :: insert v t
  end.

Fixpoint sort (l : list Q) : list Q :=
  match l with
  | [] => []
  | h :: t => insert h (sort t)
  end.

(** [d3.quantile(values, p)] (the R-7 method): [undefined] on no
    numbers; the minimum for [p <= 0] or a single number, the maximum
    for [p >= 1]; otherwise the [i0]-th smallest number, [i0] the
    integer part of [i = (n - 1) * p], moved towards the next one by the
    fractional part of [i].  The source selects the two order statistics
    by quickselect; here they are read off the sorted list. *)
Definition quantile (values : list cell) (p : Q) : option Q :=
  let sorted := sort (numbers values) in
  let n := List.length sorted in
  match sorted with
  | [] => None
  | least :: _ =>
    if Qle_bool p 0 || (n <? 2)%nat then Some least
    else if Qle_bool 1 p then Some (last sorted least)
    else
      let i := (inject_Z (Z.of_nat (n - 1)) * p)%Q in
      let i0 := Qfloor i in
      let value0 := nth (Z.to_nat i0) sorted least in
      let value1 := nth (Z.to_nat (i0 + 1)) sorted least in
      Some (value0 + (value1 - value0) * (i - inject_Z i0))%Q
  end.

(** *** d3-scale: [scaleSequential(interpolator).domain([t0, t1])] *)

(** The argument handed to the interpolator for [v]: [(v - t0) / (t1 - t0)],
    and [0.5] for a collapsed domain. *)
Definition sequentialParam (domain : Q * Q) (v : Q) : Q :=
  let '(t0, t1) := domain in
  if Qeq_bool t0 t1 then (1 # 2)%Q else ((v - t0) * / (t1 - t0))%Q.

(** *** d3-zoom: [transform.invert] *)

(** [[(p[0] - x) / k, (p[1] - y) / k]]; [None] when [k] is 0 and the
    quotients are not finite. *)
Definition invert (t : ViewTransform) (p : Q * Q) : option (Q * Q) :=
  if Qeq_bool (k t) 0 then None
  else Some (((fst p - tx t) / k t)%Q, ((snd p - ty t) / k t)%Q).

(** *** d3-format: the [s] type (SI prefix) on integers *)

Fixpoint zeros (n : nat) : string :=
  match n with
  | O => ""
  | S m => "0" ++ zeros m
  end.

(** [formatDecimalParts(x, p)] for an integer [x >= 0] and [p >= 1]:
    the [p] digits and the exponent of [x.toExponential(p - 1)], which
    rounds to [p] significant digits, upwards on a tie. *)
Definition formatDecimalParts (x : Z) (p : nat) : string * Z :=
  if x =? 0 then (zeros p, 0)
  else
    let d := Z.of_nat (String.length (JS.digits x)) in
    let pz := Z.of_nat p in
    if d <=? pz then (JS.digits (x * 10 ^ (pz - d)), d - 1)
    else
      let n := (x + 5 * 10 ^ (d - pz - 1)) / 10 ^ (d - pz) in
      if n =? 10 ^ pz then (JS.digits (10 ^ (pz - 1)), d)
      else (JS.digits n, d - 1).

Definition prefixes : list string :=
  ["y"; "z"; "a"; "f"; "p"; "n"; "µ"; "m"; ""; "k"; "M"; "G"; "T"; "P"; "E"; "Z"; "Y"].

(** [formatPrefixAuto(x, p)], with the [prefixExponent] it leaves in
    the module variable of the source.  The last branch (values below
    [1y]) is never taken for an integer. *)
Definition formatPrefixAuto (x : Z) (p : nat) : string * Z :=
  let '(coefficient, exponent) := formatDecimalParts x p in
  let prefixExponent := Z.max (-8) (Z.min 8 (exponent / 3)) * 3 in
  let i := exponent - prefixExponent + 1 in
  let n := Z.of_nat (String.length coefficient) in
  (if i =? n then coefficient
   else if n <? i then coefficient ++ zeros (Z.to_nat (i - n))
   else if 0 <? i then
     substring 0 (Z.to_nat i) coefficient ++ "."
       ++ substring (Z.to_nat i) (Z.to_nat (n - i)) coefficient
   else "0." ++ zeros (Z.to_nat (- i))
       ++ fst (formatDecimalParts x (Z.to_nat (Z.max 0 (Z.of_nat p + i - 1)))),
   prefixExponent).

(** [d3.format("." + p + "s")(x)] for an integer [x]: the minus sign of
    the default locale (U+2212), the digits, the SI prefix. *)
Definition format_s (p : nat) (x : Z) : string :=
  let precision := Nat.max 1 (Nat.min 21 p) in
  let '(value, prefixExponent) := formatPrefixAuto (Z.abs x) precision in
  (if x <? 0 then "−" else "") ++ value
    ++ nth (Z.to_nat (8 + prefixExponent / 3)) prefixes "".

End D3.

(** ** Geometry shared by the renderer and the hit-tester (exact arithmetic) *)

Definition Qofnat (n : nat) : Q := inject_Z (Z.of_nat n).

(** [viewStart = tileCoords.x * 256 * resolution]. *)
Definition viewStart (a : TileAddress) (r : Z) : Z := x a * 256 * r.

(** [((tad.start - viewStart) / resolution) * pixelSize]. *)
Definition tadX_px (vs r : Z) (pixelSize : Q) (tad : TAD) : Q :=
  (inject_Z (tad_start tad - vs) / inject_Z r * pixelSize)%Q.

(** [((tad.end - tad.start) / resolution) * pixelSize]. *)
Definition tadSize_px (r : Z) (pixelSize : Q) (tad : TAD) : Q :=
  (inject_Z (tad_end tad - tad_start tad) / inject_Z r * pixelSize)%Q.

(** ** Matrix renderer (the canvas part of the render effect; exact arithmetic) *)

(** Calls on the 2-D context, in the order they are made.  [FillRect]
    carries the [fillStyle] in effect, as the argument handed to
    [d3.interpolateYlOrRd]. *)
Inductive canvas_op :=
| Resize (size : Q)
| ClearRect (x0 y0 w h : Q)
| Save
| Restore
| Translate (dx dy : Q)
| Scale (kx ky : Q)
| FillRect (style : Q) (x0 y0 w h : Q)
| StrokeStyle (style : string)
| LineWidth (w : Q)
| StrokeRect (x0 y0 w h : Q).

(** [matrixData.flat().filter(v => v > 0)]. *)
Definition positiveValues (m : matrix) : list cell :=
  filter JS.gt0 (List.concat m).

(** The domain given to [d3.scaleSequential]:
    [[0, d3.quantile(positive values, 0.95) || 1]]. *)
Definition colorDomain (m : matrix) : Q * Q :=
  (0%Q, JS.or_default (D3.quantile (positiveValues m) 0.95%Q) 1%Q).

(** [matrixData[i][j]]: the outer [None] is [undefined] (a row shorter
    than [j]), [Some None] is [null]. *)
Definition cellAt (m : matrix) (i j : nat) : option cell :=
  match nth_error m i with
  | Some row => nth_error row j
  | None => None
  end.

(** The body of the inner loop for cell [(i, j)]. *)
Definition paintCell (m : matrix) (domain : Q * Q) (pixelSize : Q) (i j : nat)
    : list canvas_op :=
  match cellAt m i j with
  | Some (Some value) =>
    if Qltb 0 value then
      [FillRect (D3.sequentialParam domain value)
         (Qofnat j * pixelSize)%Q (Qofnat i * pixelSize)%Q pixelSize pixelSize]
    else []
  | _ => []
  end.

Definition paintCells (m : matrix) (domain : Q * Q) (pixelSize : Q) (numBins : nat)
    : list canvas_op :=
  flat_map (fun i => flat_map (paintCell m domain pixelSize i) (seq 0 numBins))
           (seq 0 numBins).

(** The test guarding [ctx.strokeRect]: [x >= 0 && (x + tadSize) <= size]. *)
Definition tadDrawn (vs r : Z) (pixelSize size : Q) (tad : TAD) : bool :=
  Qle_bool 0 (tadX_px vs r pixelSize tad)
  && Qle_bool (tadX_px vs r pixelSize tad + tadSize_px r pixelSize tad) size.

(** The body of [tads.forEach]. *)
Definition strokeTad (vs r : Z) (pixelSize size : Q) (tad : TAD) : list canvas_op :=
  if tadDrawn vs r pixelSize size tad then
    [StrokeRect (tadX_px vs r pixelSize tad) (tadX_px vs r pixelSize tad)
       (tadSize_px r pixelSize tad) (tadSize_px r pixelSize tad)]
  else [].

(** [if (tads) { ... }].  When the resolution lookup is [undefined] every
    coordinate is [NaN], the guard is false and nothing is stroked; when
    [transform.k] is 0 the line width is not finite and the context
    ignores the assignment. *)
Definition strokeTads (s : ViewState) (pixelSize size : Q) : list canvas_op :=
  match tads s with
  | None => []
  | Some ts =>
    StrokeStyle "rgba(0, 0, 255, 0.7)"
    :: (if Qeq_bool (k (transform s)) 0 then []
        else [LineWidth (2 / k (transform s))%Q])
    ++ match resolution (zoom (tileCoords s)) with
       | Some r => flat_map (strokeTad (viewStart (tileCoords s) r) r pixelSize size) ts
       | None => []
       end
  end.

(** The render effect up to [ctx.restore()]; [width] is
    [dimensions.width], [None] while the container has not been measured. *)
Definition render (s : ViewState) (width : option Q) : list canvas_op :=
  match matrixData s, width with
  | Some m, Some w =>
    let size := (w - 50)%Q in
    let numBins := List.length m in
    [Resize size; ClearRect 0 0 size size; Save;
     Translate (tx (transform s)) (ty (transform s));
     Scale (k (transform s)) (k (transform s))]
    ++ (if (numBins =? 0)%nat then [Restore]
        else
          let pixelSize := (size / Qofnat numBins)%Q in
          paintCells m (colorDomain m) pixelSize numBins
          ++ strokeTads s pixelSize size
          ++ [Restore])
  | _, _ => []
  end.

(** ** Overlay hit-tester ([handleMouseMove]; exact arithmetic) *)

(** What the handler does to the tooltip: nothing (the early [return]),
    [setTooltip({ visible: true, content, x, y })],
    [setTooltip({ visible: false })], or a [TypeError] from calling
    [toFixed] on [undefined]. *)
Inductive tooltip_update :=
| NoUpdate
| ShowTooltip (content : string) (pageX pageY : Q)
| HideTooltip
| TypeError.

(** The containment test of the TAD loop. *)
Definition insideTad (vs r : Z) (pixelSize : Q) (inverted : Q * Q) (tad : TAD) : bool :=
  Qle_bool (tadX_px vs r pixelSize tad) (fst inverted)
  && Qle_bool (fst inverted) (tadX_px vs r pixelSize tad + tadSize_px r pixelSize tad)
  && Qle_bool (tadX_px vs r pixelSize tad) (snd inverted)
  && Qle_bool (snd inverted) (tadX_px vs r pixelSize tad + tadSize_px r pixelSize tad).

(** The content built for a matching TAD. *)
Definition tadTooltip (tad : TAD) : string :=
  "TAD: " ++ D3.format_s 3 (tad_start tad) ++ " - " ++ D3.format_s 3 (tad_end tad).

(** The content built for a cell. *)
Definition scoreTooltip (value : Q) : string :=
  "Score: " ++ JS.toFixed2 value.

(** [for (const tad of tads)] up to its [return]: the first TAD that
    contains the point.  With an [undefined] resolution every comparison
    involves [NaN] and none matches. *)
Definition findTad (s : ViewState) (pixelSize : Q) (inverted : Q * Q) : option TAD :=
  match tads s, resolution (zoom (tileCoords s)) with
  | Some ts, Some r => find (insideTad (viewStart (tileCoords s) r) r pixelSize inverted) ts
  | _, _ => None
  end.

(** The fallback to the cell score.  With [pixelSize = 0] the quotients
    are not finite and fail the bounds test. *)
Definition cellFallback (m : matrix) (pixelSize : Q) (inverted page : Q * Q)
    : tooltip_update :=
  if Qeq_bool pixelSize 0 then HideTooltip
  else
    let i := Qfloor (snd inverted / pixelSize) in
    let j := Qfloor (fst inverted / pixelSize) in
    let numBins := Z.of_nat (List.length m) in
    if (0 <=? i) && (i <? numBins) && (0 <=? j) && (j <? numBins) then
      match cellAt m (Z.to_nat i) (Z.to_nat j) with
      | Some (Some value) => ShowTooltip (scoreTooltip value) (fst page) (snd page)
      | Some None => HideTooltip
      | None => TypeError
      end
    else HideTooltip.

(** [handleMouseMove]: [mouse] is the pointer relative to the canvas
    ([clientX - rect.left], [clientY - rect.top]), [page] is
    [(pageX, pageY)], [canvasWidth] is [canvas.width].  When [transform.k]
    is 0 the inverted point is not finite: no TAD contains it and the
    bounds test fails. *)
Definition handleMouseMove (s : ViewState) (canvasWidth : Q) (mouse page : Q * Q)
    : tooltip_update :=
  match matrixData s with
  | None => NoUpdate
  | Some m =>
    if (List.length m =? 0)%nat then NoUpdate
    else
      match D3.invert (transform s) mouse with
      | None => HideTooltip
      | Some inverted =>
        let pixelSize := (canvasWidth / Qofnat (List.length m))%Q in
        match findTad s pixelSize inverted with
        | Some tad => ShowTooltip (tadTooltip tad) (fst page) (snd page)
        | None => cellFallback m pixelSize inverted page
        end
      end
  end.

(** ** Notions used in the statements *)

(** The status only ever holds one of the three strings the source
    assigns; in particular it is never ["error"]. *)
Definition status_ok (s : ViewState) : Prop :=
  status s = "idle" \/ status s = "fetching" \/ status s = "rendered".

(** The stale-response scenario: the view mounts (request for
    tile 0/0/0), the user zooms to scale 8 (address becomes 3/0/0, second
    request), the second request resolves, then the first. *)
Definition tileA : TileAddress := mkTile 0 0 0.
Definition tileB : TileAddress := mkTile 3 0 0.
Definition matrixA : matrix := [[Some 1%Q]].
Definition matrixB : matrix := [[Some 2%Q]].
Definition stale_prefix : list event :=
  [Mount; ZoomTo (mkTransform 0 0 8); TileSettles 1 (TileData matrixB)].

(** The overlay scenario: a tile is shown, TADs and
    compartments have been fetched, and a second request of each kind is
    in flight. *)
Definition overlay_prefix : list event :=
  [Mount; TileSettles 0 (TileData matrixA);
   ClickFindTADs; TadsSettle 0 (AnnotData [mkTAD 0 20000]);
   ClickFindCompartments; CompartmentsSettle 0 (AnnotData [mkCompartment 0 20000 1]);
   ClickFindTADs; ClickFindCompartments].

(** A response that makes the promise chain of an annotation fetch reach
    its [.catch]. *)
Definition annot_failed {A : Type} (r : annot_response A) : Prop :=
  match r with
  | AnnotData _ => False
  | AnnotRejected | AnnotError _ => True
  end.


(** The matrix of the end-to-end example and a view showing it with one
    TAD that leaves the surface on the right. *)
Definition matrix4 : matrix :=
  map (map (fun z => Some (inject_Z z)))
      [[0; 5; 0; 0]; [5; 0; 3; 0]; [0; 3; 0; 8]; [0; 0; 8; 0]].

Definition view4 (ts : option (list TAD)) : ViewState :=
  setTads (setMatrixData (run initialState [Mount]) (Some matrix4)) ts.

Definition wideTad : TAD := mkTAD 20000 60000.

(** Every address the view can reach is [(level, 0, 0)] with a level of
    the resolution table, so the resolution lookups are always defined. *)
Definition address_ok (s : ViewState) : Prop :=
  0 <= zoom (tileCoords s) <= 9 /\ x (tileCoords s) = 0 /\ y (tileCoords s) = 0.

(** ** Linear scales (d3-scale) and the context's state stack *)

Module Scale.

(** [d3.scaleLinear().domain([d0, d1]).range([r0, r1])] applied to [v]:
    the value is normalised over the domain (from the smaller end, as
    [bimap] does) and interpolated over the range by
    [a * (1 - t) + b * t]; a collapsed domain normalises to [0.5]. *)
Definition scaleLinear (domain range : Q * Q) (v : Q) : Q :=
  let '(d0, d1) := domain in
  let '(r0, r1) := range in
  if Qltb d1 d0 then
    let t := ((v - d1) / (d0 - d1))%Q in
    (r1 * (1 - t) + r0 * t)%Q
  else
    let t := (if Qeq_bool d1 d0 then 1 # 2 else (v - d0) / (d1 - d0))%Q in
    (r0 * (1 - t) + r1 * t)%Q.

End Scale.

(** [Math.max(a, b)]. *)
Definition Qmax (a b : Q) : Q := if Qle_bool a b then b else a.

(** The depth of the context's state stack after a sequence of calls
    started at depth [d]; [None] when a [restore] finds nothing saved. *)
Fixpoint stackDepth (d : nat) (ops : list canvas_op) : option nat :=
  match ops with
  | [] => Some d
  | Save :: rest => stackDepth (S d) rest
  | Restore :: rest =>
    match d with
    | O => None
    | S d' => stackDepth d' rest
    end
  | _ :: rest => stackDepth d rest
  end.

(** * The redraw and the hit-tester in double precision

    The redraw and the pointer handler decide by comparing numbers that
    they first compute in floating point (bin sizes, TAD squares, bin
    indices, the percentile of the colour scale).  This part embeds them
    over Rocq's binary64 numbers, whose operations are those of a
    JavaScript [Number]: [NaN] and the infinities arise and propagate as
    they do in the source, so that a division by zero or an [undefined]
    resolution needs no case of its own. *)

Module Double.

(** *** Numbers *)

(** The [Number] nearest to an integer; exact below [2^53]. *)
Definition ofZ (z : Z) : float := SF2Prim (binary_normalize prec emax z 0 false).

Definition ofNat (n : nat) : float := ofZ (Z.of_nat n).

(** [Math.floor(v)] as an integer; [None] when [v] is [NaN] or infinite
    (every comparison of the bounds test that follows is then decided by
    the caller). *)
Definition floor (v : float) : option Z :=
  match Prim2SF v with
  | S754_zero _ => Some 0
  | S754_finite s m e => Some (Z.shiftl (if s then Z.neg m else Z.pos m) e)
  | S754_infinity _ | S754_nan => None
  end.

(** [a > b] and [a >= b]. *)
Definition gtb (a b : float) : bool := PrimFloat.ltb b a.
Definition geb (a b : float) : bool := PrimFloat.leb b a.

(** A number is falsy when it is [0], [-0] or [NaN]. *)
Definition falsy (v : float) : bool := PrimFloat.eqb v 0 || is_nan v.

(** [a || d] on numbers; [None] is [undefined]. *)
Definition or_default (a : option float) (d : float) : float :=
  match a with
  | Some v => if falsy v then d else v
  | None => d
  end.

(** *** [Number.prototype.toFixed] and [Number::toString] *)

(** The digits [d1 d2 ... dk] written [d1.d2...dk] ([d1] alone for one
    digit). *)
Definition pointAfterFirst (ds : string) : string :=
  match ds with
  | String c EmptyString => ds
  | String c rest => String c ("." ++ rest)
  | EmptyString => ds
  end.

(** Whether the integer [c] is read back as the number [v] (round to
    nearest, ties to even). *)
Definition readsBackAs (c : Z) (v : float) : bool :=
  PrimFloat.eqb (ofZ c) v.

(** The digit string of the [k]-digit decimal [s * 10^(n - k)] that is
    read back as [v] and is nearest to it, if there is one; [X] is the
    integer value of [v] and [n0] the number of its decimal digits.  The
    two decimals of [k] digits around [X] are tried; of two that both
    qualify the nearer one is taken, the even one on a tie. *)
Definition shortestAt (v : float) (X : Z) (n0 k : Z) : option (Z * Z) :=
  let scale := 10 ^ (n0 - k) in
  let lo := X / scale in
  let hi := lo + 1 in
  let okLo := readsBackAs (lo * scale) v in
  let okHi := readsBackAs (hi * scale) v in
  let pickHi := if hi =? 10 ^ k then (10 ^ (k - 1), n0 + 1) else (hi, n0) in
  match okLo, okHi with
  | true, false => Some (lo, n0)
  | false, true => Some pickHi
  | true, true =>
    let dLo := X - lo * scale in
    let dHi := hi * scale - X in
    if dLo <? dHi then Some (lo, n0)
    else if dHi <? dLo then Some pickHi
    else if Z.even lo then Some (lo, n0) else Some pickHi
  | false, false => None
  end.

Fixpoint shortestFrom (v : float) (X : Z) (n0 : Z) (k : Z) (fuel : nat) : Z * Z :=
  match fuel with
  | O => (X, n0)
  | S fuel' =>
    match shortestAt v X n0 k with
    | Some r => r
    | None => shortestFrom v X n0 (k + 1) fuel'
    end
  end.

(** [Number::toString(v)] for a finite [v >= 1e21], whose value is the
    integer [X]: the shortest digits that are read back as [v], in
    exponent notation.  Seventeen digits always suffice. *)
Definition toStringLarge (v : float) (X : Z) : string :=
  let n0 := Z.of_nat (String.length (JS.digits X)) in
  let '(s, n) := shortestFrom v X n0 1 17 in
  pointAfterFirst (JS.digits s) ++ "e+" ++ JS.digits (n - 1).

(** [v.toFixed(2)].  [NaN] and the infinities are written by name; the
    sign is taken from the value ([-0] has none); from [1e21] on the
    digits are those of [Number::toString]; otherwise the integer [n]
    nearest to [|v| * 100], the larger one on a tie, is written with two
    decimals. *)
Definition toFixed2 (v : float) : string :=
  match Prim2SF v with
  | S754_nan => "NaN"
  | S754_infinity s => if s then "-Infinity" else "Infinity"
  | S754_zero _ => "0.00"
  | S754_finite s m e =>
    (if s then "-" else "")
    ++ (if 10 ^ 21 <=? Z.shiftl (Z.pos m) e
        then toStringLarge (abs v) (Z.shiftl (Z.pos m) e)
        else
          let n := Z.shiftl (200 * Z.pos m + Z.shiftl 1 (- e)) (e - 1) in
          JS.digits (n / 100) ++ "." ++ JS.digits ((n mod 100) / 10)
            ++ JS.digits (n mod 10))
  end.

(** *** d3-array: [quantile] *)

(** A matrix cell as it arrives in the JSON payload: [None] is [null]. *)
Definition cell := option float.
Definition matrix := list (list cell).

(** [numbers(values)]: the entries that are numbers and not [NaN]. *)
Definition numbers (values : list cell) : list float :=
  flat_map (fun v => match v with
                     | Some q => if PrimFloat.leb q q then [q] else []
                     | None => []
                     end) values.

(** Ascending insertion sort, standing for the order statistics that
    the source obtains by quickselect. *)
Fixpoint insert (v : float) (l : list float) : list float :=
  match l with
  | [] => [v]
  | h :: t => if PrimFloat.leb v h then v :: l else h :: insert v t
  end.

Fixpoint sort (l : list float) : list float :=
  match l with
  | [] => []
  | h :: t => insert h (sort t)
  end.

(** The R-7 estimate on an ascending list: the [i0]-th number, [i0] the
    integer part of [i = (n - 1) * p], moved towards the next one by the
    fractional part of [i]. *)
Definition interpolated (sorted : list float) (p : float) : float :=
  let n := List.length sorted in
  let i := PrimFloat.mul (ofNat (n - 1)) p in
  match floor i with
  | Some i0 =>
    let value0 := nth (Z.to_nat i0) sorted nan in
    let value1 := nth (Z.to_nat (i0 + 1)) sorted nan in
    PrimFloat.add value0
      (PrimFloat.mul (PrimFloat.sub value1 value0) (PrimFloat.sub i (ofZ i0)))
  | None => nan
  end.

(** [d3.quantile(values, p)]: [undefined] on no numbers or a [NaN]
    [p]; the minimum for [p <= 0] or a single number, the maximum for
    [p >= 1]; otherwise the R-7 estimate.  The source selects the two
    order statistics by quickselect; here they are read off the sorted
    list. *)
Definition quantile (values : list cell) (p : float) : option float :=
  let sorted := sort (numbers values) in
  let n := List.length sorted in
  match sorted with
  | [] => None
  | least :: _ =>
    if is_nan p then None
    else if PrimFloat.leb p 0 || (n <? 2)%nat then Some least
    else if geb p 1 then Some (last sorted least)
    else Some (interpolated sorted p)
  end.

(** *** d3-scale: [scaleSequential(interpolator).domain([t0, t1])] *)

(** The argument handed to the interpolator for [v]: [(v - t0) * k10]
    with [k10 = 1 / (t1 - t0)], and [0.5] when [k10] is [0] (a collapsed
    domain). *)
Definition sequentialParam (domain : float * float) (v : float) : float :=
  let '(t0, t1) := domain in
  let k10 := if PrimFloat.eqb t0 t1 then 0%float
             else PrimFloat.div 1 (PrimFloat.sub t1 t0) in
  if PrimFloat.eqb k10 0 then 0.5%float
  else PrimFloat.mul (PrimFloat.sub v t0) k10.

(** *** The view *)

(** A d3 [ZoomTransform]: [k] is the scale, [(tx, ty)] the translation
    (fields [x] and [y] of the d3 object). *)
Record Transform := mkTransform { tx : float; ty : float; k : float }.

(** [{ start, end, E1 }]. *)
Record Compartment := mkCompartment { c_start : Z; c_end : Z; E1 : float }.

(** What the render effect and the pointer handler close over. *)
Record View := mkView {
  matrixData : option matrix;
  tads : option (list TAD);
  compartments : option (list Compartment);
  tileCoords : TileAddress;
  transform : Transform
}.

(** [resolutions[tileCoords.zoom]] as a number: [undefined] turns every
    expression it enters into [NaN]. *)
Definition resolutionOf (a : TileAddress) : float :=
  match resolution (zoom a) with
  | Some r => ofZ r
  | None => nan
  end.

(** [viewStart = tileCoords.x * 256 * resolution]. *)
Definition viewStart (a : TileAddress) : float :=
  PrimFloat.mul (PrimFloat.mul (ofZ (x a)) 256) (resolutionOf a).

(** [((tad.start - viewStart) / resolution) * pixelSize]. *)
Definition tadX_px (vs r pixelSize : float) (tad : TAD) : float :=
  PrimFloat.mul (PrimFloat.div (PrimFloat.sub (ofZ (tad_start tad)) vs) r) pixelSize.

(** [((tad.end - tad.start) / resolution) * pixelSize]. *)
Definition tadSize_px (r pixelSize : float) (tad : TAD) : float :=
  PrimFloat.mul
    (PrimFloat.div (PrimFloat.sub (ofZ (tad_end tad)) (ofZ (tad_start tad))) r)
    pixelSize.

(** [matrixData[i][j]]: the outer [None] is [undefined] (a row shorter
    than [j]), [Some None] is [null]. *)
Definition cellAt (m : matrix) (i j : nat) : option cell :=
  match nth_error m i with
  | Some row => nth_error row j
  | None => None
  end.

(** *** The canvas element *)

(** The value [canvas.width] holds after [canvas.width = v] (and
    [canvas.height] after [canvas.height = v]): [v] is converted to an
    unsigned 32-bit integer (truncated, modulo [2^32]; [0] for [NaN] and
    the infinities) and kept when it is at most [2^31 - 1]; otherwise the
    attribute takes its default (300 for the width, 150 for the height). *)
Definition toUint32 (v : float) : Z :=
  match Prim2SF v with
  | S754_finite s m e =>
    (if s then - Z.shiftl (Z.pos m) e else Z.shiftl (Z.pos m) e) mod 2 ^ 32
  | _ => 0
  end.

Definition reflected (default : Z) (v : float) : Z :=
  if toUint32 v <=? 2147483647 then toUint32 v else default.

Definition canvasWidth (v : float) : Z := reflected 300 v.
Definition canvasHeight (v : float) : Z := reflected 150 v.

(** *** Matrix renderer (the canvas part of the render effect) *)

(** Calls and assignments on the canvas and its 2-D context, in the
    order they are made.  [Resize] is the pair of assignments to
    [canvas.width] and [canvas.height], with the values the element
    keeps; [FillRect] carries the [fillStyle] in effect, as the argument
    handed to [d3.interpolateYlOrRd]; [LineWidth] is the assignment,
    which the context ignores unless the value is finite and positive. *)
Inductive canvas_op :=
| Resize (width height : Z)
| ClearRect (x0 y0 w h : float)
| Save
| Restore
| Translate (dx dy : float)
| Scale (kx ky : float)
| FillRect (style : float) (x0 y0 w h : float)
| StrokeStyle (style : string)
| LineWidth (w : float)
| StrokeRect (x0 y0 w h : float).

(** [v > 0] on a matrix cell; [null > 0] is [false]. *)
Definition gt0 (v : cell) : bool :=
  match v with
  | Some q => gtb q 0
  | None => false
  end.

(** [matrixData.flat().filter(v => v > 0)]. *)
Definition positiveValues (m : matrix) : list cell :=
  filter gt0 (List.concat m).

(** The domain given to [d3.scaleSequential]:
    [[0, d3.quantile(positive values, 0.95) || 1]]. *)
Definition colorDomain (m : matrix) : float * float :=
  (0%float, or_default (quantile (positiveValues m) 0.95%float) 1%float).

(** The body of the inner loop for cell [(i, j)]. *)
Definition paintCell (m : matrix) (domain : float * float) (pixelSize : float)
    (i j : nat) : list canvas_op :=
  match cellAt m i j with
  | Some (Some value) =>
    if gtb value 0 then
      [FillRect (sequentialParam domain value)
         (PrimFloat.mul (ofNat j) pixelSize) (PrimFloat.mul (ofNat i) pixelSize)
         pixelSize pixelSize]
    else []
  | _ => []
  end.

Definition paintCells (m : matrix) (domain : float * float) (pixelSize : float)
    (numBins : nat) : list canvas_op :=
  flat_map (fun i => flat_map (paintCell m domain pixelSize i) (seq 0 numBins))
           (seq 0 numBins).

(** The test guarding [ctx.strokeRect]: [x >= 0 && (x + tadSize) <= size]. *)
Definition tadDrawn (vs r pixelSize size : float) (tad : TAD) : bool :=
  geb (tadX_px vs r pixelSize tad) 0
  && PrimFloat.leb
       (PrimFloat.add (tadX_px vs r pixelSize tad) (tadSize_px r pixelSize tad)) size.

(** The body of [tads.forEach]. *)
Definition strokeTad (vs r pixelSize size : float) (tad : TAD) : list canvas_op :=
  if tadDrawn vs r pixelSize size tad then
    [StrokeRect (tadX_px vs r pixelSize tad) (tadX_px vs r pixelSize tad)
       (tadSize_px r pixelSize tad) (tadSize_px r pixelSize tad)]
  else [].

(** [if (tads) { ... }]. *)
Definition strokeTads (v : View) (pixelSize size : float) : list canvas_op :=
  match tads v with
  | None => []
  | Some ts =>
    [StrokeStyle "rgba(0, 0, 255, 0.7)";
     LineWidth (PrimFloat.div 2 (k (transform v)))]
    ++ flat_map (strokeTad (viewStart (tileCoords v)) (resolutionOf (tileCoords v))
                   pixelSize size) ts
  end.

(** The render effect up to [ctx.restore()]; [width] is
    [dimensions.width], [None] while the container has not been measured. *)
Definition render (v : View) (width : option float) : list canvas_op :=
  match matrixData v, width with
  | Some m, Some w =>
    let size := PrimFloat.sub w 50 in
    let numBins := List.length m in
    [Resize (canvasWidth size) (canvasHeight size); ClearRect 0 0 size size; Save;
     Translate (tx (transform v)) (ty (transform v));
     Scale (k (transform v)) (k (transform v))]
    ++ (if (numBins =? 0)%nat then [Restore]
        else
          let pixelSize := PrimFloat.div size (ofNat numBins) in
          paintCells m (colorDomain m) pixelSize numBins
          ++ strokeTads v pixelSize size
          ++ [Restore])
  | _, _ => []
  end.

(** *** The compartment track (the end of the render effect) *)

(** [d3.scaleLinear().domain([d0, d1]).range([r0, r1])] applied to a
    number [v] that is not [NaN]: [bimap] normalises [v] over the domain,
    from its smaller end, and interpolates over the range by
    [a * (1 - t) + b * t]; a collapsed domain normalises to [0.5] and one
    with a [NaN] bound to [NaN]. *)
Definition scaleLinear (domain range : float * float) (v : float) : float :=
  let '(d0, d1) := domain in
  let '(r0, r1) := range in
  let '(a, b, ra, rb) := if PrimFloat.ltb d1 d0 then (d1, d0, r1, r0)
                         else (d0, d1, r0, r1) in
  let b' := PrimFloat.sub b a in
  let t := if falsy b' then (if is_nan b' then nan else 0.5%float)
           else PrimFloat.div (PrimFloat.sub v a) b' in
  PrimFloat.add (PrimFloat.mul ra (PrimFloat.sub 1 t)) (PrimFloat.mul rb t).

(** [[startCoord, endCoord]], the domain of both axis scales. *)
Definition axisDomain (v : View) (size : float) : float * float :=
  let resolution := resolutionOf (tileCoords v) in
  let genomicExtent :=
    PrimFloat.mul (PrimFloat.div size (k (transform v))) resolution in
  let startCoord :=
    PrimFloat.sub (viewStart (tileCoords v))
      (PrimFloat.mul (PrimFloat.div (tx (transform v)) (k (transform v))) resolution) in
  (startCoord, PrimFloat.add startCoord genomicExtent).

(** [xScale(g)] for an integer [g]. *)
Definition xScale (v : View) (size : float) (g : Z) : float :=
  scaleLinear (axisDomain v size) (0%float, size) (ofZ g).

(** [Math.max(a, b)]. *)
Definition max (a b : float) : float :=
  if is_nan a || is_nan b then nan else if PrimFloat.ltb a b then b else a.

(** [Math.sign(v)], as the key under which an ordinal scale files it:
    [-1], [1], [0] (for both zeros) or [NaN]. *)
Inductive sign_key := Minus1 | Plus1 | Zero | NotANumber.

Definition sign (v : float) : sign_key :=
  if is_nan v then NotANumber
  else if PrimFloat.ltb v 0 then Minus1
  else if PrimFloat.ltb 0 v then Plus1
  else Zero.

Definition sign_key_eqb (a b : sign_key) : bool :=
  match a, b with
  | Minus1, Minus1 | Plus1, Plus1 | Zero, Zero | NotANumber, NotANumber => true
  | _, _ => false
  end.

Fixpoint indexOf (d : sign_key) (domain : list sign_key) : option nat :=
  match domain with
  | [] => None
  | h :: t => if sign_key_eqb d h then Some O
              else match indexOf d t with
                   | Some i => Some (S i)
                   | None => None
                   end
  end.

(** One call of a [d3.scaleOrdinal] with range [['blue', 'red']]: a key
    that is not in the domain is appended to it, and the answer is
    [range[i % 2]] for the index [i] of the key.  The domain is the state
    of the scale. *)
Definition ordinal (domain : list sign_key) (d : sign_key) : list sign_key * string :=
  let '(domain', i) :=
    match indexOf d domain with
    | Some i => (domain, i)
    | None => ((domain ++ [d])%list, List.length domain)
    end in
  (domain', if Nat.even i then "blue" else "red").

(** The [fill] of each compartment in turn, from a scale whose domain
    is [domain] at the start. *)
Fixpoint fills (domain : list sign_key) (cs : list Compartment) : list string :=
  match cs with
  | [] => []
  | c :: rest =>
    let '(domain', colour) := ordinal domain (sign (E1 c)) in
    colour :: fills domain' rest
  end.

(** A [rect] appended to the compartment track. *)
Record StripRect := mkStripRect {
  sr_x : float; sr_y : float; sr_width : float; sr_height : float; sr_fill : string
}.

(** The rectangles of the compartments: [x], [y], [width] and [height]
    of each, and the fills from a fresh scale with domain [[-1, 1]]. *)
Definition compartmentRects (v : View) (size : float) (cs : list Compartment)
    : list StripRect :=
  map (fun cf : Compartment * string =>
         let (c, colour) := cf in
         mkStripRect (xScale v size (c_start c)) 0
           (max 1 (PrimFloat.sub (xScale v size (c_end c)) (xScale v size (c_start c))))
           20 colour)
      (combine cs (fills [Minus1; Plus1] cs)).

(** What the render effect does to the compartment track: [None] when
    it returns before reaching it (no matrix, no measured container, an
    empty matrix), otherwise the rectangles that replace its content. *)
Definition compartmentTrack (v : View) (width : option float)
    : option (list StripRect) :=
  match matrixData v, width with
  | Some m, Some w =>
    if (List.length m =? 0)%nat then None
    else
      match compartments v with
      | None => Some []
      | Some cs => Some (compartmentRects v (PrimFloat.sub w 50) cs)
      end
  | _, _ => None
  end.

(** *** Overlay hit-tester ([handleMouseMove]) *)

(** What the handler does to the tooltip: nothing (the early [return]),
    [setTooltip({ visible: true, content, x, y })],
    [setTooltip({ visible: false })], or a [TypeError] from calling
    [toFixed] on [undefined]. *)
Inductive tooltip_update :=
| NoUpdate
| ShowTooltip (content : string) (pageX pageY : float)
| HideTooltip
| TypeError.

(** [transform.invert([mouseX, mouseY])]. *)
Definition invert (t : Transform) (p : float * float) : float * float :=
  (PrimFloat.div (PrimFloat.sub (fst p) (tx t)) (k t),
   PrimFloat.div (PrimFloat.sub (snd p) (ty t)) (k t)).

(** The containment test of the TAD loop. *)
Definition insideTad (vs r pixelSize : float) (inverted : float * float) (tad : TAD)
    : bool :=
  geb (fst inverted) (tadX_px vs r pixelSize tad)
  && PrimFloat.leb (fst inverted)
       (PrimFloat.add (tadX_px vs r pixelSize tad) (tadSize_px r pixelSize tad))
  && geb (snd inverted) (tadX_px vs r pixelSize tad)
  && PrimFloat.leb (snd inverted)
       (PrimFloat.add (tadX_px vs r pixelSize tad) (tadSize_px r pixelSize tad)).

(** The content built for a matching TAD. *)
Definition tadTooltip (tad : TAD) : string :=
  "TAD: " ++ D3.format_s 3 (tad_start tad) ++ " - " ++ D3.format_s 3 (tad_end tad).

(** The content built for a cell. *)
Definition scoreTooltip (value : float) : string :=
  "Score: " ++ toFixed2 value.

(** [for (const tad of tads)] up to its [return]: the first TAD that
    contains the point. *)
Definition findTad (v : View) (pixelSize : float) (inverted : float * float)
    : option TAD :=
  match tads v with
  | Some ts =>
    find (insideTad (viewStart (tileCoords v)) (resolutionOf (tileCoords v))
            pixelSize inverted) ts
  | None => None
  end.

(** [i >= 0 && i < numBins] for [i = Math.floor(q)]: the index when the
    test passes.  A [NaN] or infinite [q] fails it. *)
Definition binIndex (q : float) (numBins : nat) : option nat :=
  match floor q with
  | Some i => if (0 <=? i) && (i <? Z.of_nat numBins) then Some (Z.to_nat i) else None
  | None => None
  end.

(** The fallback to the cell score. *)
Definition cellFallback (m : matrix) (pixelSize : float) (inverted page : float * float)
    : tooltip_update :=
  match binIndex (PrimFloat.div (snd inverted) pixelSize) (List.length m),
        binIndex (PrimFloat.div (fst inverted) pixelSize) (List.length m) with
  | Some i, Some j =>
    match cellAt m i j with
    | Some (Some value) => ShowTooltip (scoreTooltip value) (fst page) (snd page)
    | Some None => HideTooltip
    | None => TypeError
    end
  | _, _ => HideTooltip
  end.

(** [handleMouseMove]: [mouse] is the pointer relative to the canvas
    ([clientX - rect.left], [clientY - rect.top]), [page] is
    [(pageX, pageY)], [width] is [canvas.width]. *)
Definition handleMouseMove (v : View) (width : Z) (mouse page : float * float)
    : tooltip_update :=
  match matrixData v with
  | None => NoUpdate
  | Some m =>
    if (List.length m =? 0)%nat then NoUpdate
    else
      let inverted := invert (transform v) mouse in
      let pixelSize := PrimFloat.div (ofZ width) (ofNat (List.length m)) in
      match findTad v pixelSize inverted with
      | Some tad => ShowTooltip (tadTooltip tad) (fst page) (snd page)
      | None => cellFallback m pixelSize inverted page
      end
  end.

End Double.

(** * Gene tracks ([GeneTracksView], src/app.jsx) *)

(** The text of an uploaded file is modelled by the bytes of its UTF-8
    encoding; the source works on the decoded string, and the operations
    below (splitting at a tab or a newline, testing a prefix or a suffix,
    cutting at a semicolon or a quote, recognising white space) give the
    same result on either. *)

Module Tracks.

Definition tab : ascii := ascii_of_nat 9.
Definition newline : ascii := ascii_of_nat 10.
Definition dquote : ascii := ascii_of_nat 34.

(** [s.split(sep)] for a one-character separator: never empty, the empty
    string gives one empty field. *)
Fixpoint split (sep : ascii) (s : string) : list string :=
  match s with
  | EmptyString => [EmptyString]
  | String c rest =>
    if Ascii.eqb c sep then EmptyString :: split sep rest
    else
      match split sep rest with
      | field :: fields => String c field :: fields
      | [] => [String c EmptyString]
      end
  end.

(** A one-byte white space or line terminator of JavaScript: tab, line
    feed, vertical tab, form feed, carriage return, space. *)
Definition white1 (c : ascii) : bool :=
  let n := nat_of_ascii c in
  ((9 <=? n) && (n <=? 13) || (n =? 32))%nat.

(** U+00A0 in UTF-8. *)
Definition white2 (c1 c2 : ascii) : bool :=
  ((nat_of_ascii c1 =? 194) && (nat_of_ascii c2 =? 160))%nat.

(** The three-byte ones: U+1680, U+2000 to U+200A, U+2028, U+2029,
    U+202F, U+205F, U+3000 and U+FEFF. *)
Definition white3 (c1 c2 c3 : ascii) : bool :=
  let a := nat_of_ascii c1 in
  let b := nat_of_ascii c2 in
  let c := nat_of_ascii c3 in
  ((a =? 225) && (b =? 154) && (c =? 128)
   || (a =? 226) && (b =? 128)
      && ((128 <=? c) && (c <=? 138) || (c =? 168) || (c =? 169) || (c =? 175))
   || (a =? 226) && (b =? 129) && (c =? 159)
   || (a =? 227) && (b =? 128) && (c =? 128)
   || (a =? 239) && (b =? 187) && (c =? 191))%nat.

(** [line.trim() === ''] *)
Fixpoint isBlank (s : string) : bool :=
  match s with
  | EmptyString => true
  | String c1 r1 =>
    if white1 c1 then isBlank r1
    else
      match r1 with
      | EmptyString => false
      | String c2 r2 =>
        if white2 c1 c2 then isBlank r2
        else
          match r2 with
          | EmptyString => false
          | String c3 r3 => if white3 c1 c2 c3 then isBlank r3 else false
          end
      end
  end.

(** [line.startsWith('#')] *)
Definition isComment (s : string) : bool :=
  match s with
  | String c _ => Ascii.eqb c "#"%char
  | EmptyString => false
  end.

(** The filter of both parsers:
    [line.trim() !== '' && !line.startsWith('#')]. *)
Definition keepLine (line : string) : bool :=
  negb (isBlank line) && negb (isComment line).

(** [name.endsWith(suffix)] *)
Definition endsWith (suffix s : string) : bool :=
  let n := String.length s in
  let m := String.length suffix in
  (m <=? n)%nat && String.eqb (substring (n - m) m s) suffix.

(** A number obtained by unary plus, kept as the text it is read from:
    [NumberOf s] is [+s], [NotANumber] is [+undefined], [Zero] is the
    literal [0]. *)
Inductive jsnumber :=
| NumberOf (s : string)
| NotANumber
| Zero.

(** [{ chrom, start, end, name, score }] *)
Record Feature := mkFeature {
  chrom : string;
  f_start : jsnumber;
  f_end : jsnumber;
  f_name : string;
  f_score : jsnumber
}.

(** [+fields[i]] *)
Definition numberAt (fields : list string) (i : nat) : jsnumber :=
  match nth_error fields i with
  | Some s => NumberOf s
  | None => NotANumber
  end.

(** The callback of [map] in the [.bed] branch. *)
Definition parseBedLine (line : string) : Feature :=
  let fields := split tab line in
  mkFeature (hd EmptyString fields)
    (numberAt fields 1) (numberAt fields 2)
    (match nth_error fields 3 with Some name => name | None => EmptyString end)
    (match nth_error fields 4 with
     | Some EmptyString | None => Zero
     | Some score => NumberOf score
     end).

Definition parseBed (content : string) : list Feature :=
  map parseBedLine (filter keepLine (split newline content)).

(** The longest prefix without the character [c]. *)
Fixpoint takeUntil (c : ascii) (s : string) : string :=
  match s with
  | EmptyString => EmptyString
  | String a rest => if Ascii.eqb a c then EmptyString else String a (takeUntil c rest)
  end.

(** [s] without its first [n] characters. *)
Fixpoint drop (n : nat) (s : string) : string :=
  match n, s with
  | O, _ => s
  | S m, String _ rest => drop m rest
  | S _, EmptyString => EmptyString
  end.

(** [/Name=([^;]+)/] anchored at the start of [s]. *)
Definition nameHere (s : string) : option string :=
  if prefix "Name=" s then
    match takeUntil ";"%char (drop 5 s) with
    | EmptyString => None
    | captured => Some captured
    end
  else None.

Definition geneNameOpening : string := "gene_name " ++ String dquote EmptyString.

(** The second pattern of the source ([gene_name], a space, and between
    two double quotes a captured non-empty run of characters other than
    the double quote) anchored at the start of [s]: the run has to be
    followed by a double quote. *)
Definition geneNameHere (s : string) : option string :=
  if prefix geneNameOpening s then
    let rest := drop 11 s in
    match takeUntil dquote rest with
    | EmptyString => None
    | captured =>
      match drop (String.length captured) rest with
      | EmptyString => None
      | String _ _ => Some captured
      end
    end
  else None.

(** [s.match(re)] for a pattern without alternatives: the match at the
    leftmost position that has one; the result is the first capture. *)
Fixpoint firstMatch (here : string -> option string) (s : string) : option string :=
  match here s with
  | Some captured => Some captured
  | None =>
    match s with
    | EmptyString => None
    | String _ rest => firstMatch here rest
    end
  end.

(** The name taken from the attribute column. *)
Definition attributeName (attributes : string) : string :=
  match firstMatch nameHere attributes with
  | Some name => name
  | None =>
    match firstMatch geneNameHere attributes with
    | Some name => name
    | None => EmptyString
    end
  end.

(** The callback of [map] in the [.gff]/[.gtf] branch; [None] is the
    [TypeError] of [attributes.match] on a line with fewer than nine
    columns. *)
Definition parseGffLine (line : string) : option Feature :=
  let parts := split tab line in
  match nth_error parts 8 with
  | None => None
  | Some attributes =>
    Some (mkFeature (hd EmptyString parts)
            (numberAt parts 3) (numberAt parts 4)
            (attributeName attributes)
            (match nth_error parts 5 with
             | Some "." => Zero
             | _ => numberAt parts 5
             end))
  end.

(** [map] stops at the first callback that throws. *)
Fixpoint mapOrThrow {A B : Type} (f : A -> option B) (l : list A) : option (list B) :=
  match l with
  | [] => Some []
  | a :: rest =>
    match f a with
    | None => None
    | Some b =>
      match mapOrThrow f rest with
      | None => None
      | Some bs => Some (b :: bs)
      end
    end
  end.

Definition parseGff (content : string) : option (list Feature) :=
  mapOrThrow parseGffLine (filter keepLine (split newline content)).

(** The state of [GeneTracksView] that the file input touches. *)
Record TracksState := mkTracksState {
  bedData : option (list Feature);
  fileName : string
}.

(** [reader.onload]: [None] when the callback throws. *)
Definition parseFile (name content : string) : option (list Feature) :=
  if endsWith ".bed" name then Some (parseBed content)
  else if endsWith ".gff" name || endsWith ".gtf" name then parseGff content
  else Some [].

(** [handleFileChange] together with the [onload] it arms: [file] is
    [event.target.files[0]] as the pair of its name and its text.  When
    the callback throws, [setBedData] is not reached. *)
Definition handleFileChange (st : TracksState) (file : option (string * string))
    : TracksState :=
  match file with
  | None => mkTracksState None EmptyString
  | Some (name, content) =>
    match parseFile name content with
    | Some parsedData => mkTracksState (Some parsedData) name
    | None => mkTracksState (bedData st) name
    end
  end.

End Tracks.

(** * Gene information panel ([GeneInfoPanel], src/app.jsx) *)

Module GeneInfo.

(** The members of the ENSEMBL answer that the panel reads. *)
Record GeneDetails := mkGeneDetails {
  gd_id : string;
  gd_description : option string;
  gd_biotype : string
}.

(** An entry of the Reactome pathway list. *)
Record Pathway := mkPathway { stId : string }.

(** The Reactome diagram: [nodes] and [edges] are [None] when the member
    is missing. *)
Record DiagramNode := mkDiagramNode { dbId : Z; displayName : string; schemaClass : string }.
Record DiagramEdge := mkDiagramEdge { e_from : Z; e_to : Z }.
Record Diagram := mkDiagram {
  d_nodes : option (list DiagramNode);
  d_edges : option (list DiagramEdge)
}.

(** [{ nodes, edges }] as handed to [PathwayGraph]. *)
Record GraphNode := mkGraphNode { n_id : Z; n_name : string; n_type : string }.
Record GraphEdge := mkGraphEdge { source : Z; target : Z }.
Record Graph := mkGraph { nodes : list GraphNode; edges : list GraphEdge }.

(** What [response.json()] gives: a rejection, JSON [null], or a value. *)
Inductive body (A : Type) :=
| Unreadable
| Null
| Value (a : A).
Arguments Unreadable {A}.
Arguments Null {A}.
Arguments Value {A} a.

(** What a [fetch] settles with: a rejection, or a response with its
    [ok] flag and its body. *)
Inductive fetched (A : Type) :=
| Rejected
| Response (ok : bool) (b : body A).
Arguments Rejected {A}.
Arguments Response {A} ok b.

(** The four [useState] cells of the panel. *)
Record PanelState := mkPanel {
  geneDetails : option GeneDetails;
  pathwayGraph : option Graph;
  isLoading : bool;
  pathwayStatus : string
}.

(** The [.catch] at the end of the chain. *)
Definition onCatch (p : PanelState) : PanelState :=
  mkPanel (geneDetails p) (pathwayGraph p) false "error".

Definition lookupUrl (name : string) : string :=
  "https://rest.ensembl.org/lookup/symbol/homo_sapiens/" ++ name
    ++ "?content-type=application/json".

Definition pathwaysUrl (ensemblId : string) : string :=
  "https://reactome.org/ContentService/data/pathways/low/entity/" ++ ensemblId
    ++ "/allforms?species=9606".

Definition diagramUrl (ensemblId firstPathwayId : string) : string :=
  "https://reactome.org/ContentService/data/diagram/entity/" ++ ensemblId
    ++ "/allforms?flg=" ++ firstPathwayId.

(** The last [.then]: building the graph from the diagram. *)
Definition onDiagram (p : PanelState) (graphData : body Diagram) : PanelState :=
  match graphData with
  | Unreadable => onCatch p
  | Null => p
  | Value g =>
    match d_nodes g, d_edges g with
    | Some ns, Some es =>
      mkPanel (geneDetails p)
        (Some (mkGraph
                 (map (fun n => mkGraphNode (dbId n) (displayName n) (schemaClass n)) ns)
                 (map (fun e => mkGraphEdge (e_from e) (e_to e)) es)))
        (isLoading p) "success"
    | _, _ => onCatch p
    end
  end.

(** The effect with dependency [[gene]], run to the end of its promise
    chain: [lookup], [pathways] and [diagram] are what the three requests
    settle with (those that are issued).  The result is the final state
    and the addresses requested, in order. *)
Definition geneEffect (gene : option Tracks.Feature)
    (lookup : fetched GeneDetails) (pathways : fetched (list Pathway))
    (diagram : fetched Diagram) : PanelState * list string :=
  let p0 := mkPanel None None true "idle" in
  match gene with
  | None => (mkPanel None None false "idle", [])
  | Some g =>
    if String.eqb (Tracks.f_name g) "" then (mkPanel None None false "idle", [])
    else
      let url1 := lookupUrl (Tracks.f_name g) in
      match lookup with
      | Rejected | Response false _ | Response true Unreadable => (onCatch p0, [url1])
      | Response true Null =>
        (onCatch (mkPanel None None false "loading"), [url1])
      | Response true (Value data) =>
        let p1 := mkPanel (Some data) None false "loading" in
        let url2 := pathwaysUrl (gd_id data) in
        let noData := (mkPanel (Some data) None false "no_data", [url1; url2]) in
        let withList (l : list Pathway) :=
          match l with
          | [] => noData
          | first :: _ =>
            let url3 := diagramUrl (gd_id data) (stId first) in
            (match diagram with
             | Rejected | Response false _ => onCatch p1
             | Response true graphData => onDiagram p1 graphData
             end, [url1; url2; url3])
          end in
        match pathways with
        | Rejected | Response true Unreadable => (onCatch p1, [url1; url2])
        | Response false _ | Response true Null => noData
        | Response true (Value l) => withList l
        end
      end
  end.

End GeneInfo.

(** * Track chart (the render effect of [GeneTracksView]) *)

Module Chart.

(** What the chart reads of a feature, for the features whose [start]
    and [end] are finite numbers. *)
Record Item := mkItem { chromosome : string; start : Q; stop : Q }.

(** [d3.min(values)] and [d3.max(values)]: one pass that keeps the first
    value and replaces it by every strictly smaller (larger) one;
    [undefined] on no value. *)
Definition d3min (values : list Q) : option Q :=
  fold_left (fun acc v =>
               match acc with
               | None => Some v
               | Some m => if Qltb v m then Some v else acc
               end) values None.

Definition d3max (values : list Q) : option Q :=
  fold_left (fun acc v =>
               match acc with
               | None => Some v
               | Some m => if Qltb m v then Some v else acc
               end) values None.

(** [chartWidth = width - margin.left - margin.right]. *)
Definition chartWidth (width : Q) : Q := (width - 90 - 30)%Q.

(** [xScale]: the linear scale from the data extent, widened by a tenth
    of its length on either side, to [[0, chartWidth]]; [None] when there
    is no feature (the extent is [undefined]). *)
Definition xScale (data : list Item) (width : Q) : option (Q -> Q) :=
  match d3min (map start data), d3max (map stop data) with
  | Some minCoord, Some maxCoord =>
    let padding := ((maxCoord - minCoord) * (1 # 10))%Q in
    Some (Scale.scaleLinear ((minCoord - padding)%Q, (maxCoord + padding)%Q)
            (0%Q, chartWidth width))
  | _, _ => None
  end.

(** The [x] and [width] attributes of the rectangle of a feature. *)
Definition rectX (scale : Q -> Q) (d : Item) : Q := scale (start d).
Definition rectWidth (scale : Q -> Q) (d : Item) : Q :=
  Qmax 1 (scale (stop d) - scale (start d)).

(** The keys of [d3.group(bedData, d => d.chrom)]: the chromosomes in
    the order of their first feature. *)
Fixpoint groupKeys (data : list Item) (seen : list string) : list string :=
  match data with
  | [] => []
  | d :: rest =>
    if existsb (String.eqb (chromosome d)) seen then groupKeys rest seen
    else chromosome d :: groupKeys rest (chromosome d :: seen)
  end.

Definition chromosomes (data : list Item) : list string := groupKeys data [].

(** [dataByChrom.get(c)]: the features of chromosome [c], in file order. *)
Definition groupOf (data : list Item) (c : string) : list Item :=
  filter (fun d => String.eqb (chromosome d) c) data.

(** The rows of the chart: one group per chromosome, holding one
    rectangle per feature of that chromosome. *)
Definition rows (data : list Item) : list (string * list Item) :=
  map (fun c => (c, groupOf data c)) (chromosomes data).

End Chart.

(** ** Notions used in the further properties *)

(** A region the viewer can ask annotations for: the first 256 bins at
    one of the ten resolutions. *)
Definition region_ok (g : option (Z * Z)) : Prop :=
  exists z r, 0 <= z <= 9 /\ resolution z = Some r /\ g = Some (0, 256 * r).

(** What holds of the requests in flight in every state the view
    reaches. *)
Definition requests_ok (s : ViewState) : Prop :=
  Forall (fun a => 0 <= zoom a <= 9 /\ x a = 0 /\ y a = 0) (tileFetches s) /\
  Forall (fun q => region_ok (tr_region q)) (tadFetches s) /\
  Forall region_ok (compartmentFetches s).

(** A call that neither saves nor restores the context state. *)
Definition keeps_stack (op : canvas_op) : Prop :=
  op <> Save /\ op <> Restore.

(** A gene picked from a track and the answers of a full lookup. *)
Definition geneTP53 : Tracks.Feature :=
  Tracks.mkFeature "chr17" (Tracks.NumberOf "7661779") (Tracks.NumberOf "7687550")
    "TP53" Tracks.Zero.

Definition detailsTP53 : GeneInfo.GeneDetails :=
  GeneInfo.mkGeneDetails "ENSG00000141510" (Some "tumor protein p53") "protein_coding".

Definition diagramTP53 : GeneInfo.Diagram :=
  GeneInfo.mkDiagram
    (Some [GeneInfo.mkDiagramNode 1 "TP53" "Protein"; GeneInfo.mkDiagramNode 2 "MDM2" "Protein"])
    (Some [GeneInfo.mkDiagramEdge 2 1]).

(** Whether the character [c] occurs in [s]. *)
Fixpoint hasChar (c : ascii) (s : string) : bool :=
  match s with
  | EmptyString => false
  | String a rest => Ascii.eqb a c || hasChar c rest
  end.

(** The fields written one after the other with [sep] between them. *)
Fixpoint join (sep : ascii) (fields : list string) : string :=
  match fields with
  | [] => EmptyString
  | [field] => field
  | field :: rest => field ++ String sep (join sep rest)
  end.

(** Whether [p] occurs in [s], at any position. *)
Fixpoint occurs (p s : string) : bool :=
  prefix p s
  || match s with
     | EmptyString => false
     | String _ rest => occurs p rest
     end.

(** A line break, as a string. *)
Definition nl : string := String Tracks.newline EmptyString.

(** A GFF line of nine columns and a BED file of two features with a
    header and a blank line. *)
Definition gffLine : string :=
  join Tracks.tab ["chr17"; "havana"; "gene"; "7661779"; "7687550"; "."; "-"; ".";
                   "ID=gene:ENSG00000141510;Name=TP53;biotype=protein_coding"].

(** The attribute column of a GTF line. *)
Definition gtfAttributes : string :=
  "gene_id " ++ String Tracks.dquote "ENSG00000139618" ++ String Tracks.dquote "; "
  ++ Tracks.geneNameOpening ++ "BRCA2" ++ String Tracks.dquote "; level 2".

Definition bedFile : string :=
  "# two genes" ++ nl ++ join Tracks.tab ["chr17"; "7661779"; "7687550"] ++ nl
  ++ "  " ++ nl ++ join Tracks.tab ["chr13"; "32315474"; "32400266"; "BRCA2"; "960"].

(** Three features on two chromosomes. *)
Definition chartData : list Chart.Item :=
  [Chart.mkItem "chr17" 7661779 7687550; Chart.mkItem "chr13" 32315474 32400266;
   Chart.mkItem "chr17" 43044295 43125483].

(** ** Notions used in the statements on the double-precision model *)

(** The strictly positive numbers of a matrix, row by row. *)
Definition positives (m : Double.matrix) : list float :=
  flat_map (fun c : Double.cell =>
              match c with
              | Some q => if PrimFloat.ltb 0 q then [q] else []
              | None => []
              end)
           (List.concat m).

(** The rank of a positive number: exponent and mantissa, or [None] for
    infinity. *)
Definition positive_rank (f : spec_float) : option (option (Z * positive)) :=
  match f with
  | S754_infinity false => Some None
  | S754_finite false m e => Some (Some (e, m))
  | _ => None
  end.

Definition rank_le (a b : option (Z * positive)) : Prop :=
  match a, b with
  | _, None => True
  | None, Some _ => False
  | Some (e1, m1), Some (e2, m2) => e1 < e2 \/ (e1 = e2 /\ (m1 <= m2)%positive)
  end.

(** Ascending order on a list of numbers. *)
Definition ascending (l : list float) : Prop :=
  Sorted (fun a b => PrimFloat.leb a b = true) l.

Definition all_positive (l : list float) : Prop :=
  Forall (fun a => PrimFloat.ltb 0 a = true) l.

(** The six values 0, 0, 5, 10, 20, 100 of the colour-domain example,
    arranged in two rows out of order, and an all-zero matrix. *)
Definition matrix6 : Double.matrix :=
  [[Some 0%float; Some 100%float; Some 5%float];
   [Some 20%float; Some 0%float; Some 10%float]].

Definition zeros2 : Double.matrix :=
  [[Some 0%float; Some 0%float]; [Some 0%float; Some 0%float]].

(** A view of a matrix at tile 0/0/0 under the identity transform. *)
Definition viewOf (m : Double.matrix) (ts : option (list TAD)) : Double.View :=
  Double.mkView (Some m) ts None (mkTile 0 0 0) (Double.mkTransform 0 0 1).

(** The pointer in tile pixels: the view transform undone,
    [((mouseX - x) / k, (mouseY - y) / k)]. *)
Definition tilePoint (t : Double.Transform) (mouse : float * float) : float * float :=
  (PrimFloat.div (PrimFloat.sub (fst mouse) (Double.tx t)) (Double.k t),
   PrimFloat.div (PrimFloat.sub (snd mouse) (Double.ty t)) (Double.k t)).

(** The base pairs per bin at the view's zoom level ([NaN] outside the
    table) and the base pair at the left end of the tile. *)
Definition binResolution (v : Double.View) : float :=
  match nth_error resolutions (Z.to_nat (zoom (Double.tileCoords v))) with
  | Some r => if zoom (Double.tileCoords v) <? 0 then nan else Double.ofZ r
  | None => nan
  end.

Definition tileStart (v : Double.View) : float :=
  PrimFloat.mul (PrimFloat.mul (Double.ofZ (x (Double.tileCoords v))) 256)
                (binResolution v).

(** The square of a TAD on a surface whose bins are [binSize] wide:
    its left (and top) edge, its side, and its right (and bottom) edge. *)
Definition tadLeft (v : Double.View) (binSize : float) (tad : TAD) : float :=
  PrimFloat.mul
    (PrimFloat.div (PrimFloat.sub (Double.ofZ (tad_start tad)) (tileStart v))
                   (binResolution v))
    binSize.

Definition tadSide (v : Double.View) (binSize : float) (tad : TAD) : float :=
  PrimFloat.mul
    (PrimFloat.div
       (PrimFloat.sub (Double.ofZ (tad_end tad)) (Double.ofZ (tad_start tad)))
       (binResolution v))
    binSize.

Definition tadRight (v : Double.View) (binSize : float) (tad : TAD) : float :=
  PrimFloat.add (tadLeft v binSize tad) (tadSide v binSize tad).

(** The point [p] lies in the square of [tad], sides included. *)
Definition inTadSquare (v : Double.View) (binSize : float) (p : float * float)
    (tad : TAD) : bool :=
  PrimFloat.leb (tadLeft v binSize tad) (fst p)
  && PrimFloat.leb (fst p) (tadRight v binSize tad)
  && PrimFloat.leb (tadLeft v binSize tad) (snd p)
  && PrimFloat.leb (snd p) (tadRight v binSize tad).

(** The text of a TAD tooltip and of a score tooltip. *)
Definition tadText (tad : TAD) : string :=
  "TAD: " ++ D3.format_s 3 (tad_start tad) ++ " - " ++ D3.format_s 3 (tad_end tad).

Definition scoreText (value : float) : string := "Score: " ++ Double.toFixed2 value.

(** A 4x4 matrix with a contact on every cell of the diagonal, three
    TADs of which the second and the third contain the bin (2, 2), and
    a view of them that is panned by (10, 20) and zoomed by 2. *)
Definition matrix4d : Double.matrix :=
  [[Some 7%float; Some 5%float; Some 0%float; Some 0%float];
   [Some 5%float; Some 7%float; Some 3%float; Some 0%float];
   [Some 0%float; Some 3%float; Some 7%float; Some 8%float];
   [Some 0%float; Some 0%float; Some 8%float; None]].

Definition tads3 : list TAD := [mkTAD 0 10000; mkTAD 20000 30000; mkTAD 10000 30000].

Definition pannedView (ts : option (list TAD)) : Double.View :=
  Double.mkView (Some matrix4d) ts None (mkTile 0 0 0) (Double.mkTransform 10 20 2).







(** The view of the end-to-end example: tile 0/0/0 with the 4x4 matrix
    and the TAD 0-20000, under the identity transform. *)
Definition matrix4e : Double.matrix :=
  map (map (fun z => Some (Double.ofZ z)))
      [[0; 5; 0; 0]; [5; 0; 3; 0]; [0; 3; 0; 8]; [0; 0; 8; 0]].

Definition exampleView : Double.View := viewOf matrix4e (Some [mkTAD 0 20000]).

(** A TAD that leaves the surface on the right of the 4x4 example. *)
Definition wideTadView : Double.View := viewOf matrix4e (Some [mkTAD 20000 60000]).

(** The scale's domain always begins with the two keys it was given;
    while no [NaN] has been filed, the only other key is [0]. *)
Definition domain_ok (domain : list Double.sign_key) : Prop :=
  exists rest, domain = Double.Minus1 :: Double.Plus1 :: rest.

Definition domain_plain (domain : list Double.sign_key) : Prop :=
  domain = [Double.Minus1; Double.Plus1]
  \/ domain = [Double.Minus1; Double.Plus1; Double.Zero].

(** A view of the 4x4 example with four compartments: a positive, a
    zero, an undefined ([NaN]) and a negative first eigenvector. *)
Definition compartmentView : Double.View :=
  Double.mkView (Some matrix4e) None
    (Some [Double.mkCompartment 0 20000 1; Double.mkCompartment 20000 20000 0;
           Double.mkCompartment 20000 30000 nan;
           Double.mkCompartment 30000 20000 (-2)])
    (mkTile 0 0 0) (Double.mkTransform 0.1 0 3).

(** * Properties *)

(** ** Tile fetcher and annotation fetchers *)

Lemma tileSettled_data (s : ViewState) (i : nat) (a : TileAddress) (m : matrix) :
  nth_error (tileFetches s) i = Some a ->
  tileSettled s i (TileData m)
  = setStatus (setMatrixData (setTileFetches s (remove_nth i (tileFetches s))) (Some m))
      "rendered".
Proof.
  intros H. unfold tileSettled. rewrite H. reflexivity.
Qed.

Lemma onZoom_changes (s : ViewState) (t : ViewTransform) :
  newZoomLevel (k t) <> zoom (tileCoords s) ->
  onZoom s t = setTransform (changeTileCoords s (mkTile (newZoomLevel (k t)) 0 0)) t.
Proof.
  intros H. unfold onZoom.
  destruct (Z.eqb_spec (newZoomLevel (k t)) (zoom (tileCoords s))) as [E|E];
    [contradiction | reflexivity].
Qed.

Lemma onZoom_same_level (s : ViewState) (t : ViewTransform) :
  newZoomLevel (k t) = zoom (tileCoords s) ->
  onZoom s t = setTransform s t.
Proof.
  intros H. unfold onZoom. rewrite H, Z.eqb_refl. reflexivity.
Qed.

Lemma step_status_ok (s : ViewState) (e : event) :
  status_ok s -> status_ok (step s e).
Proof.
  unfold status_ok. intros H.
  destruct e as [ |t|i r|m| |i r| |i r]; simpl.
  - right; left; reflexivity.
  - unfold onZoom.
    destruct (newZoomLevel (k t) =? zoom (tileCoords s)); simpl;
      [exact H | right; left; reflexivity].
  - unfold tileSettled. destruct (nth_error (tileFetches s) i); [|exact H].
    destruct r; simpl; auto.
  - exact H.
  - exact H.
  - unfold tadsSettled. destruct (nth_error (tadFetches s) i); [|exact H].
    destruct r; simpl; exact H.
  - exact H.
  - unfold compartmentsSettled.
    destruct (nth_error (compartmentFetches s) i); [|exact H].
    destruct r; simpl; exact H.
Qed.

Lemma run_status_ok (es : list event) (s : ViewState) :
  status_ok s -> status_ok (run s es).
Proof.
  revert s. induction es as [|e es IH]; intros s H; simpl.
  - exact H.
  - apply IH. apply step_status_ok. exact H.
Qed.

Lemma status_never_error (es : list event) :
  status (run initialState es) <> "error".
Proof.
  destruct (run_status_ok es initialState) as [H|[H|H]];
    [left; reflexivity | | | ]; rewrite H; discriminate.
Qed.

(** C1, as stated, fails on the code: after the address moved from
    tile A to tile B and B's matrix was stored, the late response for A
    replaces it. *)
Lemma stale_tile_response_overwrites :
  let s := run initialState stale_prefix in
  tileCoords s = tileB /\ matrixData s = Some matrixB /\
  nth_error (tileFetches s) 0 = Some tileA /\
  let s' := step s (TileSettles 0 (TileData matrixA)) in
  tileCoords s' = tileB /\ matrixData s' = Some matrixA /\
  matrixData s' <> matrixData s.
Proof.
  vm_compute. repeat split; discriminate.
Qed.

(** C1 (amended): when the address changes from A to B while the fetch for
    A is outstanding, the late result for A is not discarded: once it
    resolves with a matrix, that matrix is stored and the status becomes
    [rendered], while the current address stays B. *)
Theorem late_tile_result_is_applied (s : ViewState) (t : ViewTransform)
    (i : nat) (m : matrix) :
  nth_error (tileFetches s) i = Some (tileCoords s) ->
  newZoomLevel (k t) <> zoom (tileCoords s) ->
  let s1 := onZoom s t in
  let s2 := tileSettled s1 i (TileData m) in
  tileCoords s1 <> tileCoords s /\
  nth_error (tileFetches s1) i = Some (tileCoords s) /\
  tileCoords s2 = tileCoords s1 /\
  matrixData s2 = Some m /\
  status s2 = "rendered".
Proof.
  intros Hi Hz s1 s2.
  assert (H1 : nth_error (tileFetches s1) i = Some (tileCoords s)).
  { unfold s1. rewrite (onZoom_changes s t Hz). simpl.
    rewrite nth_error_app1; [exact Hi|].
    apply nth_error_Some. rewrite Hi. discriminate. }
  split.
  { unfold s1. rewrite (onZoom_changes s t Hz). simpl.
    intros E. apply Hz. rewrite <- E. reflexivity. }
  split; [exact H1|].
  unfold s2. rewrite (tileSettled_data s1 i _ m H1). simpl.
  repeat split; reflexivity.
Qed.

Lemma late_tile_result_is_applied_witness :
  let s := run initialState [Mount] in
  let s1 := onZoom s (mkTransform 0 0 8) in
  let s2 := tileSettled s1 0 (TileData matrixA) in
  tileCoords s1 <> tileCoords s /\
  nth_error (tileFetches s1) 0 = Some (tileCoords s) /\
  tileCoords s2 = tileCoords s1 /\
  matrixData s2 = Some matrixA /\
  status s2 = "rendered".
Proof.
  apply (late_tile_result_is_applied (run initialState [Mount])
           (mkTransform 0 0 8) 0 matrixA).
  - reflexivity.
  - vm_compute. discriminate.
Defined.

(** C2, as stated, fails on the code: a rejected tile fetch leaves the
    status at [fetching], never [error]; and a payload without [data] is
    taken as a success that replaces the stored matrix. *)
Lemma failed_tile_fetch_status_not_error :
  status (run initialState [Mount; TileSettles 0 TileRejected]) = "fetching" /\
  status (run initialState [Mount; TileSettles 0 TileRejected]) <> "error" /\
  let s := run initialState [Mount; TileSettles 0 (TileData matrixA); ZoomTo (mkTransform 0 0 8)] in
  matrixData s = Some matrixA /\
  matrixData (step s (TileSettles 0 TileNoData)) = None /\
  status (step s (TileSettles 0 TileNoData)) = "rendered".
Proof.
  vm_compute. repeat split; discriminate.
Qed.

(** C2 (amended): a tile fetch that is rejected (network error, a body
    that is not JSON, a [null] payload) sets the error message and leaves
    the stored matrix, the status, the overlays and the address as they
    were. *)
Theorem rejected_tile_fetch_sets_error (s : ViewState) (i : nat) (a : TileAddress) :
  nth_error (tileFetches s) i = Some a ->
  let s' := tileSettled s i TileRejected in
  error s' = Some tileErrorMessage /\
  matrixData s' = matrixData s /\
  status s' = status s /\
  tads s' = tads s /\
  compartments s' = compartments s /\
  tileCoords s' = tileCoords s.
Proof.
  intros H. unfold tileSettled. rewrite H. simpl.
  repeat split; reflexivity.
Qed.

Lemma rejected_tile_fetch_sets_error_witness :
  let s := run initialState [Mount] in
  let s' := tileSettled s 0 TileRejected in
  error s' = Some tileErrorMessage /\
  matrixData s' = matrixData s /\
  status s' = status s /\
  tads s' = tads s /\
  compartments s' = compartments s /\
  tileCoords s' = tileCoords s.
Proof.
  apply (rejected_tile_fetch_sets_error (run initialState [Mount]) 0 tileA).
  reflexivity.
Defined.

(** C3, as stated, fails on the code: a failing annotation fetch sets the
    error message but the overlay fetched before stays in place. *)
Lemma failed_annotation_fetch_keeps_overlay :
  let s := run initialState overlay_prefix in
  let s1 := step s (TadsSettle 0 AnnotRejected) in
  let s2 := step s (CompartmentsSettle 0 (AnnotError "no such region")) in
  error s1 = Some tadErrorMessage /\
  tads s1 = Some [mkTAD 0 20000] /\ tads s1 <> None /\
  error s2 = Some compartmentErrorMessage /\
  compartments s2 = Some [mkCompartment 0 20000 1] /\ compartments s2 <> None.
Proof.
  vm_compute. repeat split; discriminate.
Qed.

(** C3 (amended): a failing annotation fetch (TADs or A/B compartments)
    sets its user-visible error message and leaves both overlay
    collections as they were. *)
Theorem failed_annotation_fetch_sets_error (s : ViewState) (i : nat) :
  (forall (q : TadRequest) (r : annot_response TAD),
      nth_error (tadFetches s) i = Some q -> annot_failed r ->
      let s' := tadsSettled s i r in
      error s' = Some tadErrorMessage /\
      tads s' = tads s /\ compartments s' = compartments s) /\
  (forall (q : option (Z * Z)) (r : annot_response Compartment),
      nth_error (compartmentFetches s) i = Some q -> annot_failed r ->
      let s' := compartmentsSettled s i r in
      error s' = Some compartmentErrorMessage /\
      tads s' = tads s /\ compartments s' = compartments s).
Proof.
  split; intros q r Hq Hr.
  - unfold tadsSettled. rewrite Hq.
    destruct r as [|msg|d]; simpl in *; [| |contradiction];
      repeat split; reflexivity.
  - unfold compartmentsSettled. rewrite Hq.
    destruct r as [|msg|d]; simpl in *; [| |contradiction];
      repeat split; reflexivity.
Qed.

Lemma failed_annotation_fetch_sets_error_witness :
  let s := run initialState overlay_prefix in
  (let s' := tadsSettled s 0 (AnnotError "bad region") in
   error s' = Some tadErrorMessage /\
   tads s' = tads s /\ compartments s' = compartments s) /\
  (let s' := compartmentsSettled s 0 AnnotRejected in
   error s' = Some compartmentErrorMessage /\
   tads s' = tads s /\ compartments s' = compartments s).
Proof.
  split.
  - apply (proj1 (failed_annotation_fetch_sets_error
                    (run initialState overlay_prefix) 0)
             (mkTadRequest (Some (0, 2560000)) "insulation")).
    + reflexivity.
    + exact I.
  - apply (proj2 (failed_annotation_fetch_sets_error
                    (run initialState overlay_prefix) 0)
             (Some (0, 2560000))).
    + reflexivity.
    + exact I.
Defined.

(** C5: whenever an event changes the tile address, the status becomes
    [fetching], both overlay collections are cleared, and the requests in
    flight grow by exactly one, for the new address. *)
Theorem tile_address_change_refetches (s : ViewState) (e : event) :
  tileCoords (step s e) <> tileCoords s ->
  status (step s e) = "fetching" /\
  tads (step s e) = None /\
  compartments (step s e) = None /\
  tileFetches (step s e) = (tileFetches s ++ [tileCoords (step s e)])%list.
Proof.
  intros H.
  destruct e as [ |t|i r|m| |i r| |i r]; cbn [step] in *.
  - exfalso. apply H. reflexivity.
  - destruct (Z.eq_dec (newZoomLevel (k t)) (zoom (tileCoords s))) as [E|E].
    + exfalso. apply H. rewrite (onZoom_same_level s t E). reflexivity.
    + rewrite (onZoom_changes s t E). simpl. repeat split; reflexivity.
  - exfalso. apply H. unfold tileSettled.
    destruct (nth_error (tileFetches s) i); [destruct r|]; reflexivity.
  - exfalso. apply H. reflexivity.
  - exfalso. apply H. reflexivity.
  - exfalso. apply H. unfold tadsSettled.
    destruct (nth_error (tadFetches s) i); [destruct r|]; reflexivity.
  - exfalso. apply H. reflexivity.
  - exfalso. apply H. unfold compartmentsSettled.
    destruct (nth_error (compartmentFetches s) i); [destruct r|]; reflexivity.
Qed.

Lemma tile_address_change_refetches_witness :
  let s := run initialState overlay_prefix in
  let e := ZoomTo (mkTransform 0 0 8) in
  status (step s e) = "fetching" /\
  tads (step s e) = None /\
  compartments (step s e) = None /\
  tileFetches (step s e) = (tileFetches s ++ [tileCoords (step s e)])%list.
Proof.
  apply (tile_address_change_refetches (run initialState overlay_prefix)
           (ZoomTo (mkTransform 0 0 8))).
  vm_compute. discriminate.
Defined.

(** ** Zoom level *)


(** ** The redraw and the hit-tester in exact arithmetic *)

Lemma Qltb_iff (a b : Q) : Qltb a b = true <-> (a < b)%Q.
Proof.
  unfold Qltb. rewrite negb_true_iff. split.
  - intros H. apply Qnot_le_lt. intros Hle.
    rewrite (proj2 (Qle_bool_iff b a) Hle) in H. discriminate.
  - intros H. destruct (Qle_bool b a) eqn:E; [|reflexivity].
    apply Qle_bool_iff in E. exfalso. exact (Qlt_not_le _ _ H E).
Qed.

Lemma Some_inj {A : Type} (a b : A) : Some a = Some b -> a = b.
Proof. congruence. Qed.

Lemma paintCell_In (m : matrix) (dom : Q * Q) (ps : Q) (i j : nat) (op : canvas_op) :
  In op (paintCell m dom ps i j) <->
  exists v, cellAt m i j = Some (Some v) /\ (0 < v)%Q /\
            op = FillRect (D3.sequentialParam dom v)
                   (Qofnat j * ps)%Q (Qofnat i * ps)%Q ps ps.
Proof.
  unfold paintCell. split.
  - destruct (cellAt m i j) as [[v|]|]; try contradiction.
    destruct (Qltb 0 v) eqn:E; [|contradiction].
    intros [H|[]]. exists v. apply Qltb_iff in E. auto.
  - intros [v [Hc [Hv Hop]]]. rewrite Hc.
    rewrite (proj2 (Qltb_iff 0 v) Hv). left. auto.
Qed.

Lemma paintCells_In (m : matrix) (dom : Q * Q) (ps : Q) (n : nat) (op : canvas_op) :
  In op (paintCells m dom ps n) <->
  exists i j v, (i < n)%nat /\ (j < n)%nat /\
    cellAt m i j = Some (Some v) /\ (0 < v)%Q /\
    op = FillRect (D3.sequentialParam dom v)
           (Qofnat j * ps)%Q (Qofnat i * ps)%Q ps ps.
Proof.
  unfold paintCells. rewrite in_flat_map. split.
  - intros [i [Hi H]]. apply in_flat_map in H. destruct H as [j [Hj H]].
    apply paintCell_In in H. destruct H as [v H].
    apply in_seq in Hi. apply in_seq in Hj.
    exists i, j, v. repeat split; try tauto; lia.
  - intros [i [j [v [Hi [Hj H]]]]]. exists i. split; [apply in_seq; lia|].
    apply in_flat_map. exists j. split; [apply in_seq; lia|].
    apply paintCell_In. exists v. exact H.
Qed.

Lemma strokeTad_In (vs r : Z) (ps size : Q) (tad : TAD) (op : canvas_op) :
  In op (strokeTad vs r ps size tad) <->
  tadDrawn vs r ps size tad = true /\
  op = StrokeRect (tadX_px vs r ps tad) (tadX_px vs r ps tad)
         (tadSize_px r ps tad) (tadSize_px r ps tad).
Proof.
  unfold strokeTad. destruct (tadDrawn vs r ps size tad); simpl.
  - split; [intros [H|[]]; auto | intros [_ H]; auto].
  - split; [contradiction | intros [H _]; discriminate].
Qed.


(** * Properties of the redraw and the hit-tester in double precision *)

(** ** Order of the doubles *)

Lemma positive_spec (v : float) :
  PrimFloat.ltb 0 v = true -> exists r, positive_rank (Prim2SF v) = Some r.
Proof.
  rewrite ltb_spec. change (Prim2SF 0) with (S754_zero false).
  destruct (Prim2SF v) as [s|s| |s m e]; try destruct s; simpl;
    try discriminate; eauto.
Qed.

Lemma positive_rank_inj (f g : spec_float) (r : option (Z * positive)) :
  positive_rank f = Some r -> positive_rank g = Some r -> f = g.
Proof.
  destruct f as [s|s| |s m e]; try destruct s; simpl; try discriminate;
    destruct g as [s'|s'| |s' m' e']; try destruct s'; simpl; try discriminate;
    intros H1 H2; congruence.
Qed.

Lemma SFleb_rank (f g : spec_float) (a b : option (Z * positive)) :
  positive_rank f = Some a -> positive_rank g = Some b ->
  (SFleb f g = true <-> rank_le a b).
Proof.
  destruct f as [s|s| |s m e]; try destruct s; simpl; try discriminate;
    destruct g as [s'|s'| |s' m' e']; try destruct s'; simpl; try discriminate;
    intros H1 H2; apply Some_inj in H1; apply Some_inj in H2; subst a b;
    unfold SFleb, SFcompare, rank_le; try tauto.
  - split; [discriminate | intros []].
  - rewrite Pos.compare_cont_spec. simpl.
    destruct (Z.compare_spec e e') as [E|E|E].
    + subst e'. destruct (Pos.compare_spec m m') as [F|F|F].
      * split; [intros _; right; split; [reflexivity | lia] | reflexivity].
      * split; [intros _; right; split; [reflexivity | lia] | reflexivity].
      * split; [discriminate | intros [H|[_ H]]; lia].
    + split; [intros _; left; exact E | reflexivity].
    + split; [discriminate | intros [H|[H _]]; lia].
Qed.

Lemma rank_le_total (a b : option (Z * positive)) : rank_le a b \/ rank_le b a.
Proof.
  destruct a as [[e1 m1]|], b as [[e2 m2]|]; simpl; auto.
  destruct (Z.lt_trichotomy e1 e2) as [H|[H|H]]; auto.
  destruct (Pos.leb_spec m1 m2) as [F|F]; [left | right]; right; split; auto; lia.
Qed.

Lemma rank_le_antisym (a b : option (Z * positive)) :
  rank_le a b -> rank_le b a -> a = b.
Proof.
  destruct a as [[e1 m1]|], b as [[e2 m2]|]; simpl; try tauto.
  intros [H|[H1 H2]] [H'|[H1' H2']]; try lia.
  subst. f_equal. f_equal. lia.
Qed.

Lemma rank_le_trans (a b c : option (Z * positive)) :
  rank_le a b -> rank_le b c -> rank_le a c.
Proof.
  destruct a as [[e1 m1]|], b as [[e2 m2]|], c as [[e3 m3]|]; simpl; try tauto.
  intros [H|[H1 H2]] [H'|[H1' H2']]; try (left; lia).
  right. split; lia.
Qed.

(** On positive numbers [<=] is a total order. *)
Lemma leb_total_pos (a b : float) :
  PrimFloat.ltb 0 a = true -> PrimFloat.ltb 0 b = true ->
  PrimFloat.leb a b = false -> PrimFloat.leb b a = true.
Proof.
  intros Ha Hb H.
  destruct (positive_spec a Ha) as [ra Ra], (positive_spec b Hb) as [rb Rb].
  rewrite leb_spec in *.
  destruct (rank_le_total ra rb) as [T|T].
  - apply (SFleb_rank _ _ _ _ Ra Rb) in T. congruence.
  - apply (SFleb_rank _ _ _ _ Rb Ra). exact T.
Qed.

Lemma leb_antisym_pos (a b : float) :
  PrimFloat.ltb 0 a = true -> PrimFloat.ltb 0 b = true ->
  PrimFloat.leb a b = true -> PrimFloat.leb b a = true -> a = b.
Proof.
  intros Ha Hb H1 H2.
  destruct (positive_spec a Ha) as [ra Ra], (positive_spec b Hb) as [rb Rb].
  rewrite leb_spec in *.
  apply (SFleb_rank _ _ _ _ Ra Rb) in H1. apply (SFleb_rank _ _ _ _ Rb Ra) in H2.
  assert (E : ra = rb) by (apply rank_le_antisym; assumption). subst rb.
  apply Prim2SF_inj. exact (positive_rank_inj _ _ _ Ra Rb).
Qed.

Lemma leb_trans_pos (a b c : float) :
  PrimFloat.ltb 0 a = true -> PrimFloat.ltb 0 b = true -> PrimFloat.ltb 0 c = true ->
  PrimFloat.leb a b = true -> PrimFloat.leb b c = true -> PrimFloat.leb a c = true.
Proof.
  intros Ha Hb Hc H1 H2.
  destruct (positive_spec a Ha) as [ra Ra], (positive_spec b Hb) as [rb Rb],
    (positive_spec c Hc) as [rc Rc].
  rewrite leb_spec in *.
  apply (SFleb_rank _ _ _ _ Ra Rb) in H1. apply (SFleb_rank _ _ _ _ Rb Rc) in H2.
  apply (SFleb_rank _ _ _ _ Ra Rc). exact (rank_le_trans _ _ _ H1 H2).
Qed.

Lemma leb_refl_pos (a : float) : PrimFloat.ltb 0 a = true -> PrimFloat.leb a a = true.
Proof.
  intros Ha. destruct (PrimFloat.leb a a) eqn:E; [reflexivity|].
  rewrite <- E. exact (leb_total_pos a a Ha Ha E).
Qed.

Lemma ascending_head (a : float) (l : list float) :
  all_positive (a :: l) -> ascending (a :: l) ->
  Forall (fun b => PrimFloat.leb a b = true) l.
Proof.
  revert a. induction l as [|b l IH]; intros a Hp Hs; [constructor|].
  inversion Hs as [|? ? Hs' Hd]; subst. inversion Hd as [|? ? Hab]; subst.
  inversion Hp as [|? ? Ha Hp']; subst.
  constructor; [exact Hab|].
  specialize (IH b Hp' Hs').
  inversion Hp' as [|? ? Hb Hp'']; subst.
  rewrite Forall_forall in *. intros c Hc.
  apply (leb_trans_pos a b c); auto.
Qed.

(** A list of positive numbers has one ascending arrangement. *)
Lemma ascending_unique (l1 l2 : list float) :
  all_positive l1 -> Permutation l1 l2 -> ascending l1 -> ascending l2 -> l1 = l2.
Proof.
  revert l2. induction l1 as [|a t1 IH]; intros l2 Hp HP H1 H2.
  - apply Permutation_nil in HP. auto.
  - destruct l2 as [|b t2].
    { apply Permutation_sym, Permutation_nil in HP. discriminate. }
    assert (Hp2 : all_positive (b :: t2)).
    { unfold all_positive in *. rewrite Forall_forall in *. intros c Hc.
      apply Hp. apply (Permutation_in _ (Permutation_sym HP)). exact Hc. }
    pose proof (ascending_head a t1 Hp H1) as A1.
    pose proof (ascending_head b t2 Hp2 H2) as A2.
    rewrite Forall_forall in A1, A2.
    assert (Ha : PrimFloat.ltb 0 a = true) by (inversion Hp; auto).
    assert (Hb : PrimFloat.ltb 0 b = true) by (inversion Hp2; auto).
    assert (E : a = b).
    { assert (Ia : In a (b :: t2)) by (apply (Permutation_in _ HP); left; auto).
      assert (Ib : In b (a :: t1))
        by (apply (Permutation_in _ (Permutation_sym HP)); left; auto).
      destruct Ia as [Ia|Ia]; [auto|]. destruct Ib as [Ib|Ib]; [auto|].
      apply leb_antisym_pos; auto. }
    subst b. f_equal. apply IH.
    + inversion Hp; auto.
    + exact (Permutation_cons_inv HP).
    + inversion H1; auto.
    + inversion H2; auto.
Qed.

(** ** Colour scale and cell painting *)

Lemma double_insert_perm (v : float) (l : list float) :
  Permutation (v :: l) (Double.insert v l).
Proof.
  induction l as [|h t IH]; simpl; [apply Permutation_refl|].
  destruct (PrimFloat.leb v h); [apply Permutation_refl|].
  eapply Permutation_trans; [apply perm_swap|]. apply perm_skip. exact IH.
Qed.

Lemma double_sort_perm (l : list float) : Permutation l (Double.sort l).
Proof.
  induction l as [|h t IH]; simpl; [apply Permutation_refl|].
  eapply Permutation_trans; [apply perm_skip; exact IH|]. apply double_insert_perm.
Qed.

Lemma double_insert_ascending (v : float) (l : list float) :
  PrimFloat.ltb 0 v = true -> all_positive l -> ascending l ->
  ascending (Double.insert v l).
Proof.
  intros Hv. induction l as [|h t IH]; intros Hp Hs; simpl.
  - repeat constructor.
  - inversion Hp as [|? ? Hh Hp']; subst.
    destruct (PrimFloat.leb v h) eqn:E.
    + constructor; [exact Hs|]. constructor. exact E.
    + inversion Hs as [|? ? Hs' Hd]; subst.
      constructor; [apply IH; assumption|].
      destruct t as [|h' t']; simpl.
      * constructor. exact (leb_total_pos v h Hv Hh E).
      * destruct (PrimFloat.leb v h').
        -- constructor. exact (leb_total_pos v h Hv Hh E).
        -- inversion Hd; subst. constructor. assumption.
Qed.

Lemma double_sort_ascending (l : list float) :
  all_positive l -> ascending (Double.sort l).
Proof.
  induction l as [|h t IH]; intros Hp; simpl; [constructor|].
  inversion Hp as [|? ? Hh Hp']; subst.
  apply double_insert_ascending; [exact Hh| |apply IH; exact Hp'].
  unfold all_positive in *. rewrite Forall_forall in *. intros c Hc.
  apply Hp'. apply (Permutation_in _ (Permutation_sym (double_sort_perm t))). exact Hc.
Qed.

Lemma positives_all_positive (m : Double.matrix) : all_positive (positives m).
Proof.
  unfold all_positive, positives. rewrite Forall_forall. intros q H.
  apply in_flat_map in H. destruct H as [[c|] [_ H]]; [|contradiction].
  destruct (PrimFloat.ltb 0 c) eqn:E; [|contradiction].
  destruct H as [<-|[]]. exact E.
Qed.

(** The numbers that [d3.quantile] is given are the strictly positive
    numbers of the matrix. *)
Lemma numbers_positiveValues (m : Double.matrix) :
  Double.numbers (Double.positiveValues m) = positives m.
Proof.
  unfold Double.numbers, Double.positiveValues, positives.
  induction (List.concat m) as [|c l IH]; [reflexivity|].
  simpl. destruct c as [q|]; simpl; [|exact IH].
  unfold Double.gtb. destruct (PrimFloat.ltb 0 q) eqn:E; [|exact IH].
  simpl. rewrite (leb_refl_pos q E). simpl. f_equal. exact IH.
Qed.

Lemma positive_not_falsy (a : float) :
  PrimFloat.ltb 0 a = true -> Double.falsy a = false.
Proof.
  intros Ha. unfold Double.falsy, is_nan.
  destruct (positive_spec a Ha) as [r R].
  rewrite !FloatAxioms.eqb_spec. change (Prim2SF 0) with (S754_zero false).
  destruct (Prim2SF a) as [s|s| |s m e]; try destruct s; simpl in R;
    try discriminate; try reflexivity.
  unfold SFeqb, SFcompare. rewrite Z.compare_refl, Pos.compare_cont_refl. reflexivity.
Qed.

(** The colour domain, from any ascending arrangement of the positive
    numbers. *)
Lemma colorDomain_sorted (m : Double.matrix) (srt : list float) :
  Permutation (positives m) srt -> ascending srt ->
  Double.colorDomain m
  = (0%float,
     match srt with
     | [] => 1%float
     | [a] => a
     | _ => Double.or_default (Some (Double.interpolated srt 0.95%float)) 1%float
     end).
Proof.
  intros HP Hs.
  assert (E : Double.sort (positives m) = srt).
  { apply ascending_unique.
    - unfold all_positive. rewrite Forall_forall. intros c Hc.
      pose proof (positives_all_positive m) as A. unfold all_positive in A.
      rewrite Forall_forall in A. apply A.
      apply (Permutation_in _ (Permutation_sym (double_sort_perm _))). exact Hc.
    - eapply Permutation_trans; [apply Permutation_sym, double_sort_perm | exact HP].
    - apply double_sort_ascending, positives_all_positive.
    - exact Hs. }
  unfold Double.colorDomain, Double.quantile.
  rewrite numbers_positiveValues, E. f_equal.
  destruct srt as [|a [|b t]].
  - reflexivity.
  - simpl. rewrite positive_not_falsy; [reflexivity|].
    pose proof (positives_all_positive m) as A. unfold all_positive in A.
    rewrite Forall_forall in A. apply A.
    apply (Permutation_in _ (Permutation_sym HP)). left. reflexivity.
  - reflexivity.
Qed.

Lemma double_paintCell_In (m : Double.matrix) (dom : float * float) (ps : float)
    (i j : nat) (op : Double.canvas_op) :
  In op (Double.paintCell m dom ps i j) <->
  exists v, Double.cellAt m i j = Some (Some v) /\ PrimFloat.ltb 0 v = true /\
            op = Double.FillRect (Double.sequentialParam dom v)
                   (PrimFloat.mul (Double.ofNat j) ps)
                   (PrimFloat.mul (Double.ofNat i) ps) ps ps.
Proof.
  unfold Double.paintCell, Double.gtb. split.
  - destruct (Double.cellAt m i j) as [[v|]|]; try contradiction.
    destruct (PrimFloat.ltb 0 v) eqn:E; [|contradiction].
    intros [H|[]]. exists v. auto.
  - intros [v [Hc [Hv Hop]]]. rewrite Hc, Hv. left. auto.
Qed.

Lemma double_paintCells_In (m : Double.matrix) (dom : float * float) (ps : float)
    (n : nat) (op : Double.canvas_op) :
  In op (Double.paintCells m dom ps n) <->
  exists i j v, (i < n)%nat /\ (j < n)%nat /\
    Double.cellAt m i j = Some (Some v) /\ PrimFloat.ltb 0 v = true /\
    op = Double.FillRect (Double.sequentialParam dom v)
           (PrimFloat.mul (Double.ofNat j) ps)
           (PrimFloat.mul (Double.ofNat i) ps) ps ps.
Proof.
  unfold Double.paintCells. rewrite in_flat_map. split.
  - intros [i [Hi H]]. apply in_flat_map in H. destruct H as [j [Hj H]].
    apply double_paintCell_In in H. destruct H as [v H].
    apply in_seq in Hi. apply in_seq in Hj.
    exists i, j, v. repeat split; try tauto; lia.
  - intros [i [j [v [Hi [Hj H]]]]]. exists i. split; [apply in_seq; lia|].
    apply in_flat_map. exists j. split; [apply in_seq; lia|].
    apply double_paintCell_In. exists v. exact H.
Qed.

Lemma double_strokeTad_In (vs r ps size : float) (tad : TAD) (op : Double.canvas_op) :
  In op (Double.strokeTad vs r ps size tad) <->
  Double.tadDrawn vs r ps size tad = true /\
  op = Double.StrokeRect (Double.tadX_px vs r ps tad) (Double.tadX_px vs r ps tad)
         (Double.tadSize_px r ps tad) (Double.tadSize_px r ps tad).
Proof.
  unfold Double.strokeTad. destruct (Double.tadDrawn vs r ps size tad); simpl.
  - split; [intros [H|[]]; auto | intros [_ H]; auto].
  - split; [contradiction | intros [H _]; discriminate].
Qed.

(** The redraw of a loaded, non-empty matrix, call by call. *)
Lemma double_render_loaded (v : Double.View) (w : float) (m : Double.matrix) :
  Double.matrixData v = Some m -> m <> [] ->
  Double.render v (Some w)
  = ([Double.Resize (Double.canvasWidth (PrimFloat.sub w 50))
        (Double.canvasHeight (PrimFloat.sub w 50));
      Double.ClearRect 0 0 (PrimFloat.sub w 50) (PrimFloat.sub w 50); Double.Save;
      Double.Translate (Double.tx (Double.transform v)) (Double.ty (Double.transform v));
      Double.Scale (Double.k (Double.transform v)) (Double.k (Double.transform v))]
     ++ Double.paintCells m (Double.colorDomain m)
          (PrimFloat.div (PrimFloat.sub w 50) (Double.ofNat (List.length m)))
          (List.length m)
     ++ Double.strokeTads v
          (PrimFloat.div (PrimFloat.sub w 50) (Double.ofNat (List.length m)))
          (PrimFloat.sub w 50)
     ++ [Double.Restore])%list.
Proof.
  intros Hm Hne. unfold Double.render. rewrite Hm.
  destruct m as [|row rows]; [contradiction | reflexivity].
Qed.

Lemma double_render_fill_In (v : Double.View) (w : float) (m : Double.matrix)
    (c a b w' h : float) :
  Double.matrixData v = Some m -> m <> [] ->
  (In (Double.FillRect c a b w' h) (Double.render v (Some w)) <->
   In (Double.FillRect c a b w' h)
      (Double.paintCells m (Double.colorDomain m)
         (PrimFloat.div (PrimFloat.sub w 50) (Double.ofNat (List.length m)))
         (List.length m))).
Proof.
  intros Hm Hne. rewrite (double_render_loaded v w m Hm Hne). split.
  - intros H. apply in_app_or in H. destruct H as [H|H].
    { simpl in H. repeat (destruct H as [H|H]; [discriminate|]). contradiction. }
    apply in_app_or in H. destruct H as [H|H]; [exact H|].
    apply in_app_or in H. destruct H as [H|H].
    + exfalso. unfold Double.strokeTads in H.
      destruct (Double.tads v) as [ts|]; [|contradiction].
      apply in_app_or in H. destruct H as [H|H].
      * simpl in H. repeat (destruct H as [H|H]; [discriminate|]). contradiction.
      * apply in_flat_map in H. destruct H as [tad [_ H]].
        apply double_strokeTad_In in H. destruct H as [_ H]. discriminate.
    + destruct H as [H|[]]. discriminate.
  - intros H. apply in_or_app. right. apply in_or_app. left. exact H.
Qed.

Lemma double_render_stroke_In (v : Double.View) (w : float) (m : Double.matrix)
    (ts : list TAD) (a b c d : float) :
  Double.matrixData v = Some m -> m <> [] -> Double.tads v = Some ts ->
  (In (Double.StrokeRect a b c d) (Double.render v (Some w)) <->
   exists tad, In tad ts /\
     In (Double.StrokeRect a b c d)
        (Double.strokeTad (Double.viewStart (Double.tileCoords v))
           (Double.resolutionOf (Double.tileCoords v))
           (PrimFloat.div (PrimFloat.sub w 50) (Double.ofNat (List.length m)))
           (PrimFloat.sub w 50) tad)).
Proof.
  intros Hm Hne Ht. rewrite (double_render_loaded v w m Hm Hne).
  unfold Double.strokeTads. rewrite Ht. split.
  - intros H. apply in_app_or in H. destruct H as [H|H].
    { simpl in H. repeat (destruct H as [H|H]; [discriminate|]). contradiction. }
    apply in_app_or in H. destruct H as [H|H].
    { apply double_paintCells_In in H.
      destruct H as (i & j & x & _ & _ & _ & _ & H). discriminate. }
    apply in_app_or in H. destruct H as [H|H].
    + apply in_app_or in H. destruct H as [H|H].
      * simpl in H. repeat (destruct H as [H|H]; [discriminate|]). contradiction.
      * apply in_flat_map in H. exact H.
    + destruct H as [H|[]]. discriminate.
  - intros H. apply in_or_app. right. apply in_or_app. right.
    apply in_or_app. left. apply in_or_app. right.
    apply in_flat_map. exact H.
Qed.

(** C6: on a redraw the colour domain is [[0, u]].  For every ascending
    arrangement [srt] of the strictly positive numbers of the matrix, [u]
    is 1 when there is none, the number itself when there is one, and
    otherwise the 95th percentile by linear interpolation between the
    closest ranks, computed in double precision: with [i = (n - 1) * 0.95]
    and [i0] its integer part,
    [q = srt[i0] + (srt[i0 + 1] - srt[i0]) * (i - i0)], and [u] is [q]
    unless [q] is [0] or [NaN], in which case the [|| 1] of the source
    makes it 1.  A rectangle is filled exactly for the cells that hold a
    strictly positive number (none for zero, [null] or a negative
    number), in the colour of that number on the scale. *)
Theorem color_scale_rule (v : Double.View) (w : float) (m : Double.matrix) :
  Double.matrixData v = Some m -> m <> [] ->
  let n := List.length m in
  let ps := PrimFloat.div (PrimFloat.sub w 50) (Double.ofNat n) in
  exists u,
    Double.colorDomain m = (0%float, u) /\
    (forall srt, Permutation (positives m) srt -> ascending srt ->
       match srt with
       | [] => u = 1%float
       | [a] => u = a
       | _ =>
         let i := PrimFloat.mul (Double.ofNat (List.length srt - 1)) 0.95%float in
         match Double.floor i with
         | Some i0 =>
           let q := PrimFloat.add (nth (Z.to_nat i0) srt nan)
                      (PrimFloat.mul
                         (PrimFloat.sub (nth (Z.to_nat (i0 + 1)) srt nan)
                                        (nth (Z.to_nat i0) srt nan))
                         (PrimFloat.sub i (Double.ofZ i0))) in
           u = if Double.falsy q then 1%float else q
         | None => u = 1%float
         end
       end) /\
    (forall style a b c d,
        In (Double.FillRect style a b c d) (Double.render v (Some w)) <->
        exists i j value, (i < n)%nat /\ (j < n)%nat /\
          Double.cellAt m i j = Some (Some value) /\
          PrimFloat.ltb 0 value = true /\
          style = Double.sequentialParam (0%float, u) value /\
          a = PrimFloat.mul (Double.ofNat j) ps /\
          b = PrimFloat.mul (Double.ofNat i) ps /\ c = ps /\ d = ps).
Proof.
  intros Hm Hne n ps.
  exists (snd (Double.colorDomain m)).
  assert (Hd : Double.colorDomain m = (0%float, snd (Double.colorDomain m)))
    by reflexivity.
  split; [exact Hd|]. split.
  - intros srt HP Hs. rewrite (colorDomain_sorted m srt HP Hs).
    destruct srt as [|a [|b t]]; [reflexivity | reflexivity |].
    cbn [snd]. unfold Double.or_default, Double.interpolated.
    cbv zeta.
    destruct (Double.floor
                (PrimFloat.mul (Double.ofNat (List.length (a :: b :: t) - 1)) 0.95%float))
      as [i0|]; reflexivity.
  - intros style a b c d.
    rewrite (double_render_fill_In v w m _ _ _ _ _ Hm Hne), double_paintCells_In.
    rewrite <- Hd.
    split.
    + intros (i & j & x & Hi & Hj & Hc & Hx & H). injection H as -> -> -> -> ->.
      exists i, j, x. repeat split; assumption.
    + intros (i & j & x & Hi & Hj & Hc & Hx & -> & -> & -> & -> & ->).
      exists i, j, x. repeat split; assumption.
Qed.

Lemma color_scale_rule_witness :
  Double.colorDomain matrix6 = (0%float, 87.99999999999997%float) /\
  Double.colorDomain zeros2 = (0%float, 1%float) /\
  (forall style a b c d,
      In (Double.FillRect style a b c d) (Double.render (viewOf matrix6 None) (Some 450%float)) ->
      exists i j value, Double.cellAt matrix6 i j = Some (Some value) /\
                        PrimFloat.ltb 0 value = true).
Proof.
  destruct (color_scale_rule (viewOf matrix6 None) 450%float matrix6 eq_refl)
    as (u & Hd & Hu & Hfill); [discriminate|].
  destruct (color_scale_rule (viewOf zeros2 None) 450%float zeros2 eq_refl)
    as (u0 & Hd0 & Hu0 & _); [discriminate|].
  split; [|split].
  - rewrite Hd. f_equal.
    specialize (Hu [5; 10; 20; 100]%float).
    apply Hu.
    + change (positives matrix6) with [100; 5; 20; 10]%float.
      apply Permutation_sym.
      apply (Permutation_trans (l' := [5; 100; 10; 20]%float)).
      * apply perm_skip. apply (Permutation_trans (l' := [10; 100; 20]%float)).
        -- apply perm_skip. apply perm_swap.
        -- apply (Permutation_trans (l' := [100; 10; 20]%float)).
           ++ apply perm_swap.
           ++ apply Permutation_refl.
      * apply (Permutation_trans (l' := [100; 5; 10; 20]%float)).
        -- apply perm_swap.
        -- apply perm_skip. apply perm_skip. apply perm_swap.
    + repeat constructor.
  - rewrite Hd0. f_equal. apply (Hu0 []).
    + apply Permutation_refl.
    + constructor.
  - intros style a b c d H. apply Hfill in H.
    destruct H as (i & j & value & _ & _ & Hc & Hv & _). exists i, j, value. auto.
Defined.

(** ** Overlay hit-tester *)

Lemma binResolution_eq (v : Double.View) :
  Double.resolutionOf (Double.tileCoords v) = binResolution v.
Proof.
  unfold Double.resolutionOf, binResolution, resolution.
  destruct (zoom (Double.tileCoords v) <? 0).
  - destruct (nth_error resolutions _); reflexivity.
  - reflexivity.
Qed.

Lemma tileStart_eq (v : Double.View) :
  Double.viewStart (Double.tileCoords v) = tileStart v.
Proof. unfold Double.viewStart, tileStart. rewrite binResolution_eq. reflexivity. Qed.

Lemma insideTad_eq (v : Double.View) (ps : float) (p : float * float) (tad : TAD) :
  Double.insideTad (Double.viewStart (Double.tileCoords v))
    (Double.resolutionOf (Double.tileCoords v)) ps p tad
  = inTadSquare v ps p tad.
Proof.
  unfold Double.insideTad, inTadSquare, tadRight, tadSide, tadLeft, Double.geb,
    Double.tadX_px, Double.tadSize_px.
  rewrite tileStart_eq, binResolution_eq. reflexivity.
Qed.

Lemma find_split {A : Type} (f : A -> bool) (l : list A) :
  (exists a, In a l /\ f a = true) ->
  exists before a after,
    l = (before ++ a :: after)%list /\ f a = true /\
    Forall (fun b => f b = false) before /\ find f l = Some a.
Proof.
  induction l as [|h t IH]; intros [a [Ha Hf]]; [contradiction|].
  simpl. destruct (f h) eqn:E.
  - exists [], h, t. repeat split; auto.
  - destruct Ha as [->|Ha]; [congruence|].
    destruct IH as (before & b & after & -> & Hb & Hall & Hfind); [eauto|].
    exists (h :: before), b, after. repeat split; auto.
Qed.

Lemma find_same {A : Type} (f g : A -> bool) (l : list A) :
  (forall a, f a = g a) -> find f l = find g l.
Proof.
  intros H. induction l as [|h t IH]; simpl; [reflexivity|].
  rewrite H, IH. reflexivity.
Qed.

Lemma find_none {A : Type} (f : A -> bool) (l : list A) :
  Forall (fun b => f b = false) l -> find f l = None.
Proof.
  induction 1 as [|h t Hh _ IH]; simpl; [reflexivity|]. rewrite Hh. exact IH.
Qed.

(** The handler on a loaded, non-empty matrix. *)
Lemma double_handleMouseMove_loaded (v : Double.View) (width : Z)
    (mouse page : float * float) (m : Double.matrix) :
  Double.matrixData v = Some m -> m <> [] ->
  Double.handleMouseMove v width mouse page
  = match Double.findTad v
            (PrimFloat.div (Double.ofZ width) (Double.ofNat (List.length m)))
            (tilePoint (Double.transform v) mouse) with
    | Some tad => Double.ShowTooltip (tadText tad) (fst page) (snd page)
    | None =>
      Double.cellFallback m
        (PrimFloat.div (Double.ofZ width) (Double.ofNat (List.length m)))
        (tilePoint (Double.transform v) mouse) page
    end.
Proof.
  intros Hm Hne. unfold Double.handleMouseMove. rewrite Hm.
  destruct m as [|row rows]; [contradiction | reflexivity].
Qed.

Lemma tadText_not_score (tad : TAD) (value : float) : tadText tad <> scoreText value.
Proof. unfold tadText, scoreText. simpl. discriminate. Qed.

(** C7: on a view with a loaded matrix, let the pointer be taken to tile
    pixels by undoing the view transform, [((mouseX - x) / k,
    (mouseY - y) / k)], and let the bins be [canvas.width / numBins]
    wide.  If that point lies in the square of a loaded TAD, sides
    included, the handler shows the tooltip of the first such TAD of the
    list, [TAD: <start> - <end>], and no score tooltip, whatever the
    matrix holds at the pointer. *)
Theorem tad_hit_precedence (v : Double.View) (width : Z) (mouse page : float * float)
    (m : Double.matrix) (ts : list TAD) :
  Double.matrixData v = Some m -> m <> [] -> Double.tads v = Some ts ->
  let binSize := PrimFloat.div (Double.ofZ width) (Double.ofNat (List.length m)) in
  let p := tilePoint (Double.transform v) mouse in
  (exists tad, In tad ts /\ inTadSquare v binSize p tad = true) ->
  exists before tad after,
    ts = (before ++ tad :: after)%list /\
    inTadSquare v binSize p tad = true /\
    Forall (fun t => inTadSquare v binSize p t = false) before /\
    Double.handleMouseMove v width mouse page
    = Double.ShowTooltip
        ("TAD: " ++ D3.format_s 3 (tad_start tad) ++ " - " ++ D3.format_s 3 (tad_end tad))
        (fst page) (snd page) /\
    (forall value px py,
        Double.handleMouseMove v width mouse page
        <> Double.ShowTooltip ("Score: " ++ Double.toFixed2 value) px py).
Proof.
  intros Hm Hne Ht binSize p Hex.
  destruct (find_split (inTadSquare v binSize p) ts Hex)
    as (before & tad & after & Hts & Hin & Hall & Hfind).
  exists before, tad, after.
  assert (E : Double.handleMouseMove v width mouse page
              = Double.ShowTooltip (tadText tad) (fst page) (snd page)).
  { rewrite (double_handleMouseMove_loaded v width mouse page m Hm Hne).
    unfold Double.findTad. rewrite Ht.
    rewrite (find_same _ (inTadSquare v binSize p)); [|intros t; apply insideTad_eq].
    rewrite Hfind. reflexivity. }
  repeat split; try assumption.
  intros value px py H. rewrite E in H.
  apply (tadText_not_score tad value). unfold scoreText. congruence.
Qed.

Lemma tad_hit_precedence_witness :
  tilePoint (Double.transform (pannedView (Some tads3))) (510, 520)%float
  = (250, 250)%float /\
  Double.cellAt matrix4d 2 2 = Some (Some 7%float) /\
  exists before tad after,
    tads3 = (before ++ tad :: after)%list /\
    inTadSquare (pannedView (Some tads3)) 100%float (250, 250)%float tad = true /\
    Forall (fun t => inTadSquare (pannedView (Some tads3)) 100%float (250, 250)%float t
                     = false) before /\
    Double.handleMouseMove (pannedView (Some tads3)) 400 (510, 520)%float (700, 300)%float
    = Double.ShowTooltip
        ("TAD: " ++ D3.format_s 3 (tad_start tad) ++ " - " ++ D3.format_s 3 (tad_end tad))
        700%float 300%float /\
    (forall value px py,
        Double.handleMouseMove (pannedView (Some tads3)) 400 (510, 520)%float
          (700, 300)%float
        <> Double.ShowTooltip ("Score: " ++ Double.toFixed2 value) px py).
Proof.
  split; [reflexivity|]. split; [reflexivity|].
  apply (tad_hit_precedence (pannedView (Some tads3)) 400 (510, 520)%float
           (700, 300)%float matrix4d tads3 eq_refl).
  - discriminate.
  - reflexivity.
  - exists (mkTAD 10000 30000). split; [right; right; left; reflexivity | reflexivity].
Defined.

(** What the handler shows in the view of the witness, and at a pointer
    on the edge of a TAD square where the rounding decides: with a canvas
    300 wide and 18 bins the left edge of the TAD 150000-160000 is
    computed as 250.00000000000003, so the pointer at 250 is outside. *)
Lemma tad_hit_examples :
  Double.handleMouseMove (pannedView (Some tads3)) 400 (510, 520)%float (700, 300)%float
  = Double.ShowTooltip "TAD: 20.0k - 30.0k" 700%float 300%float /\
  Double.handleMouseMove (pannedView None) 400 (510, 520)%float (700, 300)%float
  = Double.ShowTooltip "Score: 7.00" 700%float 300%float /\
  tadLeft (viewOf (repeat (repeat (Some 1%float) 18) 18) None)
    (PrimFloat.div 300 18) (mkTAD 150000 160000) = 250.00000000000003%float /\
  Double.handleMouseMove
    (viewOf (repeat (repeat (Some 1%float) 18) 18) (Some [mkTAD 150000 160000]))
    300 (250, 250)%float (0, 0)%float
  = Double.ShowTooltip "Score: 1.00" 0%float 0%float.
Proof. vm_compute. repeat split; reflexivity. Qed.

Lemma findTad_none (v : Double.View) (ps : float) (mouse : float * float) :
  (forall ts, Double.tads v = Some ts ->
     Forall (fun t => inTadSquare v ps (tilePoint (Double.transform v) mouse) t = false)
            ts) ->
  Double.findTad v ps (tilePoint (Double.transform v) mouse) = None.
Proof.
  intros H. unfold Double.findTad. destruct (Double.tads v) as [ts|]; [|reflexivity].
  rewrite (find_same _ (inTadSquare v ps (tilePoint (Double.transform v) mouse)));
    [|intros t; apply insideTad_eq].
  apply find_none. apply H. reflexivity.
Qed.

Lemma binIndex_Some (q : float) (n : nat) (i : Z) :
  Double.floor q = Some i -> 0 <= i < Z.of_nat n ->
  Double.binIndex q n = Some (Z.to_nat i).
Proof.
  intros Hf Hi. unfold Double.binIndex. rewrite Hf.
  destruct (Z.leb_spec 0 i); [|lia]. destruct (Z.ltb_spec i (Z.of_nat n)); [|lia].
  reflexivity.
Qed.

Lemma binIndex_None (q : float) (n : nat) :
  (forall i, Double.floor q = Some i -> ~ 0 <= i < Z.of_nat n) ->
  Double.binIndex q n = None.
Proof.
  intros H. unfold Double.binIndex. destruct (Double.floor q) as [i|]; [|reflexivity].
  specialize (H i eq_refl).
  destruct (Z.leb_spec 0 i); [|reflexivity].
  destruct (Z.ltb_spec i (Z.of_nat n)); [lia | reflexivity].
Qed.

(** C8, as stated, fails on the code: the spec counts a cell holding 0
    as one without data, but the handler shows its score.  In the panned view
    without TADs the pointer over the cell (0, 2), which holds 0, gets
    [Score: 0.00], not a hidden tooltip. *)
Lemma zero_cell_shows_score :
  Double.cellAt matrix4d 0 2 = Some (Some 0%float) /\
  Double.floor (PrimFloat.div (snd (tilePoint (Double.transform (pannedView None))
                                      (510, 120)%float)) (PrimFloat.div 400 4))
  = Some 0 /\
  Double.floor (PrimFloat.div (fst (tilePoint (Double.transform (pannedView None))
                                      (510, 120)%float)) (PrimFloat.div 400 4))
  = Some 2 /\
  Double.handleMouseMove (pannedView None) 400 (510, 120)%float (700, 300)%float
  = Double.ShowTooltip "Score: 0.00" 700%float 300%float /\
  Double.handleMouseMove (pannedView None) 400 (510, 120)%float (700, 300)%float
  <> Double.HideTooltip.
Proof. vm_compute. repeat split; try reflexivity. discriminate. Qed.

(** C8 (amended): when the pointer, taken to tile pixels, lies in no TAD
    square, the handler takes [row = Math.floor(y / binSize)] and
    [col = Math.floor(x / binSize)] with [binSize = canvas.width / numBins].
    With both indices in [[0, numBins)] it shows [Score: ] followed by
    [value.toFixed(2)] when the cell holds a number (0 included), hides
    the tooltip when the cell is [null], and throws a [TypeError] when the
    row has no entry at [col]; with an index out of bounds, or not a
    finite number, it hides the tooltip. *)
Theorem cell_fallback_rule (v : Double.View) (width : Z) (mouse page : float * float)
    (m : Double.matrix) :
  Double.matrixData v = Some m -> m <> [] ->
  let n := List.length m in
  let binSize := PrimFloat.div (Double.ofZ width) (Double.ofNat n) in
  let p := tilePoint (Double.transform v) mouse in
  let row := Double.floor (PrimFloat.div (snd p) binSize) in
  let col := Double.floor (PrimFloat.div (fst p) binSize) in
  (forall ts, Double.tads v = Some ts ->
     Forall (fun t => inTadSquare v binSize p t = false) ts) ->
  (forall i j, row = Some i -> col = Some j ->
     0 <= i < Z.of_nat n -> 0 <= j < Z.of_nat n ->
     exists cells, nth_error m (Z.to_nat i) = Some cells /\
       match nth_error cells (Z.to_nat j) with
       | Some (Some value) =>
         Double.handleMouseMove v width mouse page
         = Double.ShowTooltip ("Score: " ++ Double.toFixed2 value) (fst page) (snd page)
       | Some None => Double.handleMouseMove v width mouse page = Double.HideTooltip
       | None => Double.handleMouseMove v width mouse page = Double.TypeError
       end) /\
  ((forall i, row = Some i -> ~ 0 <= i < Z.of_nat n) \/
   (forall j, col = Some j -> ~ 0 <= j < Z.of_nat n) ->
   Double.handleMouseMove v width mouse page = Double.HideTooltip).
Proof.
  intros Hm Hne n binSize p row col Hno.
  assert (E : Double.handleMouseMove v width mouse page
              = Double.cellFallback m binSize p page).
  { rewrite (double_handleMouseMove_loaded v width mouse page m Hm Hne).
    fold n. fold binSize. fold p.
    unfold p. rewrite (findTad_none v binSize mouse Hno). reflexivity. }
  split.
  - intros i j Hr Hc Hi Hj.
    destruct (nth_error m (Z.to_nat i)) as [cells|] eqn:Hrow.
    2:{ apply nth_error_None in Hrow. fold n in Hrow. lia. }
    exists cells. split; [reflexivity|].
    rewrite E. unfold Double.cellFallback. fold n.
    rewrite (binIndex_Some _ n i Hr Hi), (binIndex_Some _ n j Hc Hj).
    unfold Double.cellAt. rewrite Hrow.
    destruct (nth_error cells (Z.to_nat j)) as [[value|]|]; reflexivity.
  - intros H. rewrite E. unfold Double.cellFallback. fold n.
    destruct H as [H|H].
    + rewrite (binIndex_None _ n H). reflexivity.
    + rewrite (binIndex_None _ n H).
      destruct (Double.binIndex (PrimFloat.div (snd p) binSize) n); reflexivity.
Qed.

Lemma cell_fallback_rule_witness :
  exists cells, nth_error matrix4d (Z.to_nat 2) = Some cells /\
    match nth_error cells (Z.to_nat 2) with
    | Some (Some value) =>
      Double.handleMouseMove (pannedView None) 400 (510, 520)%float (700, 300)%float
      = Double.ShowTooltip ("Score: " ++ Double.toFixed2 value) 700%float 300%float
    | Some None =>
      Double.handleMouseMove (pannedView None) 400 (510, 520)%float (700, 300)%float
      = Double.HideTooltip
    | None =>
      Double.handleMouseMove (pannedView None) 400 (510, 520)%float (700, 300)%float
      = Double.TypeError
    end.
Proof.
  refine (proj1 (cell_fallback_rule (pannedView None) 400 (510, 520)%float
                   (700, 300)%float matrix4d eq_refl _ _) 2 2 _ _ _ _).
  - discriminate.
  - intros ts H. discriminate H.
  - reflexivity.
  - reflexivity.
  - simpl. lia.
  - simpl. lia.
Defined.

(** What the fallback shows on further inputs: a [null] cell, a pointer
    left of the matrix, a vanishing scale, a row that is too short; the
    column at the middle of a canvas 400 wide with 22 bins, where the
    quotient is 10.999999999999998; and [toFixed(2)] on a tie, on a small
    negative number and from [1e21] on. *)
Lemma cell_fallback_examples :
  Double.handleMouseMove (pannedView None) 400 (710, 720)%float (0, 0)%float
  = Double.HideTooltip /\
  Double.handleMouseMove (pannedView None) 400 (0, 120)%float (0, 0)%float
  = Double.HideTooltip /\
  Double.handleMouseMove
    (Double.mkView (Some matrix4d) None None (mkTile 0 0 0) (Double.mkTransform 0 0 0))
    400 (10, 10)%float (0, 0)%float
  = Double.HideTooltip /\
  Double.handleMouseMove (viewOf [[Some 1%float; Some 2%float]; [Some 3%float]] None)
    400 (300, 300)%float (0, 0)%float
  = Double.TypeError /\
  Double.floor (PrimFloat.div 200 (PrimFloat.div 400 22)) = Some 10 /\
  map Double.toFixed2 [0.125; -0.001; 1.005; 1e21; 1.5e300; infinity]%float
  = ["0.13"; "-0.00"; "1.00"; "1e+21"; "1.5e+300"; "Infinity"].
Proof. vm_compute. repeat split; reflexivity. Qed.





(** ** TAD outlines *)

Lemma tadDrawn_eq (v : Double.View) (ps size : float) (tad : TAD) :
  Double.tadDrawn (Double.viewStart (Double.tileCoords v))
    (Double.resolutionOf (Double.tileCoords v)) ps size tad
  = PrimFloat.leb 0 (tadLeft v ps tad) && PrimFloat.leb (tadRight v ps tad) size.
Proof.
  unfold Double.tadDrawn, tadRight, tadSide, tadLeft, Double.geb,
    Double.tadX_px, Double.tadSize_px.
  rewrite tileStart_eq, binResolution_eq. reflexivity.
Qed.

Lemma tadX_px_eq (v : Double.View) (ps : float) (tad : TAD) :
  Double.tadX_px (Double.viewStart (Double.tileCoords v))
    (Double.resolutionOf (Double.tileCoords v)) ps tad = tadLeft v ps tad.
Proof.
  unfold tadLeft, Double.tadX_px. rewrite tileStart_eq, binResolution_eq. reflexivity.
Qed.

Lemma tadSize_px_eq (v : Double.View) (ps : float) (tad : TAD) :
  Double.tadSize_px (Double.resolutionOf (Double.tileCoords v)) ps tad
  = tadSide v ps tad.
Proof. unfold tadSide, Double.tadSize_px. rewrite binResolution_eq. reflexivity. Qed.

(** C10: a redraw at container width [w] works on a surface of side
    [size = w - 50] with bins [size / numBins] wide, and leaves
    [canvas.width] at the integer the element keeps of [size].  It
    strokes exactly the TADs whose square has its left edge at or right
    of 0 and its right edge at or left of [size], each as the square
    itself; a TAD that fails the test is not stroked at all.  The
    handler, on that canvas, has no such test: whenever the pointer lies
    in the square of a loaded TAD it shows a TAD tooltip, stroked or
    not. *)
Theorem tad_outline_rule (v : Double.View) (w : float) (m : Double.matrix)
    (ts : list TAD) (mouse page : float * float) :
  Double.matrixData v = Some m -> m <> [] -> Double.tads v = Some ts ->
  let size := PrimFloat.sub w 50 in
  let binSize := PrimFloat.div size (Double.ofNat (List.length m)) in
  let hitBinSize :=
    PrimFloat.div (Double.ofZ (Double.canvasWidth size)) (Double.ofNat (List.length m)) in
  hd_error (Double.render v (Some w))
  = Some (Double.Resize (Double.canvasWidth size) (Double.canvasHeight size)) /\
  (forall a b c d,
      In (Double.StrokeRect a b c d) (Double.render v (Some w)) <->
      exists tad, In tad ts /\
        PrimFloat.leb 0 (tadLeft v binSize tad) = true /\
        PrimFloat.leb (tadRight v binSize tad) size = true /\
        a = tadLeft v binSize tad /\ b = tadLeft v binSize tad /\
        c = tadSide v binSize tad /\ d = tadSide v binSize tad) /\
  ((exists tad, In tad ts /\
      inTadSquare v hitBinSize (tilePoint (Double.transform v) mouse) tad = true) ->
   exists tad, In tad ts /\
     inTadSquare v hitBinSize (tilePoint (Double.transform v) mouse) tad = true /\
     Double.handleMouseMove v (Double.canvasWidth size) mouse page
     = Double.ShowTooltip
         ("TAD: " ++ D3.format_s 3 (tad_start tad) ++ " - " ++ D3.format_s 3 (tad_end tad))
         (fst page) (snd page)).
Proof.
  intros Hm Hne Ht size binSize hitBinSize. split; [|split].
  - rewrite (double_render_loaded v w m Hm Hne). reflexivity.
  - intros a b c d.
    rewrite (double_render_stroke_In v w m ts a b c d Hm Hne Ht).
    fold size. fold binSize. split.
    + intros (tad & Hin & H). apply double_strokeTad_In in H.
      destruct H as [Hd H]. rewrite tadDrawn_eq in Hd.
      apply andb_true_iff in Hd. destruct Hd as [H0 H1].
      rewrite tadX_px_eq, tadSize_px_eq in H. injection H as -> -> -> ->.
      exists tad. repeat split; assumption.
    + intros (tad & Hin & H0 & H1 & -> & -> & -> & ->).
      exists tad. split; [exact Hin|]. apply double_strokeTad_In.
      rewrite tadDrawn_eq, H0, H1, tadX_px_eq, tadSize_px_eq. split; reflexivity.
  - intros Hex.
    destruct (find_split _ ts Hex) as (before & tad & after & Hts & Hin & Hall & Hfind).
    exists tad. split; [rewrite Hts; apply in_elt|]. split; [exact Hin|].
    rewrite (double_handleMouseMove_loaded v _ mouse page m Hm Hne).
    unfold Double.findTad. rewrite Ht.
    rewrite (find_same _ (inTadSquare v hitBinSize (tilePoint (Double.transform v) mouse)));
      [|intros t; apply insideTad_eq].
    fold hitBinSize. rewrite Hfind. reflexivity.
Qed.

Lemma tad_outline_rule_witness :
  Double.canvasWidth (PrimFloat.sub 450.5 50) = 400 /\
  (forall a b c d,
      ~ In (Double.StrokeRect a b c d) (Double.render wideTadView (Some 450.5%float))) /\
  exists tad, In tad [mkTAD 20000 60000] /\
    inTadSquare wideTadView
      (PrimFloat.div (Double.ofZ (Double.canvasWidth (PrimFloat.sub 450.5 50)))
                     (Double.ofNat (List.length matrix4e)))
      (tilePoint (Double.transform wideTadView) (250, 250)%float) tad = true /\
    Double.handleMouseMove wideTadView (Double.canvasWidth (PrimFloat.sub 450.5 50))
      (250, 250)%float (0, 0)%float
    = Double.ShowTooltip
        ("TAD: " ++ D3.format_s 3 (tad_start tad) ++ " - " ++ D3.format_s 3 (tad_end tad))
        0%float 0%float.
Proof.
  destruct (tad_outline_rule wideTadView 450.5%float matrix4e [mkTAD 20000 60000]
              (250, 250)%float (0, 0)%float eq_refl)
    as (_ & Hstroke & Hhit); [discriminate | reflexivity |].
  split; [reflexivity|]. split.
  - intros a b c d H. apply Hstroke in H.
    destruct H as (tad & [<-|[]] & _ & H1 & _). vm_compute in H1. discriminate.
  - apply Hhit. exists (mkTAD 20000 60000). split; [left; reflexivity | reflexivity].
Defined.

(** The outline test where the rounding decides: on a surface of side
    400 with 6 bins the right edge of the TAD 10000-60000 is computed as
    400.00000000000006 and the TAD is not stroked; the TAD 0-20000 of the
    4x4 example is stroked as the square at 0 of side 200; a negative
    assignment leaves [canvas.width] at its default. *)
Lemma tad_outline_examples :
  tadRight (viewOf (repeat (repeat None 6) 6) None) (PrimFloat.div 400 6)
    (mkTAD 10000 60000) = 400.00000000000006%float /\
  Double.render (viewOf (repeat (repeat None 6) 6) (Some [mkTAD 10000 60000]))
    (Some 450%float)
  = [Double.Resize 400 400; Double.ClearRect 0 0 400 400; Double.Save;
     Double.Translate 0 0; Double.Scale 1 1;
     Double.StrokeStyle "rgba(0, 0, 255, 0.7)"; Double.LineWidth 2; Double.Restore] /\
  In (Double.StrokeRect 0 0 200 200) (Double.render exampleView (Some 450%float)) /\
  Double.canvasWidth (-10.5)%float = 300.
Proof. vm_compute. repeat split; try reflexivity. tauto. Qed.

(** * Sanity of the embedding *)

Lemma step_address_ok (s : ViewState) (e : event) :
  address_ok s -> address_ok (step s e).
Proof.
  unfold address_ok. intros H.
  destruct e as [ |t|i r|m| |i r| |i r]; cbn [step].
  - exact H.
  - destruct (Z.eq_dec (newZoomLevel (k t)) (zoom (tileCoords s))) as [E|E].
    + rewrite (onZoom_same_level s t E). exact H.
    + rewrite (onZoom_changes s t E). simpl. unfold newZoomLevel. lia.
  - unfold tileSettled. destruct (nth_error (tileFetches s) i); [destruct r|]; exact H.
  - exact H.
  - exact H.
  - unfold tadsSettled. destruct (nth_error (tadFetches s) i); [destruct r|]; exact H.
  - exact H.
  - unfold compartmentsSettled.
    destruct (nth_error (compartmentFetches s) i); [destruct r|]; exact H.
Qed.

Lemma run_address_ok (es : list event) (s : ViewState) :
  address_ok s -> address_ok (run s es).
Proof.
  revert s. induction es as [|e es IH]; intros s H; simpl;
    [exact H | apply IH, step_address_ok, H].
Qed.

Lemma resolution_defined (z : Z) :
  0 <= z <= 9 -> exists r, resolution z = Some r /\ 0 < r.
Proof.
  intros H.
  assert (E : z = 0 \/ z = 1 \/ z = 2 \/ z = 3 \/ z = 4 \/ z = 5 \/ z = 6
              \/ z = 7 \/ z = 8 \/ z = 9) by lia.
  repeat (destruct E as [->|E]; [eexists; split; [reflexivity | lia]|]).
  subst z. eexists. split; [reflexivity | lia].
Qed.

Lemma reachable_resolution_defined (es : list event) :
  exists r, resolution (zoom (tileCoords (run initialState es))) = Some r /\ 0 < r.
Proof.
  destruct (run_address_ok es initialState) as [H _].
  - unfold address_ok. simpl. lia.
  - apply resolution_defined. exact H.
Qed.

(** The ladder is strictly increasing. *)
Lemma resolution_increasing (z : Z) (r r' : Z) :
  resolution z = Some r -> resolution (z + 1) = Some r' -> r < r'.
Proof.
  intros H H'.
  assert (Hz : 0 <= z <= 8).
  { unfold resolution in *.
    destruct (z <? 0) eqn:E; [discriminate|]. apply Z.ltb_ge in E.
    destruct (z + 1 <? 0); [discriminate|].
    assert (Hn : (Z.to_nat (z + 1) < List.length resolutions)%nat).
    { apply nth_error_Some. rewrite H'. discriminate. }
    simpl in Hn. lia. }
  assert (E : z = 0 \/ z = 1 \/ z = 2 \/ z = 3 \/ z = 4 \/ z = 5 \/ z = 6
              \/ z = 7 \/ z = 8) by lia.
  repeat (destruct E as [->|E];
          [vm_compute in H, H'; injection H as <-; injection H' as <-; lia|]).
  subst z. vm_compute in H, H'. injection H as <-. injection H' as <-. lia.
Qed.


(** The SI-prefix format on a few coordinates, as d3 prints them. *)
Example format_s_examples :
  D3.format_s 3 0 = "0.00" /\ D3.format_s 3 20000 = "20.0k" /\
  D3.format_s 3 1234567 = "1.23M" /\ D3.format_s 3 999500 = "1.00M" /\
  D3.format_s 2 42 = "42" /\ D3.format_s 2 2560000 = "2.6M" /\
  D3.format_s 2 20000 = "20k" /\ D3.format_s 3 655360000 = "655M".
Proof.
  vm_compute. repeat split; reflexivity.
Qed.

(** * Further properties of the tile viewer *)

(** ** View state *)

Lemma tileSettled_tileCoords (s : ViewState) (i : nat) (r : tile_response) :
  tileCoords (tileSettled s i r) = tileCoords s.
Proof.
  unfold tileSettled.
  destruct (nth_error (tileFetches s) i); [destruct r|]; reflexivity.
Qed.

Lemma tadsSettled_tileCoords (s : ViewState) (i : nat) (r : annot_response TAD) :
  tileCoords (tadsSettled s i r) = tileCoords s.
Proof.
  unfold tadsSettled.
  destruct (nth_error (tadFetches s) i); [destruct r|]; reflexivity.
Qed.

Lemma compartmentsSettled_tileCoords (s : ViewState) (i : nat)
    (r : annot_response Compartment) :
  tileCoords (compartmentsSettled s i r) = tileCoords s.
Proof.
  unfold compartmentsSettled.
  destruct (nth_error (compartmentFetches s) i); [destruct r|]; reflexivity.
Qed.



(** X2: the stored matrix changes only when a tile request in flight
    settles with a body; until then (through zooms, address changes,
    annotation traffic and failed tile requests) the matrix fetched last
    stays in place. *)
Theorem matrix_changes_only_on_tile_response (s : ViewState) (e : event) :
  matrixData (step s e) <> matrixData s ->
  exists i a r,
    e = TileSettles i r /\
    nth_error (tileFetches s) i = Some a /\
    r <> TileRejected.
Proof.
  intros H.
  destruct e as [ |t|i r|m| |i r| |i r]; cbn [step] in *.
  - exfalso. apply H. reflexivity.
  - exfalso. apply H. unfold onZoom.
    destruct (newZoomLevel (k t) =? zoom (tileCoords s)); reflexivity.
  - unfold tileSettled in H.
    destruct (nth_error (tileFetches s) i) as [a|] eqn:E.
    + exists i, a, r. split; [reflexivity|]. split; [exact E|].
      intros ->. apply H. reflexivity.
    + exfalso. apply H. reflexivity.
  - exfalso. apply H. reflexivity.
  - exfalso. apply H. reflexivity.
  - exfalso. apply H. unfold tadsSettled.
    destruct (nth_error (tadFetches s) i); [destruct r|]; reflexivity.
  - exfalso. apply H. reflexivity.
  - exfalso. apply H. unfold compartmentsSettled.
    destruct (nth_error (compartmentFetches s) i); [destruct r|]; reflexivity.
Qed.

Lemma matrix_changes_only_on_tile_response_witness :
  exists i a r,
    TileSettles 0 (TileData matrixA) = TileSettles i r /\
    nth_error (tileFetches (run initialState [Mount])) i = Some a /\
    r <> TileRejected.
Proof.
  apply (matrix_changes_only_on_tile_response (run initialState [Mount])
           (TileSettles 0 (TileData matrixA))).
  vm_compute. discriminate.
Defined.



Lemma Forall_remove_nth {A : Type} (P : A -> Prop) (i : nat) (l : list A) :
  Forall P l -> Forall P (remove_nth i l).
Proof.
  intros H. revert i. induction H as [|h t Hh Ht IH]; intros i.
  - destruct i; constructor.
  - destruct i as [|j]; simpl; [exact Ht | constructor; [exact Hh | apply IH]].
Qed.

Lemma regionOf_ok (a : TileAddress) :
  0 <= zoom a <= 9 -> x a = 0 ->
  exists r, resolution (zoom a) = Some r /\ regionOf a = Some (0, 256 * r).
Proof.
  intros Hz Hx. destruct (resolution_defined (zoom a) Hz) as [r [Hr _]].
  exists r. split; [exact Hr|]. unfold regionOf. rewrite Hr, Hx.
  replace (0 * 256 * r) with 0 by lia.
  replace ((0 + 1) * 256 * r) with (256 * r) by lia. reflexivity.
Qed.

Lemma step_requests_ok (s : ViewState) (e : event) :
  address_ok s -> requests_ok s -> requests_ok (step s e).
Proof.
  intros Ha (Ht & Hd & Hc). unfold requests_ok.
  assert (Hcur : 0 <= zoom (tileCoords s) <= 9 /\ x (tileCoords s) = 0
                 /\ y (tileCoords s) = 0) by exact Ha.
  assert (Hreg : region_ok (regionOf (tileCoords s))).
  { destruct Ha as (Hz & Hx & _).
    destruct (regionOf_ok (tileCoords s) Hz Hx) as [r [Hr Hg]].
    exists (zoom (tileCoords s)), r. auto. }
  destruct e as [ |t|i r|m| |i r| |i r]; cbn [step].
  - simpl. repeat split; try assumption.
    apply Forall_app. split; [exact Ht | constructor; [exact Hcur | constructor]].
  - destruct (Z.eq_dec (newZoomLevel (k t)) (zoom (tileCoords s))) as [E|E].
    + rewrite (onZoom_same_level s t E). simpl. auto.
    + rewrite (onZoom_changes s t E). simpl. repeat split; try assumption.
      apply Forall_app. split; [exact Ht|]. constructor; [|constructor].
      simpl. unfold newZoomLevel. lia.
  - unfold tileSettled. destruct (nth_error (tileFetches s) i).
    + destruct r; simpl; repeat split; try assumption;
        apply Forall_remove_nth; exact Ht.
    + auto.
  - simpl. auto.
  - simpl. repeat split; try assumption.
    apply Forall_app. split; [exact Hd | constructor; [exact Hreg | constructor]].
  - unfold tadsSettled. destruct (nth_error (tadFetches s) i).
    + destruct r; simpl; repeat split; try assumption;
        apply Forall_remove_nth; exact Hd.
    + auto.
  - simpl. repeat split; try assumption.
    apply Forall_app. split; [exact Hc | constructor; [exact Hreg | constructor]].
  - unfold compartmentsSettled. destruct (nth_error (compartmentFetches s) i).
    + destruct r; simpl; repeat split; try assumption;
        apply Forall_remove_nth; exact Hc.
    + auto.
Qed.

(** X4: in every state the view reaches from its initial state, each tile
    request in flight is for an address [(level, 0, 0)] with a level of
    the ladder, and each annotation request (TADs or compartments) asks
    for the region from 0 to 256 bins at one of the ten resolutions; the
    current address is of that form as well. *)
Theorem requests_in_flight_invariant (es : list event) :
  address_ok (run initialState es) /\ requests_ok (run initialState es).
Proof.
  assert (H : forall s, address_ok s /\ requests_ok s ->
                        address_ok (run s es) /\ requests_ok (run s es)).
  { induction es as [|e es IH]; intros s [Ha Hr]; simpl; [auto|].
    apply IH. split; [apply step_address_ok; exact Ha|].
    apply step_requests_ok; assumption. }
  apply H. split.
  - unfold address_ok. simpl. lia.
  - repeat split; constructor.
Qed.

(** ** Zoom handler *)



(** ** Renderer *)

Lemma stackDepth_neutral (d : nat) (l rest : list canvas_op) :
  Forall keeps_stack l -> stackDepth d (l ++ rest) = stackDepth d rest.
Proof.
  induction 1 as [|op l [Hs Hr] _ IH]; simpl; [reflexivity|].
  destruct op; try exact IH; contradiction.
Qed.

Lemma paintCells_keeps_stack (m : matrix) (dom : Q * Q) (ps : Q) (n : nat) :
  Forall keeps_stack (paintCells m dom ps n).
Proof.
  apply Forall_forall. intros op H. apply paintCells_In in H.
  destruct H as (i & j & v & _ & _ & _ & _ & ->). split; discriminate.
Qed.

Lemma strokeTads_keeps_stack (s : ViewState) (ps size : Q) :
  Forall keeps_stack (strokeTads s ps size).
Proof.
  unfold strokeTads. destruct (tads s) as [ts|]; [|constructor].
  constructor; [split; discriminate|].
  apply Forall_app. split.
  - destruct (Qeq_bool (k (transform s)) 0); repeat constructor; discriminate.
  - destruct (resolution (zoom (tileCoords s))) as [r|]; [|constructor].
    apply Forall_forall. intros op H. apply in_flat_map in H.
    destruct H as [tad [_ H]]. apply strokeTad_In in H.
    destruct H as [_ ->]. split; discriminate.
Qed.

(** X7: whatever the state and the container width, the calls of a
    redraw leave the context's state stack as they found it: every
    [save] is followed by its [restore] (also on the early return for an
    empty matrix) and no [restore] comes without a [save]; with no matrix
    or no measured container nothing is called at all. *)
Theorem render_restores_context (s : ViewState) (width : option Q) :
  stackDepth 0 (render s width) = Some 0%nat /\
  (matrixData s = None \/ width = None -> render s width = []).
Proof.
  split.
  - unfold render. destruct (matrixData s) as [m|]; [|reflexivity].
    destruct width as [w|]; [|reflexivity].
    destruct m as [|row rows]; [reflexivity|].
    cbn [List.length Nat.eqb app stackDepth].
    rewrite (stackDepth_neutral 1 _ _ (paintCells_keeps_stack _ _ _ _)).
    rewrite (stackDepth_neutral 1 _ _ (strokeTads_keeps_stack _ _ _)).
    reflexivity.
  - intros [H|H]; unfold render; rewrite H; [reflexivity|].
    destruct (matrixData s); reflexivity.
Qed.

Lemma render_restores_context_witness :
  stackDepth 0 (render (view4 (Some [wideTad])) (Some 450%Q)) = Some 0%nat /\
  render (setMatrixData (view4 None) None) (Some 450%Q) = [].
Proof.
  destruct (render_restores_context (view4 (Some [wideTad])) (Some 450%Q)) as [H _].
  destruct (render_restores_context (setMatrixData (view4 None) None) (Some 450%Q))
    as [_ H'].
  split; [exact H | apply H'; left; reflexivity].
Defined.

(** ** Compartment track *)

Lemma SFcompare_refl (f : spec_float) : f <> S754_nan -> SFcompare f f = Some Eq.
Proof.
  destruct f as [s|s| |s m e]; intros H; simpl; try reflexivity.
  - destruct s; reflexivity.
  - contradiction.
  - rewrite Z.compare_refl, Pos.compare_cont_refl. destruct s; reflexivity.
Qed.

Lemma is_nan_false (a : float) : Prim2SF a <> S754_nan -> is_nan a = false.
Proof.
  intros H. unfold is_nan. rewrite FloatAxioms.eqb_spec. unfold SFeqb.
  rewrite (SFcompare_refl _ H). reflexivity.
Qed.

Lemma ltb_not_nan (a b : float) :
  PrimFloat.ltb a b = true -> is_nan a = false /\ is_nan b = false.
Proof.
  rewrite ltb_spec. unfold SFltb. intros H.
  split; apply is_nan_false; intros E; rewrite E in H.
  - discriminate.
  - destruct (Prim2SF a); discriminate.
Qed.

Lemma ltb_leb (a b : float) : PrimFloat.ltb a b = true -> PrimFloat.leb a b = true.
Proof.
  rewrite ltb_spec, leb_spec. unfold SFltb, SFleb.
  destruct (SFcompare (Prim2SF a) (Prim2SF b)) as [[| |]|]; auto.
Qed.

Lemma ltb_asym (a b : float) : PrimFloat.ltb a b = true -> PrimFloat.ltb b a = false.
Proof.
  rewrite !ltb_spec. unfold SFltb.
  destruct (Prim2SF a) as [s|s| |s m e], (Prim2SF b) as [s'|s'| |s' m' e'];
    simpl; try discriminate; try reflexivity;
    try (destruct s; simpl; try discriminate; reflexivity);
    try (destruct s'; simpl; try discriminate; reflexivity);
    try (destruct s, s'; simpl; try discriminate; reflexivity).
  destruct s, s'; simpl; try discriminate; try reflexivity;
    rewrite (Z.compare_antisym e e'), !Pos.compare_cont_spec;
    rewrite (Pos.compare_antisym m m');
    destruct (e ?= e'); simpl; try discriminate; try reflexivity;
    destruct (m ?= m')%positive; simpl; try discriminate; reflexivity.
Qed.

(** [Math.max(1, a)] is [NaN] or at least 1. *)
Lemma max_one (a : float) :
  is_nan (Double.max 1 a) = true \/ PrimFloat.leb 1 (Double.max 1 a) = true.
Proof.
  unfold Double.max. destruct (is_nan 1 || is_nan a) eqn:E; [left; reflexivity|].
  right. destruct (PrimFloat.ltb 1 a) eqn:L; [apply ltb_leb; exact L | reflexivity].
Qed.

Lemma sign_negative (a : float) : PrimFloat.ltb a 0 = true -> Double.sign a = Double.Minus1.
Proof.
  intros H. unfold Double.sign. destruct (ltb_not_nan _ _ H) as [-> _].
  rewrite H. reflexivity.
Qed.

Lemma sign_positive (a : float) : PrimFloat.ltb 0 a = true -> Double.sign a = Double.Plus1.
Proof.
  intros H. unfold Double.sign. destruct (ltb_not_nan _ _ H) as [_ ->].
  rewrite (ltb_asym _ _ H), H. reflexivity.
Qed.

Lemma ordinal_ok (domain : list Double.sign_key) (d : Double.sign_key) :
  domain_ok domain ->
  domain_ok (fst (Double.ordinal domain d)) /\
  (d = Double.Minus1 -> snd (Double.ordinal domain d) = "blue") /\
  (d = Double.Plus1 -> snd (Double.ordinal domain d) = "red") /\
  (snd (Double.ordinal domain d) = "blue" \/ snd (Double.ordinal domain d) = "red").
Proof.
  intros [rest ->]. unfold Double.ordinal.
  destruct d; simpl.
  - repeat split; try discriminate; eauto. exists rest. reflexivity.
  - repeat split; try discriminate; eauto. exists rest. reflexivity.
  - destruct (Double.indexOf Double.Zero rest) as [i|]; simpl.
    + split; [exists rest; reflexivity|]. repeat split; try discriminate.
      destruct (Nat.even i); auto.
    + split; [exists (rest ++ [Double.Zero])%list; reflexivity|].
      repeat split; try discriminate.
      destruct (Nat.even (List.length rest)); auto.
  - destruct (Double.indexOf Double.NotANumber rest) as [i|]; simpl.
    + split; [exists rest; reflexivity|]. repeat split; try discriminate.
      destruct (Nat.even i); auto.
    + split; [exists (rest ++ [Double.NotANumber])%list; reflexivity|].
      repeat split; try discriminate.
      destruct (Nat.even (List.length rest)); auto.
Qed.

Lemma ordinal_plain (domain : list Double.sign_key) (d : Double.sign_key) :
  domain_plain domain -> d <> Double.NotANumber ->
  domain_plain (fst (Double.ordinal domain d)) /\
  (d = Double.Zero -> snd (Double.ordinal domain d) = "blue").
Proof.
  intros [-> | ->] Hd; destruct d; try contradiction; simpl;
    (split; [unfold domain_plain; auto | intros; try discriminate; reflexivity]).
Qed.

Lemma fills_length (domain : list Double.sign_key) (cs : list Double.Compartment) :
  List.length (Double.fills domain cs) = List.length cs.
Proof.
  revert domain. induction cs as [|c cs IH]; intros domain; simpl; [reflexivity|].
  destruct (Double.ordinal domain (Double.sign (Double.E1 c))) as [d' colour].
  simpl. rewrite IH. reflexivity.
Qed.

Lemma fills_ok (domain : list Double.sign_key) (cs : list Double.Compartment) :
  domain_ok domain ->
  Forall2 (fun c colour =>
             (PrimFloat.ltb (Double.E1 c) 0 = true -> colour = "blue") /\
             (PrimFloat.ltb 0 (Double.E1 c) = true -> colour = "red") /\
             (colour = "blue" \/ colour = "red"))
          cs (Double.fills domain cs).
Proof.
  revert domain. induction cs as [|c cs IH]; intros domain Hd; simpl; [constructor|].
  destruct (ordinal_ok domain (Double.sign (Double.E1 c)) Hd) as (Hd' & Hm & Hp & Hc).
  destruct (Double.ordinal domain (Double.sign (Double.E1 c))) as [d' colour].
  simpl in *. constructor; [|apply IH; exact Hd'].
  split; [|split].
  - intros H. apply Hm. apply sign_negative. exact H.
  - intros H. apply Hp. apply sign_positive. exact H.
  - exact Hc.
Qed.

Lemma fills_plain (domain : list Double.sign_key) (cs : list Double.Compartment) :
  domain_plain domain ->
  Forall (fun c => is_nan (Double.E1 c) = false) cs ->
  Forall2 (fun c colour =>
             PrimFloat.ltb (Double.E1 c) 0 = false ->
             PrimFloat.ltb 0 (Double.E1 c) = false -> colour = "blue")
          cs (Double.fills domain cs).
Proof.
  revert domain. induction cs as [|c cs IH]; intros domain Hd Hn; simpl; [constructor|].
  inversion Hn as [|? ? Hc Hn']; subst.
  assert (Hs : Double.sign (Double.E1 c) <> Double.NotANumber).
  { unfold Double.sign. rewrite Hc.
    destruct (PrimFloat.ltb (Double.E1 c) 0); [discriminate|].
    destruct (PrimFloat.ltb 0 (Double.E1 c)); discriminate. }
  destruct (ordinal_plain domain (Double.sign (Double.E1 c)) Hd Hs) as (Hd' & Hz).
  destruct (Double.ordinal domain (Double.sign (Double.E1 c))) as [d' colour] eqn:E.
  simpl in *. constructor; [|apply IH; assumption].
  intros H1 H2. apply Hz. unfold Double.sign. rewrite Hc, H1, H2. reflexivity.
Qed.

Lemma Forall2_weaken {A B : Type} (P Q : A -> B -> Prop) (l : list A) (l' : list B) :
  (forall a b, P a b -> Q a b) -> Forall2 P l l' -> Forall2 Q l l'.
Proof.
  intros H F. induction F; constructor; auto.
Qed.

Lemma compartmentRects_spec (v : Double.View) (size : float)
    (cs : list Double.Compartment) (colours : list string)
    (P : Double.Compartment -> string -> Prop) :
  Forall2 P cs colours ->
  Forall2 (fun c rc =>
             Double.sr_x rc = Double.xScale v size (Double.c_start c) /\
             Double.sr_y rc = 0%float /\ Double.sr_height rc = 20%float /\
             Double.sr_width rc
             = Double.max 1 (PrimFloat.sub (Double.xScale v size (Double.c_end c))
                                           (Double.xScale v size (Double.c_start c))) /\
             P c (Double.sr_fill rc))
          cs
          (map (fun cf : Double.Compartment * string =>
                  let (c, colour) := cf in
                  Double.mkStripRect (Double.xScale v size (Double.c_start c)) 0
                    (Double.max 1
                       (PrimFloat.sub (Double.xScale v size (Double.c_end c))
                                      (Double.xScale v size (Double.c_start c))))
                    20 colour)
               (combine cs colours)).
Proof.
  induction 1 as [|c colour cs colours Hc _ IH]; simpl; constructor; auto.
Qed.

(** X11: the render effect leaves the compartment track as it was when
    it returns early (no matrix, an empty matrix, a container that has
    not been measured).  Otherwise it replaces the content of the track:
    by nothing without compartments, else by one rectangle per
    compartment, in the order of the list, at [x = xScale(start)] and
    [y = 0], 20 high, of a width that is [NaN] or at least 1 (also for an
    empty or reversed interval), blue when [E1] is negative and red when
    it is positive; when no [E1] is [NaN], a rectangle whose [E1] is zero
    is blue. *)
Theorem compartment_strip_rects (v : Double.View) (width : option float) :
  (Double.compartmentTrack v width = None <->
   Double.matrixData v = None \/ Double.matrixData v = Some [] \/ width = None) /\
  (forall m w, Double.matrixData v = Some m -> m <> [] -> width = Some w ->
     (Double.compartments v = None -> Double.compartmentTrack v width = Some []) /\
     (forall cs, Double.compartments v = Some cs ->
        exists rects,
          Double.compartmentTrack v width = Some rects /\
          Forall2 (fun c rc =>
                     Double.sr_x rc
                     = Double.xScale v (PrimFloat.sub w 50) (Double.c_start c) /\
                     Double.sr_y rc = 0%float /\ Double.sr_height rc = 20%float /\
                     (is_nan (Double.sr_width rc) = true \/
                      PrimFloat.leb 1 (Double.sr_width rc) = true) /\
                     (PrimFloat.ltb (Double.E1 c) 0 = true -> Double.sr_fill rc = "blue") /\
                     (PrimFloat.ltb 0 (Double.E1 c) = true -> Double.sr_fill rc = "red") /\
                     (Double.sr_fill rc = "blue" \/ Double.sr_fill rc = "red"))
                  cs rects /\
          (Forall (fun c => is_nan (Double.E1 c) = false) cs ->
           Forall2 (fun c rc =>
                      PrimFloat.ltb (Double.E1 c) 0 = false ->
                      PrimFloat.ltb 0 (Double.E1 c) = false ->
                      Double.sr_fill rc = "blue")
                   cs rects))).
Proof.
  split.
  - unfold Double.compartmentTrack.
    destruct (Double.matrixData v) as [m|]; [|tauto].
    destruct width as [w|]; [|tauto].
    destruct m as [|row rows]; simpl.
    + tauto.
    + destruct (Double.compartments v); split; try discriminate;
        intros [H|[H|H]]; discriminate.
  - intros m w Hm Hne ->. unfold Double.compartmentTrack. rewrite Hm.
    destruct m as [|row rows]; [contradiction|]. simpl. split.
    + intros ->. reflexivity.
    + intros cs ->. eexists. split; [reflexivity|]. split.
      * unfold Double.compartmentRects.
        pose proof (fills_ok [Double.Minus1; Double.Plus1] cs
                      (ex_intro _ [] eq_refl)) as F.
        pose proof (compartmentRects_spec v (PrimFloat.sub w 50) cs _ _ F) as R.
        revert R. apply Forall2_weaken.
        intros c rc (Hx & Hy & Hh & Hw & Hf).
        repeat split; try assumption; try tauto.
        rewrite Hw. apply max_one.
      * intros Hn. unfold Double.compartmentRects.
        pose proof (fills_plain [Double.Minus1; Double.Plus1] cs
                      (or_introl eq_refl) Hn) as F.
        pose proof (compartmentRects_spec v (PrimFloat.sub w 50) cs _ _ F) as R.
        revert R. apply Forall2_weaken.
        intros c rc (_ & _ & _ & _ & Hf). exact Hf.
Qed.

Lemma compartment_strip_rects_witness :
  (exists rects,
      Double.compartmentTrack compartmentView (Some 450%float) = Some rects /\
      map Double.sr_fill rects = ["red"; "blue"; "red"; "blue"] /\
      Forall (fun rc => is_nan (Double.sr_width rc) = true \/
                        PrimFloat.leb 1 (Double.sr_width rc) = true) rects) /\
  Double.compartmentTrack
    (Double.mkView (Some []) None (Double.compartments compartmentView)
       (mkTile 0 0 0) (Double.mkTransform 0 0 1)) (Some 450%float) = None.
Proof.
  destruct (compartment_strip_rects compartmentView (Some 450%float)) as [_ H].
  destruct (H matrix4e 450%float eq_refl) as [_ H']; [discriminate | reflexivity |].
  destruct (H' _ eq_refl) as (rects & E & F & _).
  split.
  - exists rects. split; [exact E|]. split.
    + vm_compute in E. apply Some_inj in E. rewrite <- E. reflexivity.
    + clear E. induction F as [|c rc cs rs (_ & _ & _ & Hw & _) _ IH];
        constructor; assumption.
  - apply (proj1 (compartment_strip_rects _ (Some 450%float))). right. left. reflexivity.
Defined.

(** The rectangles of the view of the witness at container width 450:
    under the transform (0.1, 0, 3) the scale puts the base pairs 0, 20000
    and 30000 at 0.09999999999999998, 6.099999999999999 and
    9.099999999999998. *)
Lemma compartment_track_examples :
  Double.compartmentTrack compartmentView (Some 450%float)
  = Some [Double.mkStripRect 0.09999999999999998 0 5.999999999999999 20 "red";
          Double.mkStripRect 6.099999999999999 0 1 20 "blue";
          Double.mkStripRect 6.099999999999999 0 2.999999999999999 20 "red";
          Double.mkStripRect 9.099999999999998 0 1 20 "blue"]%float.
Proof. vm_compute. reflexivity. Qed.



(** ** Hit-tester *)





(** X14: the handler can only throw on a ragged matrix: if it ends in the
    [TypeError] of [toFixed] on [undefined], some row of the matrix on
    display is shorter than the number of rows. *)
Theorem handler_throws_only_on_ragged_matrix (s : ViewState) (cw : Q)
    (mouse page : Q * Q) :
  handleMouseMove s cw mouse page = TypeError ->
  exists m row,
    matrixData s = Some m /\ In row m /\
    (List.length row < List.length m)%nat.
Proof.
  unfold handleMouseMove. intros H.
  destruct (matrixData s) as [m|]; [|discriminate].
  destruct (List.length m =? 0)%nat; [discriminate|].
  destruct (D3.invert (transform s) mouse) as [q|]; [|discriminate].
  destruct (findTad s _ q); [discriminate|].
  unfold cellFallback in H.
  destruct (Qeq_bool _ 0); [discriminate|].
  set (i := Qfloor (snd q / (cw / Qofnat (List.length m)))) in *.
  set (j := Qfloor (fst q / (cw / Qofnat (List.length m)))) in *.
  destruct ((0 <=? i) && (i <? Z.of_nat (List.length m))
            && (0 <=? j) && (j <? Z.of_nat (List.length m))) eqn:Eb;
    [|discriminate].
  rewrite !andb_true_iff in Eb. destruct Eb as [[[Hi0 Hi1] Hj0] Hj1].
  apply Z.leb_le in Hi0, Hj0. apply Z.ltb_lt in Hi1, Hj1.
  unfold cellAt in H.
  destruct (nth_error m (Z.to_nat i)) as [row|] eqn:Er.
  - destruct (nth_error row (Z.to_nat j)) as [[v|]|] eqn:Ec; try discriminate.
    apply nth_error_None in Ec.
    exists m, row. split; [reflexivity|]. split; [eapply nth_error_In; exact Er|].
    lia.
  - apply nth_error_None in Er. lia.
Qed.

Lemma handler_throws_only_on_ragged_matrix_witness :
  exists m row,
    matrixData (setMatrixData initialState (Some [[Some 1%Q; Some 2%Q]; [Some 3%Q]]))
    = Some m /\ In row m /\ (List.length row < List.length m)%nat.
Proof.
  apply (handler_throws_only_on_ragged_matrix
           (setMatrixData initialState (Some [[Some 1%Q; Some 2%Q]; [Some 3%Q]]))
           400 (300, 300)%Q (0, 0)%Q).
  vm_compute. reflexivity.
Defined.

(** * Properties of the gene information panel *)

(** X15: however the three requests end, the chain leaves the panel with
    its loading flag off, and its pathway status is [idle] exactly when no
    request was made (no gene, or a gene without a name); otherwise it is
    [error], [no_data], [success] or, only when the diagram request
    answered JSON [null], still [loading]. *)
Theorem panel_final_state (gene : option Tracks.Feature)
    (lookup : GeneInfo.fetched GeneInfo.GeneDetails)
    (pathways : GeneInfo.fetched (list GeneInfo.Pathway))
    (diagram : GeneInfo.fetched GeneInfo.Diagram) :
  let p := fst (GeneInfo.geneEffect gene lookup pathways diagram) in
  let requests := snd (GeneInfo.geneEffect gene lookup pathways diagram) in
  GeneInfo.isLoading p = false /\
  (GeneInfo.pathwayStatus p = "idle" <-> requests = []) /\
  (requests = [] <->
   gene = None \/ exists g, gene = Some g /\ Tracks.f_name g = "") /\
  (GeneInfo.pathwayStatus p = "idle" \/ GeneInfo.pathwayStatus p = "error" \/
   GeneInfo.pathwayStatus p = "no_data" \/ GeneInfo.pathwayStatus p = "success" \/
   (GeneInfo.pathwayStatus p = "loading" /\
    diagram = GeneInfo.Response true GeneInfo.Null)).
Proof.
  unfold GeneInfo.geneEffect.
  destruct gene as [g|].
  2: { simpl. repeat split; auto; try discriminate. }
  destruct (String.eqb_spec (Tracks.f_name g) "") as [E|E].
  { simpl. repeat split; auto; try discriminate.
    intros _. right. exists g. auto. }
  assert (Hreq : forall (l : list string),
             l <> [] -> (l = [] <-> (Some g = None \/
                                     exists g', Some g = Some g' /\ Tracks.f_name g' = ""))).
  { intros l Hl. split; [intros; contradiction|].
    intros [H|[g' [H H']]]; [discriminate|]. injection H as <-. contradiction. }
  destruct lookup as [|[|] [| |data]];
    try (simpl; repeat split; auto; try discriminate;
         apply Hreq; discriminate).
  destruct pathways as [|[|] [| |[|first l]]];
    try (simpl; repeat split; auto 6; try discriminate;
         apply Hreq; discriminate).
  destruct diagram as [|[|] [| |[[ns|] [es|]]]];
    simpl; repeat split; auto 8; try discriminate;
    apply Hreq; discriminate.
Qed.

Lemma panel_final_state_witness :
  let r := GeneInfo.geneEffect (Some geneTP53)
             (GeneInfo.Response true (GeneInfo.Value detailsTP53))
             (GeneInfo.Response true (GeneInfo.Value [GeneInfo.mkPathway "R-HSA-69541"]))
             (GeneInfo.Response true GeneInfo.Null) in
  GeneInfo.isLoading (fst r) = false /\
  GeneInfo.pathwayStatus (fst r) = "loading" /\
  snd r <> [].
Proof.
  destruct (panel_final_state (Some geneTP53)
              (GeneInfo.Response true (GeneInfo.Value detailsTP53))
              (GeneInfo.Response true (GeneInfo.Value [GeneInfo.mkPathway "R-HSA-69541"]))
              (GeneInfo.Response true GeneInfo.Null))
    as (Hl & Hidle & _ & _).
  split; [exact Hl|]. split; [reflexivity|].
  intros E. apply Hidle in E. vm_compute in E. discriminate.
Defined.

(** X16: the panel holds a pathway graph exactly when its pathway status
    is [success]; that happens exactly when the lookup, a non-empty
    pathway list and a diagram with both [nodes] and [edges] all arrived
    in responses with [ok] set, and the graph then has one node per
    diagram node and one edge per diagram edge. *)
Theorem graph_iff_success (gene : option Tracks.Feature)
    (lookup : GeneInfo.fetched GeneInfo.GeneDetails)
    (pathways : GeneInfo.fetched (list GeneInfo.Pathway))
    (diagram : GeneInfo.fetched GeneInfo.Diagram) :
  let p := fst (GeneInfo.geneEffect gene lookup pathways diagram) in
  (GeneInfo.pathwayGraph p <> None <-> GeneInfo.pathwayStatus p = "success") /\
  (GeneInfo.pathwayStatus p = "success" <->
   exists g data first rest ns es,
     gene = Some g /\ Tracks.f_name g <> "" /\
     lookup = GeneInfo.Response true (GeneInfo.Value data) /\
     pathways = GeneInfo.Response true (GeneInfo.Value (first :: rest)) /\
     diagram = GeneInfo.Response true
                 (GeneInfo.Value (GeneInfo.mkDiagram (Some ns) (Some es))) /\
     GeneInfo.geneDetails p = Some data /\
     exists graph, GeneInfo.pathwayGraph p = Some graph /\
       List.length (GeneInfo.nodes graph) = List.length ns /\
       List.length (GeneInfo.edges graph) = List.length es).
Proof.
  unfold GeneInfo.geneEffect.
  destruct gene as [g|].
  2: { simpl. split; [split; [intros H; exfalso; apply H; reflexivity | discriminate]|].
       split; [discriminate|]. intros (g & ? & ? & ? & ? & ? & H & _). discriminate. }
  destruct (String.eqb_spec (Tracks.f_name g) "") as [E|E].
  { simpl. split; [split; [intros H; exfalso; apply H; reflexivity | discriminate]|].
    split; [discriminate|].
    intros (g' & ? & ? & ? & ? & ? & H & H' & _). injection H as <-. contradiction. }
  destruct lookup as [|[|] [| |data]];
    try (simpl; split; [split; [intros H; exfalso; apply H; reflexivity | discriminate]|];
         split; [discriminate|];
         intros (? & ? & ? & ? & ? & ? & _ & _ & H & _); discriminate).
  destruct pathways as [|[|] [| |[|first l]]];
    try (simpl; split; [split; [intros H; exfalso; apply H; reflexivity | discriminate]|];
         split; [discriminate|];
         intros (? & ? & ? & ? & ? & ? & _ & _ & _ & H & _); discriminate).
  destruct diagram as [|[|] [| |[[ns|] [es|]]]];
    try (simpl; split; [split; [intros H; exfalso; apply H; reflexivity | discriminate]|];
         split; [discriminate|];
         intros (? & ? & ? & ? & ? & ? & _ & _ & _ & _ & H & _); discriminate).
  simpl. split; [split; [reflexivity | discriminate]|].
  split; [|reflexivity].
  intros _. exists g, data, first, l, ns, es.
  repeat split; try assumption.
  eexists. split; [reflexivity|]. simpl. rewrite !length_map. split; reflexivity.
Qed.

Lemma graph_iff_success_witness :
  let p := fst (GeneInfo.geneEffect (Some geneTP53)
                  (GeneInfo.Response true (GeneInfo.Value detailsTP53))
                  (GeneInfo.Response true (GeneInfo.Value [GeneInfo.mkPathway "R-HSA-69541"]))
                  (GeneInfo.Response true (GeneInfo.Value diagramTP53))) in
  GeneInfo.pathwayGraph p <> None.
Proof.
  apply (proj1 (graph_iff_success (Some geneTP53)
                  (GeneInfo.Response true (GeneInfo.Value detailsTP53))
                  (GeneInfo.Response true (GeneInfo.Value [GeneInfo.mkPathway "R-HSA-69541"]))
                  (GeneInfo.Response true (GeneInfo.Value diagramTP53)))).
  reflexivity.
Defined.

(** X17: once the lookup has answered with details, the panel keeps them
    whatever becomes of the pathway requests, and the pathway list is
    asked for the identifier those details carry, right after the lookup
    of the gene's name. *)
Theorem details_survive_pathway_failure (g : Tracks.Feature)
    (data : GeneInfo.GeneDetails)
    (pathways : GeneInfo.fetched (list GeneInfo.Pathway))
    (diagram : GeneInfo.fetched GeneInfo.Diagram) :
  Tracks.f_name g <> "" ->
  let r := GeneInfo.geneEffect (Some g)
             (GeneInfo.Response true (GeneInfo.Value data)) pathways diagram in
  GeneInfo.geneDetails (fst r) = Some data /\
  exists more,
    snd r = (GeneInfo.lookupUrl (Tracks.f_name g)
             :: GeneInfo.pathwaysUrl (GeneInfo.gd_id data) :: more)%list /\
    (List.length more <= 1)%nat.
Proof.
  intros Hn. unfold GeneInfo.geneEffect.
  destruct (String.eqb_spec (Tracks.f_name g) "") as [E|_]; [contradiction|].
  destruct pathways as [|[|] [| |[|first l]]];
    try (simpl; split; [reflexivity|]; exists []; split; [reflexivity | simpl; lia]).
  destruct diagram as [|[|] [| |[[ns|] [es|]]]];
    simpl; (split; [reflexivity|]); eexists; (split; [reflexivity | simpl; lia]).
Qed.

Lemma details_survive_pathway_failure_witness :
  let r := GeneInfo.geneEffect (Some geneTP53)
             (GeneInfo.Response true (GeneInfo.Value detailsTP53))
             (GeneInfo.Response true (GeneInfo.Value [GeneInfo.mkPathway "R-HSA-69541"]))
             GeneInfo.Rejected in
  GeneInfo.geneDetails (fst r) = Some detailsTP53 /\
  exists more,
    snd r = (GeneInfo.lookupUrl (Tracks.f_name geneTP53)
             :: GeneInfo.pathwaysUrl (GeneInfo.gd_id detailsTP53) :: more)%list /\
    (List.length more <= 1)%nat.
Proof.
  apply (details_survive_pathway_failure geneTP53 detailsTP53). discriminate.
Defined.

(** * Properties of the track parsers *)

Lemma split_nonempty (sep : ascii) (s : string) : Tracks.split sep s <> [].
Proof.
  destruct s as [|c rest]; simpl; [discriminate|].
  destruct (Ascii.eqb c sep); [discriminate|].
  destruct (Tracks.split sep rest); discriminate.
Qed.

Lemma split_app_sep (sep : ascii) (a b : string) :
  Tracks.split sep (a ++ String sep b)
  = (Tracks.split sep a ++ Tracks.split sep b)%list.
Proof.
  induction a as [|c rest IH]; simpl.
  - rewrite Ascii.eqb_refl. reflexivity.
  - destruct (Ascii.eqb c sep); [rewrite IH; reflexivity|].
    rewrite IH.
    pose proof (split_nonempty sep rest) as Hne.
    destruct (Tracks.split sep rest) as [|field fields]; [contradiction|].
    reflexivity.
Qed.

Lemma split_no_sep (sep : ascii) (s : string) :
  hasChar sep s = false -> Tracks.split sep s = [s].
Proof.
  induction s as [|c rest IH]; simpl; [reflexivity|].
  intros H. apply orb_false_iff in H. destruct H as [Hc Hr].
  rewrite Hc, (IH Hr). reflexivity.
Qed.

(** Splitting undoes joining, for fields free of the separator. *)
Lemma split_join (sep : ascii) (fields : list string) :
  fields <> [] ->
  Forall (fun f => hasChar sep f = false) fields ->
  Tracks.split sep (join sep fields) = fields.
Proof.
  intros Hne H. induction H as [|f rest Hf Hrest IH]; [contradiction|].
  destruct rest as [|g rest'].
  - simpl. apply split_no_sep. exact Hf.
  - change (join sep (f :: g :: rest')) with (f ++ String sep (join sep (g :: rest'))).
    rewrite split_app_sep, (split_no_sep sep f Hf), IH by discriminate.
    reflexivity.
Qed.

Lemma lines_with_inserted (a line b : string) :
  hasChar Tracks.newline line = false ->
  Tracks.split Tracks.newline (a ++ nl ++ line ++ nl ++ b)
  = (Tracks.split Tracks.newline a ++ line :: Tracks.split Tracks.newline b)%list.
Proof.
  intros H. unfold nl.
  change (a ++ String Tracks.newline "" ++ line ++ String Tracks.newline "" ++ b)
    with (a ++ String Tracks.newline (line ++ String Tracks.newline b)).
  rewrite !split_app_sep, (split_no_sep _ line H). reflexivity.
Qed.

(** X18: a line that is blank or starts with [#] contributes nothing:
    inserting such a line between two lines of a file changes neither
    what the BED parser nor what the GFF parser returns. *)
Theorem skipped_line_changes_nothing (a line b : string) :
  hasChar Tracks.newline line = false ->
  Tracks.isBlank line = true \/ Tracks.isComment line = true ->
  Tracks.parseBed (a ++ nl ++ line ++ nl ++ b) = Tracks.parseBed (a ++ nl ++ b) /\
  Tracks.parseGff (a ++ nl ++ line ++ nl ++ b) = Tracks.parseGff (a ++ nl ++ b).
Proof.
  intros Hl Hskip.
  assert (Hk : Tracks.keepLine line = false).
  { unfold Tracks.keepLine. destruct Hskip as [H|H]; rewrite H; simpl;
      [reflexivity | apply andb_false_r]. }
  assert (E : filter Tracks.keepLine
                (Tracks.split Tracks.newline (a ++ nl ++ line ++ nl ++ b))
              = filter Tracks.keepLine (Tracks.split Tracks.newline (a ++ nl ++ b))).
  { rewrite (lines_with_inserted a line b Hl).
    unfold nl. change (a ++ String Tracks.newline "" ++ b)
      with (a ++ String Tracks.newline b).
    rewrite split_app_sep, !filter_app. simpl. rewrite Hk. reflexivity. }
  unfold Tracks.parseBed, Tracks.parseGff. rewrite E. split; reflexivity.
Qed.

Lemma skipped_line_changes_nothing_witness :
  Tracks.parseBed ("chr1" ++ nl ++ "# a comment" ++ nl ++ "chr2")
  = Tracks.parseBed ("chr1" ++ nl ++ "chr2") /\
  Tracks.parseGff ("chr1" ++ nl ++ "# a comment" ++ nl ++ "chr2")
  = Tracks.parseGff ("chr1" ++ nl ++ "chr2").
Proof.
  apply (skipped_line_changes_nothing "chr1" "# a comment" "chr2").
  - reflexivity.
  - right. reflexivity.
Defined.

(** X19: a line break at the end of the file adds no feature, for either
    parser. *)
Theorem trailing_newline_adds_nothing (content : string) :
  Tracks.parseBed (content ++ nl) = Tracks.parseBed content /\
  Tracks.parseGff (content ++ nl) = Tracks.parseGff content.
Proof.
  assert (E : filter Tracks.keepLine (Tracks.split Tracks.newline (content ++ nl))
              = filter Tracks.keepLine (Tracks.split Tracks.newline content)).
  { unfold nl. rewrite split_app_sep, filter_app. simpl. apply app_nil_r. }
  unfold Tracks.parseBed, Tracks.parseGff. rewrite E. split; reflexivity.
Qed.

(** X20: a BED line is taken apart at its tabs and nowhere else: a line
    made of tab-free columns gives the first column as chromosome, the
    second and third as start and end, the fourth as name and the fifth as
    score, further columns being ignored; a line of three columns gets the
    empty name and score 0, and an empty fifth column gives score 0
    too. *)
Theorem bed_line_columns (fields : list string) :
  fields <> [] ->
  Forall (fun f => hasChar Tracks.tab f = false) fields ->
  let feature := Tracks.parseBedLine (join Tracks.tab fields) in
  Tracks.chrom feature = hd "" fields /\
  Tracks.f_start feature = Tracks.numberAt fields 1 /\
  Tracks.f_end feature = Tracks.numberAt fields 2 /\
  Tracks.f_name feature = nth 3 fields "" /\
  (Tracks.f_score feature = Tracks.Zero <->
   (List.length fields <= 4)%nat \/ nth 4 fields "" = "") /\
  (forall sc, nth_error fields 4 = Some sc -> sc <> "" ->
              Tracks.f_score feature = Tracks.NumberOf sc) /\
  (List.length fields = 3%nat ->
   Tracks.f_name feature = "" /\ Tracks.f_score feature = Tracks.Zero).
Proof.
  intros Hne Hf feature. unfold feature, Tracks.parseBedLine.
  rewrite (split_join Tracks.tab fields Hne Hf). cbn [Tracks.chrom Tracks.f_start
    Tracks.f_end Tracks.f_name Tracks.f_score].
  split; [reflexivity|]. split; [reflexivity|]. split; [reflexivity|].
  split.
  { destruct fields as [|f0 [|f1 [|f2 [|f3 rest]]]]; reflexivity. }
  split.
  { destruct fields as [|f0 [|f1 [|f2 [|f3 [|f4 rest]]]]]; simpl;
      try (split; [intros _; left; lia | reflexivity]).
    destruct f4 as [|c f4']; simpl.
    - split; [intros _; right; reflexivity | reflexivity].
    - split; [discriminate|]. intros [H|H]; [lia | discriminate]. }
  split.
  { intros sc Hsc Hn. rewrite Hsc. destruct sc; [contradiction | reflexivity]. }
  intros H3. destruct fields as [|f0 [|f1 [|f2 [|f3 rest]]]]; try discriminate.
  split; reflexivity.
Qed.

Lemma bed_line_columns_witness :
  let feature := Tracks.parseBedLine
                   (join Tracks.tab ["chr17"; "7661779"; "7687550"]) in
  Tracks.chrom feature = "chr17" /\
  Tracks.f_start feature = Tracks.NumberOf "7661779" /\
  Tracks.f_name feature = "" /\ Tracks.f_score feature = Tracks.Zero.
Proof.
  destruct (bed_line_columns ["chr17"; "7661779"; "7687550"])
    as (Hc & Hs & _ & _ & _ & _ & H3).
  - discriminate.
  - repeat constructor.
  - destruct (H3 eq_refl) as [Hn Hz].
    split; [exact Hc|]. split; [exact Hs|]. split; [exact Hn | exact Hz].
Defined.

Lemma mapOrThrow_None {A B : Type} (f : A -> option B) (l : list A) :
  Tracks.mapOrThrow f l = None <-> exists a, In a l /\ f a = None.
Proof.
  induction l as [|a rest IH]; simpl.
  - split; [discriminate | intros [a [[] _]]].
  - destruct (f a) as [b|] eqn:E.
    + destruct (Tracks.mapOrThrow f rest) as [bs|].
      * split; [discriminate|]. intros [a' [[<-|Hin] Ha]]; [congruence|].
        exfalso. assert (Some bs = None) by (apply (proj2 IH); exists a'; auto).
        discriminate.
      * split; [|reflexivity]. intros _.
        destruct (proj1 IH eq_refl) as [a' [Hin Ha]]. exists a'. auto.
    + split; [|reflexivity]. intros _. exists a. auto.
Qed.

Lemma mapOrThrow_Some_length {A B : Type} (f : A -> option B) (l : list A) (bs : list B) :
  Tracks.mapOrThrow f l = Some bs -> List.length bs = List.length l.
Proof.
  revert bs. induction l as [|a rest IH]; simpl; intros bs H.
  - injection H as <-. reflexivity.
  - destruct (f a); [|discriminate].
    destruct (Tracks.mapOrThrow f rest) as [bs'|]; [|discriminate].
    injection H as <-. simpl. f_equal. apply IH. reflexivity.
Qed.

Lemma parseGffLine_None (line : string) :
  Tracks.parseGffLine line = None
  <-> (List.length (Tracks.split Tracks.tab line) < 9)%nat.
Proof.
  unfold Tracks.parseGffLine.
  destruct (nth_error (Tracks.split Tracks.tab line) 8) as [a|] eqn:E.
  - split; [discriminate|]. intros H.
    assert (nth_error (Tracks.split Tracks.tab line) 8 <> None) by congruence.
    apply nth_error_Some in H0. lia.
  - split; [|reflexivity]. intros _. apply nth_error_None in E. lia.
Qed.

(** X21: one short line spoils a GFF or GTF file.  When a line that is
    neither blank nor a comment has fewer than nine tab-separated columns,
    the load callback throws: the tracks shown before stay in place while
    the file name already is the new one.  When every such line has nine
    columns or more, the tracks are replaced by one feature per line. *)
Theorem gff_short_line_keeps_old_tracks (st : Tracks.TracksState)
    (name content : string) :
  Tracks.endsWith ".bed" name = false ->
  Tracks.endsWith ".gff" name || Tracks.endsWith ".gtf" name = true ->
  let kept := filter Tracks.keepLine (Tracks.split Tracks.newline content) in
  let st' := Tracks.handleFileChange st (Some (name, content)) in
  Tracks.fileName st' = name /\
  ((exists line, In line kept /\
                 (List.length (Tracks.split Tracks.tab line) < 9)%nat) ->
   Tracks.bedData st' = Tracks.bedData st) /\
  ((forall line, In line kept ->
                 (9 <= List.length (Tracks.split Tracks.tab line))%nat) ->
   exists features, Tracks.bedData st' = Some features /\
                    List.length features = List.length kept).
Proof.
  intros Hbed Hgff kept st'.
  unfold st', Tracks.handleFileChange, Tracks.parseFile.
  rewrite Hbed, Hgff. unfold Tracks.parseGff. fold kept.
  destruct (Tracks.mapOrThrow Tracks.parseGffLine kept) as [fs|] eqn:E.
  - split; [reflexivity|]. split.
    + intros [line [Hin Hshort]]. exfalso.
      assert (Hn : Tracks.mapOrThrow Tracks.parseGffLine kept = None).
      { apply mapOrThrow_None. exists line. split; [exact Hin|].
        apply parseGffLine_None. exact Hshort. }
      congruence.
    + intros _. exists fs. split; [reflexivity|].
      apply (mapOrThrow_Some_length _ _ _ E).
  - split; [reflexivity|]. split; [reflexivity|].
    intros Hall. exfalso.
    apply mapOrThrow_None in E. destruct E as [line [Hin Hn]].
    apply parseGffLine_None in Hn. specialize (Hall line Hin). lia.
Qed.

Lemma gff_short_line_keeps_old_tracks_witness :
  let st := Tracks.mkTracksState (Some (Tracks.parseBed bedFile)) "genes.bed" in
  let st' := Tracks.handleFileChange st
               (Some ("genes.gff", gffLine ++ nl ++ "chr17" ++ nl)) in
  Tracks.fileName st' = "genes.gff" /\
  Tracks.bedData st' = Tracks.bedData st.
Proof.
  destruct (gff_short_line_keeps_old_tracks
              (Tracks.mkTracksState (Some (Tracks.parseBed bedFile)) "genes.bed")
              "genes.gff" (gffLine ++ nl ++ "chr17" ++ nl))
    as (Hn & Hshort & _).
  - reflexivity.
  - reflexivity.
  - split; [exact Hn|]. apply Hshort.
    exists "chr17". split; [vm_compute; right; left; reflexivity | simpl; lia].
Defined.

Lemma takeUntil_app (c : ascii) (v rest : string) :
  hasChar c v = false ->
  rest = "" \/ (exists r, rest = String c r) ->
  Tracks.takeUntil c (v ++ rest) = v.
Proof.
  intros Hv Hrest. induction v as [|a v' IH]; simpl.
  - destruct Hrest as [->|[r ->]]; simpl; [reflexivity|].
    rewrite Ascii.eqb_refl. reflexivity.
  - simpl in Hv. apply orb_false_iff in Hv. destruct Hv as [Ha Hv'].
    rewrite Ha, (IH Hv'). reflexivity.
Qed.

Lemma drop_length_app (v rest : string) :
  Tracks.drop (String.length v) (v ++ rest) = rest.
Proof.
  induction v as [|a v' IH]; simpl; [destruct rest; reflexivity | exact IH].
Qed.

Lemma prefix_nil (s : string) : prefix "" s = true.
Proof. destruct s; reflexivity. Qed.

(** A prefix test only looks at as many characters as the prefix has. *)
Lemma prefix_app_short (p t more : string) :
  (String.length p <= String.length t)%nat ->
  prefix p (t ++ more) = prefix p t.
Proof.
  revert t. induction p as [|a p' IH]; intros t H; [rewrite !prefix_nil; reflexivity|].
  destruct t as [|b t']; [simpl in H; lia|].
  simpl. destruct (ascii_dec a b); [|reflexivity].
  apply IH. simpl in H. lia.
Qed.

Lemma length_append (a b : string) :
  String.length (a ++ b) = (String.length a + String.length b)%nat.
Proof.
  induction a as [|c a' IH]; simpl; [reflexivity | rewrite IH; reflexivity].
Qed.

Lemma append_assoc (a b c : string) : (a ++ b) ++ c = a ++ (b ++ c).
Proof.
  induction a as [|x a' IH]; simpl; [reflexivity | rewrite IH; reflexivity].
Qed.

(** When [p] does not begin inside [pre] (it occurs nowhere in [pre]
    followed by [p] without its last character), a pattern that starts
    with [p] has no match beginning inside [pre]. *)
Lemma firstMatch_skip (here : string -> option string) (p body last pre rest : string) :
  (forall s, prefix p s = false -> here s = None) ->
  p = body ++ last ->
  String.length last = 1%nat ->
  occurs p (pre ++ body) = false ->
  Tracks.firstMatch here (pre ++ p ++ rest) = Tracks.firstMatch here (p ++ rest).
Proof.
  intros Hhere Hp Hlast. induction pre as [|a pre' IH]; intros Hocc; [reflexivity|].
  change ((String a pre') ++ p ++ rest) with (String a (pre' ++ p ++ rest)).
  change ((String a pre') ++ body) with (String a (pre' ++ body)) in Hocc.
  cbn [occurs] in Hocc. apply orb_false_iff in Hocc. destruct Hocc as [Hpre Hocc].
  cbn [Tracks.firstMatch].
  rewrite Hhere; [apply IH; exact Hocc|].
  rewrite <- Hpre.
  change (String a (pre' ++ p ++ rest)) with ((String a pre') ++ p ++ rest).
  change (String a (pre' ++ body)) with ((String a pre') ++ body).
  rewrite Hp at 2. rewrite append_assoc, <- (append_assoc (String a pre') body).
  apply prefix_app_short.
  rewrite Hp, !length_append, Hlast. simpl. lia.
Qed.

Lemma firstMatch_none (here : string -> option string) (p s : string) :
  (forall s', prefix p s' = false -> here s' = None) ->
  occurs p s = false ->
  Tracks.firstMatch here s = None.
Proof.
  intros Hhere. induction s as [|a s' IH]; intros H.
  - cbn [occurs] in H. apply orb_false_iff in H. destruct H as [H _].
    cbn [Tracks.firstMatch]. rewrite (Hhere _ H). reflexivity.
  - cbn [occurs] in H. apply orb_false_iff in H. destruct H as [H Hs].
    cbn [Tracks.firstMatch]. rewrite (Hhere _ H). apply IH. exact Hs.
Qed.

Lemma nameHere_needs_prefix (s : string) :
  prefix "Name=" s = false -> Tracks.nameHere s = None.
Proof.
  intros H. unfold Tracks.nameHere. rewrite H. reflexivity.
Qed.

Lemma geneNameHere_needs_prefix (s : string) :
  prefix Tracks.geneNameOpening s = false -> Tracks.geneNameHere s = None.
Proof.
  intros H. unfold Tracks.geneNameHere. rewrite H. reflexivity.
Qed.

Lemma prefix_self_app (p rest : string) : prefix p (p ++ rest) = true.
Proof.
  induction p as [|a p' IH]; simpl; [apply prefix_nil|].
  destruct (ascii_dec a a) as [_|n]; [exact IH | exfalso; apply n; reflexivity].
Qed.

Lemma nameHere_at (v rest : string) :
  v <> "" -> hasChar ";" v = false ->
  rest = "" \/ (exists r, rest = String ";" r) ->
  Tracks.nameHere ("Name=" ++ v ++ rest) = Some v.
Proof.
  intros Hv Hsemi Hrest. unfold Tracks.nameHere.
  rewrite prefix_self_app.
  change (Tracks.drop 5 ("Name=" ++ v ++ rest)) with (v ++ rest).
  rewrite (takeUntil_app ";" v rest Hsemi Hrest).
  destruct v; [contradiction | reflexivity].
Qed.

Lemma geneNameHere_at (v rest : string) :
  v <> "" -> hasChar Tracks.dquote v = false ->
  Tracks.geneNameHere (Tracks.geneNameOpening ++ v ++ String Tracks.dquote rest)
  = Some v.
Proof.
  intros Hv Hq. unfold Tracks.geneNameHere.
  rewrite prefix_self_app.
  change (Tracks.drop 11 (Tracks.geneNameOpening ++ v ++ String Tracks.dquote rest))
    with (v ++ String Tracks.dquote rest).
  rewrite (takeUntil_app Tracks.dquote v (String Tracks.dquote rest) Hq)
    by (right; exists rest; reflexivity).
  destruct v as [|a v']; [contradiction|].
  rewrite (drop_length_app (String a v') (String Tracks.dquote rest)).
  reflexivity.
Qed.

Lemma firstMatch_here (here : string -> option string) (s v : string) :
  here s = Some v -> Tracks.firstMatch here s = Some v.
Proof.
  intros H. destruct s; cbn [Tracks.firstMatch]; rewrite H; reflexivity.
Qed.

Lemma attribute_name_none (attributes : string) :
  occurs "Name=" attributes = false ->
  occurs Tracks.geneNameOpening attributes = false ->
  Tracks.attributeName attributes = "".
Proof.
  intros HN Hg. unfold Tracks.attributeName.
  rewrite (firstMatch_none Tracks.nameHere "Name=" _ nameHere_needs_prefix HN).
  rewrite (firstMatch_none Tracks.geneNameHere _ _ geneNameHere_needs_prefix Hg).
  reflexivity.
Qed.

Lemma bed_columns_of_three (fields : list string) :
  fields <> [] ->
  Forall (fun f => hasChar Tracks.tab f = false) fields ->
  List.length fields = 3%nat ->
  Tracks.f_name (Tracks.parseBedLine (join Tracks.tab fields)) = "" /\
  Tracks.f_score (Tracks.parseBedLine (join Tracks.tab fields)) = Tracks.Zero.
Proof.
  intros Hne Hf H3. unfold Tracks.parseBedLine.
  rewrite (split_join Tracks.tab fields Hne Hf).
  destruct fields as [|f0 [|f1 [|f2 [|f3 rest]]]]; try discriminate.
  split; reflexivity.
Qed.

(** X22: the name of a GFF or GTF feature.  When the attribute column
    holds [Name=v] with a non-empty [v] free of semicolons, ended by a
    semicolon or by the end of the column, and [Name=] does not begin
    earlier, the name is [v].  When [Name=] occurs nowhere and the column
    holds [gene_name], a space and a non-empty quoted [v], with no earlier
    beginning of that opening, the name is [v].  When neither opening
    occurs, the name is empty. *)
Theorem attribute_name_extracted (pre v rest : string) :
  v <> "" ->
  (occurs "Name=" (pre ++ "Name") = false ->
   hasChar ";" v = false ->
   rest = "" \/ (exists r, rest = String ";" r) ->
   Tracks.attributeName (pre ++ "Name=" ++ v ++ rest) = v) /\
  (occurs "Name="
     (pre ++ Tracks.geneNameOpening ++ v ++ String Tracks.dquote rest) = false ->
   occurs Tracks.geneNameOpening (pre ++ "gene_name ") = false ->
   hasChar Tracks.dquote v = false ->
   Tracks.attributeName
     (pre ++ Tracks.geneNameOpening ++ v ++ String Tracks.dquote rest) = v) /\
  (occurs "Name=" pre = false -> occurs Tracks.geneNameOpening pre = false ->
   Tracks.attributeName pre = "").
Proof.
  intros Hv. split; [|split].
  - intros Hocc Hsemi Hrest. unfold Tracks.attributeName.
    rewrite (firstMatch_skip Tracks.nameHere "Name=" "Name" "=" pre (v ++ rest)
               nameHere_needs_prefix eq_refl eq_refl Hocc).
    rewrite (firstMatch_here _ _ v (nameHere_at v rest Hv Hsemi Hrest)).
    reflexivity.
  - intros HN Hocc Hq. unfold Tracks.attributeName.
    rewrite (firstMatch_none Tracks.nameHere "Name=" _ nameHere_needs_prefix HN).
    rewrite (firstMatch_skip Tracks.geneNameHere Tracks.geneNameOpening
               "gene_name " (String Tracks.dquote "") pre
               (v ++ String Tracks.dquote rest)
               geneNameHere_needs_prefix eq_refl eq_refl Hocc).
    rewrite (firstMatch_here _ _ v (geneNameHere_at v rest Hv Hq)).
    reflexivity.
  - apply attribute_name_none.
Qed.

Lemma attribute_name_extracted_witness :
  Tracks.attributeName
    ("ID=gene:ENSG00000141510;" ++ "Name=" ++ "TP53" ++ ";biotype=protein_coding")
  = "TP53" /\
  Tracks.attributeName gtfAttributes = "BRCA2" /\
  Tracks.attributeName "ID=gene:ENSG00000141510;biotype=protein_coding" = "".
Proof.
  destruct (attribute_name_extracted "ID=gene:ENSG00000141510;" "TP53"
              ";biotype=protein_coding") as (H1 & _ & _); [discriminate|].
  destruct (attribute_name_extracted
              ("gene_id " ++ String Tracks.dquote "ENSG00000139618"
                 ++ String Tracks.dquote "; ")
              "BRCA2" "; level 2") as (_ & H2 & _); [discriminate|].
  destruct (attribute_name_extracted
              "ID=gene:ENSG00000141510;biotype=protein_coding" "x" "")
    as (_ & _ & H3); [discriminate|].
  split; [|split].
  - apply H1; [reflexivity | reflexivity | right; eexists; reflexivity].
  - apply H2; reflexivity.
  - apply H3; reflexivity.
Defined.

(** X23: a feature without a name never starts a lookup.  Clicking a
    feature read from a BED line of three columns, or from a GFF line of
    nine columns whose attribute column holds neither [Name=] nor the
    [gene_name] opening, leaves the panel idle, not loading, with no
    request issued, whatever the services would have answered. *)
Theorem unnamed_feature_starts_no_lookup (fields : list string)
    (lookup : GeneInfo.fetched GeneInfo.GeneDetails)
    (pathways : GeneInfo.fetched (list GeneInfo.Pathway))
    (diagram : GeneInfo.fetched GeneInfo.Diagram) :
  Forall (fun f => hasChar Tracks.tab f = false) fields ->
  (List.length fields = 3%nat ->
   GeneInfo.geneEffect (Some (Tracks.parseBedLine (join Tracks.tab fields)))
     lookup pathways diagram
   = (GeneInfo.mkPanel None None false "idle", [])) /\
  (List.length fields = 9%nat ->
   occurs "Name=" (nth 8 fields "") = false ->
   occurs Tracks.geneNameOpening (nth 8 fields "") = false ->
   exists feature,
     Tracks.parseGffLine (join Tracks.tab fields) = Some feature /\
     GeneInfo.geneEffect (Some feature) lookup pathways diagram
     = (GeneInfo.mkPanel None None false "idle", [])).
Proof.
  intros Hf. split.
  - intros H3.
    assert (Hne : fields <> []) by (destruct fields; discriminate).
    destruct (bed_columns_of_three fields Hne Hf H3) as [Hn _].
    unfold GeneInfo.geneEffect. rewrite Hn. reflexivity.
  - intros H9 HN Hg.
    assert (Hne : fields <> []) by (destruct fields; discriminate).
    unfold Tracks.parseGffLine. rewrite (split_join Tracks.tab fields Hne Hf).
    destruct fields as [|f0 [|f1 [|f2 [|f3 [|f4 [|f5 [|f6 [|f7 [|f8 [|f9 rest]]]]]]]]]];
      try discriminate.
    cbn [nth_error nth] in *. eexists. split; [reflexivity|].
    unfold GeneInfo.geneEffect. cbn [Tracks.f_name].
    rewrite (attribute_name_none f8 HN Hg). reflexivity.
Qed.

Lemma unnamed_feature_starts_no_lookup_witness :
  GeneInfo.geneEffect
    (Some (Tracks.parseBedLine (join Tracks.tab ["chr17"; "7661779"; "7687550"])))
    (GeneInfo.Response true (GeneInfo.Value detailsTP53))
    GeneInfo.Rejected GeneInfo.Rejected
  = (GeneInfo.mkPanel None None false "idle", []).
Proof.
  apply (proj1 (unnamed_feature_starts_no_lookup ["chr17"; "7661779"; "7687550"]
                  (GeneInfo.Response true (GeneInfo.Value detailsTP53))
                  GeneInfo.Rejected GeneInfo.Rejected
                  ltac:(repeat constructor))).
  reflexivity.
Defined.

(** * Properties of the track chart *)








(** On a chart that is 1 wide the rectangle of an empty feature at the
    right end of the data begins inside the chart and ends past it. *)
Lemma narrow_chart_example :
  exists scale,
    Chart.xScale [Chart.mkItem "chr1" 0 100; Chart.mkItem "chr1" 100 100] 121
    = Some scale /\
    (Chart.chartWidth 121 == 1)%Q /\
    (Chart.rectX scale (Chart.mkItem "chr1" 100 100) < Chart.chartWidth 121)%Q /\
    (Chart.chartWidth 121
     < Chart.rectX scale (Chart.mkItem "chr1" 100 100)
       + Chart.rectWidth scale (Chart.mkItem "chr1" 100 100))%Q.
Proof. eexists. split; [reflexivity|]. vm_compute. repeat split; reflexivity. Qed.

Lemma existsb_eqb_In (c : string) (l : list string) :
  existsb (String.eqb c) l = true <-> In c l.
Proof.
  rewrite existsb_exists. split.
  - intros [x [Hx E]]. apply String.eqb_eq in E. subst x. exact Hx.
  - intros H. exists c. split; [exact H | apply String.eqb_refl].
Qed.

Lemma groupKeys_spec (data : list Chart.Item) (seen : list string) :
  NoDup (Chart.groupKeys data seen) /\
  (forall c, In c (Chart.groupKeys data seen) -> ~ In c seen) /\
  (forall d, In d data ->
             In (Chart.chromosome d) seen
             \/ In (Chart.chromosome d) (Chart.groupKeys data seen)) /\
  (forall c, In c (Chart.groupKeys data seen) ->
             exists d, In d data /\ Chart.chromosome d = c).
Proof.
  revert seen. induction data as [|d rest IH]; intros seen; simpl.
  - repeat split; try constructor; intros; contradiction.
  - destruct (existsb (String.eqb (Chart.chromosome d)) seen) eqn:E.
    + apply existsb_eqb_In in E.
      destruct (IH seen) as (Hnd & Hfresh & Hcov & Hfrom).
      repeat split; try assumption.
      * intros d' [<-|Hd']; [left; exact E | apply Hcov, Hd'].
      * intros c Hc. destruct (Hfrom c Hc) as [d' [Hd' Hc']]. exists d'. auto.
    + assert (Hn : ~ In (Chart.chromosome d) seen).
      { intros H. apply existsb_eqb_In in H. congruence. }
      destruct (IH (Chart.chromosome d :: seen)) as (Hnd & Hfresh & Hcov & Hfrom).
      repeat split.
      * constructor; [|exact Hnd]. intros H. apply (Hfresh _ H). left. reflexivity.
      * intros c [<-|Hc]; [exact Hn|]. intros Hs. apply (Hfresh c Hc). right. exact Hs.
      * intros d' [<-|Hd']; [right; left; reflexivity|].
        destruct (Hcov d' Hd') as [[H|H]|H].
        -- right. left. exact H.
        -- left. exact H.
        -- right. right. exact H.
      * intros c [<-|Hc]; [exists d; auto|].
        destruct (Hfrom c Hc) as [d' [Hd' Hc']]. exists d'. auto.
Qed.

Lemma groups_length (keys : list string) (data : list Chart.Item) :
  NoDup keys ->
  (forall d, In d data -> In (Chart.chromosome d) keys) ->
  List.length (flat_map (Chart.groupOf data) keys) = List.length data.
Proof.
  intros Hnd. induction data as [|d rest IH]; intros Hcov.
  - clear Hnd Hcov. induction keys as [|c keys' IHk]; [reflexivity|].
    simpl. exact IHk.
  - assert (Hstep : forall ks,
               List.length (flat_map (Chart.groupOf (d :: rest)) ks)
               = (List.length (flat_map (Chart.groupOf rest) ks)
                  + count_occ string_dec ks (Chart.chromosome d))%nat).
    { induction ks as [|c ks' IHk]; [reflexivity|].
      cbn [flat_map]. rewrite !length_app, IHk.
      unfold Chart.groupOf at 1. cbn [filter count_occ].
      destruct (String.eqb_spec (Chart.chromosome d) c) as [E|E].
      - destruct (string_dec c (Chart.chromosome d)) as [_|N]; [|congruence].
        unfold Chart.groupOf. simpl. lia.
      - destruct (string_dec c (Chart.chromosome d)) as [N|_]; [congruence|].
        unfold Chart.groupOf. lia. }
    rewrite Hstep, IH by (intros d' Hd'; apply Hcov; right; exact Hd').
    assert (Hone : count_occ string_dec keys (Chart.chromosome d) = 1%nat).
    { apply NoDup_count_occ'; [exact Hnd | apply Hcov; left; reflexivity]. }
    rewrite Hone. simpl. lia.
Qed.

(** X25: between the parsed data and the chart no feature is lost or
    doubled.  The rows are the distinct chromosomes of the data, each row
    holds exactly the features of its chromosome, every feature appears
    in the row of its chromosome, and the rows hold as many rectangles
    together as there are features. *)
Theorem every_feature_drawn_once (data : list Chart.Item) :
  NoDup (map fst (Chart.rows data)) /\
  (forall d, In d data ->
     In d (Chart.groupOf data (Chart.chromosome d)) /\
     In (Chart.chromosome d, Chart.groupOf data (Chart.chromosome d))
        (Chart.rows data)) /\
  (forall c row, In (c, row) (Chart.rows data) ->
     row <> [] /\
     forall d, In d row <-> In d data /\ Chart.chromosome d = c) /\
  List.length (List.concat (map snd (Chart.rows data))) = List.length data.
Proof.
  destruct (groupKeys_spec data []) as (Hnd & _ & Hcov & Hfrom).
  fold (Chart.chromosomes data) in Hnd, Hcov, Hfrom.
  assert (Hkeys : forall d, In d data -> In (Chart.chromosome d) (Chart.chromosomes data)).
  { intros d Hd. destruct (Hcov d Hd) as [[]|H]. exact H. }
  assert (Hgroup : forall c d, In d (Chart.groupOf data c)
                               <-> In d data /\ Chart.chromosome d = c).
  { intros c d. unfold Chart.groupOf. rewrite filter_In, String.eqb_eq. reflexivity. }
  split.
  { unfold Chart.rows. rewrite map_map. simpl. rewrite map_id. exact Hnd. }
  split.
  { intros d Hd. split; [apply Hgroup; auto|].
    unfold Chart.rows. apply in_map_iff. exists (Chart.chromosome d).
    split; [reflexivity | apply Hkeys, Hd]. }
  split.
  { intros c row Hin. unfold Chart.rows in Hin. apply in_map_iff in Hin.
    destruct Hin as [c' [E Hc']]. injection E as <- <-. split; [|apply Hgroup].
    destruct (Hfrom c' Hc') as [d [Hd Hc]].
    intros Hnil. assert (Hm : In d (Chart.groupOf data c')) by (apply Hgroup; auto).
    rewrite Hnil in Hm. contradiction. }
  unfold Chart.rows. rewrite map_map. simpl.
  rewrite <- flat_map_concat_map.
  apply groups_length; assumption.
Qed.

Lemma every_feature_drawn_once_witness :
  map fst (Chart.rows chartData) = ["chr17"; "chr13"] /\
  In (Chart.mkItem "chr17" 43044295 43125483) (Chart.groupOf chartData "chr17") /\
  List.length (List.concat (map snd (Chart.rows chartData))) = 3%nat.
Proof.
  destruct (every_feature_drawn_once chartData) as (_ & Hin & _ & Hlen).
  split; [reflexivity|]. split.
  - apply (Hin (Chart.mkItem "chr17" 43044295 43125483)).
    right. right. left. reflexivity.
  - exact Hlen.
Defined.
